(* ===== verification/_CoqProject ===== *)
-Q . S2P
Prelude.v
Sorting.v
Accuracy.v
LogLossHead.v
PathLoss.v
Config.v
Torch.v
TargetDataset.v
Store.v
Selector.v
Scorer.v
Trainer.v
Batching.v
ActiveLearning.v
Pretrainer.v
ImageNet.v
Persistence.v
