(* ===== verification/Prelude.v ===== *)
(** * A verification library for active-self-pretraining

    This development models, in Rocq, the active-learning pretraining loop
    of the repository (Python, PyTorch): a large unlabeled image pool is
    scored once, cut into slices of 6400, and a "proxy" encoder is trained
    batch after batch on a growing pool of selected samples, which is
    saved as the pretraining pool.

    ** The program and how its parts interact

    - [src/models/active_learning/pretext_trainer.py], class
      [PretextTrainer], is the core:
      - [do_active_learning] loads the scored pool from the cache
        [args.al_path_loss_file] or computes it with [make_batches];
      - it then runs [args.al_batches] iterations over the slices
        [path_loss[b*6400:(b+1)*6400]];
      - batch 0 keeps the first 5120 samples (the comment above it
        speaks of sampling at even intervals);
      - a later batch reloads [proxy_<b-1>.pth] and selects with
        [finetune], which computes softmax rows with the proxy and calls
        [get_new_samples] (least confidence or entropy, at most 5120);
      - except in the last batch, [train_proxy] trains the proxy on the
        whole pool through a trainer chosen by [args.method], and the
        result is saved as [proxy_<b>.pth].
    - [src/models/self_sup/simclr/trainer/simclr_trainer.py] is the
      SimCLR trainer used by [train_proxy]: its constructor (re)builds the
      model and the optimizer, and [train_epoch] runs one epoch.
    - [src/utils/commons.py] is persistence: pickled [PathLoss] lists and
      torch checkpoints, under paths built with [os.path.join].
    - [src/datautils/path_loss.py] is the [PathLoss] dataclass.
    - [src/models/heads/logloss_head.py] is a classifier head, used by
      no modelled code: its constructor replaces the [fc] layer of the
      encoder object it is given, and its [loss] calls [accuracy] of
      [commons.py].
    - [src/datautils/imagenet.py] is the ImageNet loader, whose
      constructor [first_pretrain] calls with a keyword it lacks.
    - Before active learning, [SelfSupPretrainer.first_pretrain]
      ([src/models/trainers/selfsup_pretrainer.py], with
      [base_pretrainer.py] and [src/datautils/target_dataset.py]) builds
      a loader and runs [base_pretrain].  That loop writes a checkpoint
      every 20 epochs and at the end, and points [args.resume] at the
      last one, which is the checkpoint [make_batches] then loads.

    ** Files, and how they correspond to the code

    - [Prelude] (this file) holds the generic pieces:
      - Python exceptions as the inductive [exn];
      - the state-and-exception monad [py S A := S -> (exn + A) * S],
        with notations in [py_scope];
      - the loops [py_for], [py_mapM] and [py_foldM];
      - slicing [py_slice] and the batching of a [DataLoader]
        ([data_loader], [chunks]);
      - the frame predicate [py_pres] with its hint database [pylib], and
        the rewrite database [pyrw].
    - [Sorting] has a stable insertion sort [stable_sort] (Python's
      Timsort is stable) and numpy's [argsort], with permutation,
      sortedness and stability lemmas.
    - [Accuracy] is [commons.accuracy]: the vectorised top-k count
      ([topk_scores]) and the per-sample reference [hits].
    - [LogLossHead] is the head over a heap of module objects, so that
      the mutation of the caller's encoder by [__init__] and the alias
      [fc_cls] are explicit; [forward] and [loss] are in the section
      [Head], over the encoder's forward pass and the cross-entropy.
    - [PathLoss] is the record, its generated order [pathloss_lt], and
      the descending sort of [make_batches].
    - [Config] holds [args] as the record [Args] and the enums
      [SSL_Method], [AL_Method] and [TrainingType].  These modules are
      outside [src/] and are modelled from the spec.
    - [TargetDataset] is [src/datautils/target_dataset.py]:
      [get_target_pretrain_ds], [TargetDataset.get_loader] and
      [target_loader], the loader [make_batches] and [first_pretrain]
      build; the values of [DatasetType] and [get_params] are the class
      [DatasetEnv].
    - [Torch] is the interface to PyTorch:
      - a module is its [state_dict] (a [gmap] of tensors) and a training
        flag, and [load_state_dict] works with [strict=False];
      - the class [Backend] gathers the encoder's forward passes, the
        random generator, the loader shuffle, [softmax], the criterion,
        [log] and one optimizer step;
      - its laws say that in evaluation mode a forward pass does not draw
        from the generator;
      - [test_backend] is a concrete instance, used by the concrete runs.
    - [Store] has the [World] (args, file system, generator) and the
      functions of [utils/commons.py]:
      - [save_path_loss] and [load_path_loss];
      - [simple_save_model] and [simple_load_model];
      - [save_state] and [load_saved_state].
    - [Selector] is [get_new_samples] and [get_predictions]:
      - floats that may be NaN are the type [fl], ordered as numpy orders
        them (NaN last);
      - [row_entropy] gives NaN for a probability <= 0.
    - [Scorer] is [make_batches], with its loop body [score_sample]; it
      builds the target loader of line 148 before the scan.
    - [Trainer] holds [train_proxy] and [SimCLRTrainer]:
      - a trainer is a [TrainerOps] record (state, constructor, epoch,
        scheduler step, model) with a frame law;
      - [simclr_ops] implements it from [simclr_trainer.py];
      - the DCL and MYOW trainers, outside [src/], are section variables.
    - [ActiveLearning] holds [finetune], one loop iteration
      [al_batch_step] (with [al_batch_tail]), [scored_pool] and
      [do_active_learning].  The loop state [ALState] is the Python
      variables [pretraining_sample_pool], [proxy_model] and
      [rebuild_al_model].  The trainer objects ([PretextTrainer],
      [SelfSupPretrainer]) hold a reference to the one [args] namespace
      of the program: the model keeps it once, in the [World], so that a
      mutation by one method ([al_batch_size] in [make_batches],
      [current_epoch] and [resume] in [base_pretrain]) is seen by all.
    - [Pretrainer] holds the pretraining:
      - a pretraining trainer is a [PretrainOps] record;
      - [simclr_pretrain_ops] is [SimCLRTrainer], whose [train_epoch]
        takes no epoch;
      - [base_pretrain] chooses the trainer and [run_pretrain] runs its
        epoch loop;
      - [first_pretrain] and [second_pretrain] are the entry points.
    - [Batching] gives the loader's batching a definition by
      well-founded recursion ([batches], with Equations) and relates it
      to the fuelled [chunks] and to the epoch loop of [SimCLRTrainer].
    - [ImageNet] is [ImageNet.__init__] and [ImageNet.get_loader].
    - [Persistence] composes the components: what a run of
      [do_active_learning] leaves on disk and what a later run reads,
      with the invariant [grows] (files are only added or replaced, the
      loop's configuration is kept).

    ** What the theorems show

    - The loop refines its specification: the pool is one selection per
      batch, in batch order.  The selection of batch 0 is the seed prefix;
      every later selection is a subset of at most 5120 samples of its
      own slice.
    - The loop's safety: the pool has no duplicates, is bounded by
      5120 per batch, and runs that need more samples than exist raise.
    - The checkpoint chain is equivalent to keeping the proxy in memory.
    - The cache: it is used when present; when it is not a pickle, the
      run ends with [UnpicklingError].
    - The functional behaviour of both acquisition policies, and the
      error paths of [BOTH] and of an unknown method.
    - [make_batches]: its result is sorted and is a permutation of the
      dataset; both passes give the same output in evaluation mode; and
      [al_batch_size] is not restored after an exception.
    - The trainer: an epoch raises [ZeroDivisionError] exactly when the
      loader is empty; an unknown method fails with [UnboundLocalError],
      after the loader built first has accepted the batch size.
    - Round trips of persistence, and the dataclass order.
    - Pretraining:
      - the checkpoint schedule of [base_pretrain];
      - SimCLR pretraining raises at its first epoch;
      - [make_batches] loads the last checkpoint written, through
        [args.resume];
      - the error paths of the entry points;
      - the scoring loader is shuffled.
    - Liveness of [make_batches]: it returns a result exactly when the
      level-1 checkpoint loads into the encoder and the target dataset
      is one of the five known names.
    - Persistence across components: the returned pool is what
      [args.pretrain_path_loss_file] holds afterwards; a scoring pass is
      read back from the cache; a failed save of a list is swallowed and
      leaves the file system as it was.
    - [accuracy]: where it succeeds for an [int] [topk] ([topk <= 1] or
      a single sample), the vectorised count equals the per-sample share
      of samples whose label is among their [k] best classes; its values
      lie in [0, 100]; its errors for an [int] [topk] are exactly those
      of [topk], of [expand_as], of [view(-1)] on a slice of two rows or
      more of two samples or more, and of an empty batch.
    - [LogLossHead]: [__init__] mutates the caller's encoder and aliases
      it as [fc_cls]; [forward] feeds a flattened two-dimensional tensor
      to the whole encoder, and its bare-tensor result always fails the
      assertion of [loss].
    - [ImageNet.get_loader] raises [UnboundLocalError] for SwAV and
      every method other than SimCLR and MoCo.
    - The file that states a theorem also has, under "Concrete runs",
      witnesses that evaluate the definitions with [vm_compute] on
      [test_backend].

    ** Bounds and fuel

    - The only fuel is that of [chunks_go], set to the length of the
      list.  Each step consumes [b >= 1] elements ([data_loader] refuses
      [b = 0]), so the fuel is always enough: [Batching.chunks_batches]
      proves [chunks] equal to the well-founded [batches] for every
      positive [b], and [chunks_concat] that the batches of a loader
      without [drop_last] concatenate back to the whole list.
    - The constants 6400 (slice width), 5120 (selection cap) and the
      [al_batches] loop bound are the code's.
    - Losses and probabilities are rationals [Q].  Python floats are
      modelled on their finite values, and NaN is modelled explicitly
      where the code produces it.

    ** What is not modelled, and assumptions

    - Neural-network arithmetic (convolutions, autograd, optimizer
      updates) is not modelled: the encoder and the optimizer step are
      operations of [Backend] with abstract results.
    - [get_model_criterion] (outside [src/]) is taken to return the
      encoder unchanged together with the back end's criterion.
    - The loader [PretextDataLoader] (outside [src/]) is taken to refuse
      a batch size of 0 when built, to batch by [args.al_batch_size], to
      reshuffle each epoch, and to drop an incomplete last batch when its
      [drop_last] flag is set.
    - The loader of [make_batches] is built by the modelled
      [target_loader]; its iteration ([MakeBatchDataset] and the SwAV
      loader are outside [src/]) is taken to yield every sample of the
      dataset once, in a shuffled order, one per step: the batch size 1
      the code sets in [args.al_batch_size] before building it.
    - The DCL, SwAV and MYOW trainers are parameters of the trainer
      interfaces.  They are assumed to update their model and optimizer
      in place, as [SimCLRTrainer] does, so that [base_pretrain] saves
      their current state.
    - Dataset classes, transforms, [get_params] and the values of
      [DatasetType] are parameters or constructors.  [is not] on
      strings is read as value inequality.
    - [torch.topk] leaves its order among equal scores unspecified;
      [Accuracy] takes the lower class index first.  Tensors of the head
      are their shape and their entries; [AdaptiveAvgPool2d] is the mean
      of each window.
    - The values of [utils.method_enum.Method] and the [args] fields the
      ImageNet loader reads beyond [Args] are section variables.
    - Not modelled: [pil_loader], which opens and decodes an image file
      and changes no state of the program; the module imports; and
      [BasePretrainer.__init__], whose only effect, storing [args], is the
      [World]'s single [args]. *)

From stdpp Require Export base list gmap strings pretty.
From Stdlib Require Export QArith.

(** [QArith] opens [Q_scope]; arithmetic on indices stays in [nat]. *)
Open Scope nat_scope.

(** Syntactic equality of rationals is decidable. *)
#[export] Instance Q_eq_dec : EqDecision Q.
Proof. solve_decision. Defined.

(** ** Python exceptions *)

Inductive exn : Type :=
| ValueError (msg : string)
| TypeError (msg : string)
| IndexError
| KeyError (key : string)
| UnboundLocalError (var : string)
| ZeroDivisionError
| RuntimeError (msg : string)
| OSError (path : string)
| UnpicklingError
| AttributeError (msg : string)
| AssertionError (msg : string).

(** Code that raises but has no state to thread is a function into
    [exn + A]; stdpp's [x ← m; k] and [mret] are its monad. *)
#[export] Instance exn_ret : MRet (sum exn) := fun A a => inr a.
#[export] Instance exn_bind : MBind (sum exn) :=
  fun A B f m => match m with inl e => inl e | inr a => f a end.

(** ** A state and exception monad

    [py S A] is a computation over a mutable state [S] that returns an [A]
    or raises an exception; the state reached when the exception is raised
    is kept, as in Python where side effects done before a [raise]
    persist. *)

Definition py (S A : Type) : Type := S -> (exn + A) * S.

Definition py_ret {S A} (a : A) : py S A := fun s => (inr a, s).
Definition py_raise {S A} (e : exn) : py S A := fun s => (inl e, s).
Definition py_bind {S A B} (m : py S A) (k : A -> py S B) : py S B :=
  fun s => match m s with
           | (inl e, s') => (inl e, s')
           | (inr a, s') => k a s'
           end.
Definition py_get {S} : py S S := fun s => (inr s, s).
Definition py_put {S} (s : S) : py S unit := fun _ => (inr tt, s).
Definition py_modify {S} (f : S -> S) : py S unit := fun s => (inr tt, f s).
Definition py_lift {S A} (r : exn + A) : py S A := fun s => (r, s).

Declare Scope py_scope.
Delimit Scope py_scope with py.
Notation "x <- m ;; k" := (py_bind m (fun x => k))
  (at level 100, m at next level, right associativity) : py_scope.
Notation "m ;;; k" := (py_bind m (fun _ => k))
  (at level 100, right associativity) : py_scope.
Open Scope py_scope.

(** A Python [for x in l: body] loop. *)
Fixpoint py_for {S B} (l : list B) (body : B -> py S unit) : py S unit :=
  match l with
  | [] => py_ret tt
  | x :: l' => body x ;;; py_for l' body
  end.

(** Collecting the results of a loop body into a list, in order. *)
Fixpoint py_mapM {S A B} (f : A -> py S B) (l : list A) : py S (list B) :=
  match l with
  | [] => py_ret []
  | x :: l' => y <- f x ;; ys <- py_mapM f l' ;; py_ret (y :: ys)
  end.

(** A loop that threads an accumulator, [for x in l: acc = f(acc, x)]. *)
Fixpoint py_foldM {S A B} (f : A -> B -> py S A) (l : list B) (a : A) : py S A :=
  match l with
  | [] => py_ret a
  | x :: l' => a' <- f a x ;; py_foldM f l' a'
  end.

(** ** [torch.utils.data.DataLoader] batching

    [chunks b drop_last l] cuts [l] into consecutive batches of [b]
    elements; the last, shorter batch is dropped when [drop_last].  The
    recursion is bounded by a fuel argument, [length l], which is enough
    since every step consumes [b > 0] elements. *)
Fixpoint chunks_go {A} (fuel b : nat) (drop_last : bool) (l : list A) : list (list A) :=
  match fuel, l with
  | 0, _ | _, [] => []
  | S f, _ => if drop_last && (length l <? b) then []
              else take b l :: chunks_go f b drop_last (drop b l)
  end.

Definition chunks {A} (b : nat) (drop_last : bool) (l : list A) : list (list A) :=
  chunks_go (length l) b drop_last l.

(** [DataLoader(dataset, batch_size=b)]: a batch size of 0 is refused. *)
Definition data_loader {A} (b : nat) (drop_last : bool) (l : list A) : exn + list (list A) :=
  if b =? 0 then inl (ValueError "batch_size should be a positive integer value")
  else inr (chunks b drop_last l).

(** A loop body that returns [g x] and leaves the state alone. *)
Lemma py_mapM_pure {St A B} (f : A -> py St B) (g : A -> B) l s :
  (forall x, x ∈ l -> f x s = (inr (g x), s)) -> py_mapM f l s = (inr (map g l), s).
Proof.
  induction l as [|x l IH]; intros Hf; [done|]. simpl. unfold py_bind.
  rewrite Hf by set_solver. rewrite IH; [done|]. set_solver.
Qed.

(** ** Python list slicing: [l[i:j]] for non-negative [i], [j]. *)
Definition py_slice {A} (l : list A) (i j : nat) : list A :=
  take (j - i) (drop i l).

Create HintDb pylib.
Create Rewrite HintDb pyrw.

(** ** Shared lemmas *)

Lemma py_bind_ret {S A B} (a : A) (k : A -> py S B) s :
  py_bind (py_ret a) k s = k a s.
Proof. reflexivity. Qed.

Lemma py_bind_raise {S A B} e (k : A -> py S B) s :
  py_bind (py_raise e) k s = (inl e, s).
Proof. reflexivity. Qed.

Lemma py_bind_assoc {S A B C} (m : py S A) (k : A -> py S B) (h : B -> py S C) s :
  py_bind (py_bind m k) h s = py_bind m (fun a => py_bind (k a) h) s.
Proof. unfold py_bind. destruct (m s) as [[e|a] s']; reflexivity. Qed.

#[export] Hint Rewrite @py_bind_ret @py_bind_raise @py_bind_assoc : pyrw.

Lemma py_bind_ext {S A B} (m : py S A) (k1 k2 : A -> py S B) s :
  (forall a s', k1 a s' = k2 a s') -> py_bind m k1 s = py_bind m k2 s.
Proof. intros H. unfold py_bind. destruct (m s) as [[e|a] s']; auto. Qed.

Lemma py_bind_get {S B} (k : S -> py S B) s : py_bind py_get k s = k s s.
Proof. reflexivity. Qed.

(** Two computations that agree on a state can be followed by the same
    continuation. *)
Lemma py_bind_eq_l {S A B} (m1 m2 : py S A) (k : A -> py S B) s :
  m1 s = m2 s -> py_bind m1 k s = py_bind m2 k s.
Proof. intros H. unfold py_bind. by rewrite H. Qed.

Lemma py_for_app {S B} (l1 l2 : list B) (body : B -> py S unit) s :
  py_for (l1 ++ l2) body s = py_bind (py_for l1 body) (fun _ => py_for l2 body) s.
Proof.
  revert s. induction l1 as [|x l1 IH]; intros s; simpl; [reflexivity|].
  rewrite py_bind_assoc. apply py_bind_ext. intros _ s'. apply IH.
Qed.

(** A loop of the error monad succeeds with [r] exactly when every
    iteration succeeds with the matching element of [r]. *)
Lemma mapM_exn_Forall2 {A B} (f : A -> exn + B) l r :
  mapM (M := sum exn) f l = inr r <-> Forall2 (fun a b => f a = inr b) l r.
Proof.
  revert r. induction l as [|a l IH]; intros r; simpl.
  - split; [by intros [= <-]|by inversion 1].
  - unfold mbind, exn_bind, mret, exn_ret. destruct (f a) as [e|b] eqn:Ef.
    + split; [done|]. inversion 1; congruence.
    + destruct (mapM f l) as [e|r'] eqn:Er.
      * split; [done|]. inversion 1 as [|? ? ? r'' Hb Hr]; subst.
        apply IH in Hr. congruence.
      * split; [intros [= <-]; constructor; [done|by apply IH]|].
        inversion 1 as [|? ? ? r'' Hb Hr]; subst. apply IH in Hr. congruence.
Qed.

Lemma length_py_slice {A} (l : list A) i j :
  length (py_slice l i j) = (j - i) `min` (length l - i).
Proof. unfold py_slice. by rewrite length_take, length_drop. Qed.

Lemma py_slice_sublist {A} (l : list A) i j x :
  x ∈ py_slice l i j -> x ∈ l.
Proof.
  unfold py_slice. intros Hx.
  apply elem_of_take in Hx as [k [Hk _]].
  apply list_elem_of_lookup. rewrite lookup_drop in Hk. eauto.
Qed.

Lemma elem_of_py_slice {A} (l : list A) i j x :
  x ∈ py_slice l i j -> exists k, l !! k = Some x /\ i <= k < j.
Proof.
  unfold py_slice. intros (k & Hk & Hlt)%elem_of_take.
  rewrite lookup_drop in Hk. exists (i + k). split; [done|lia].
Qed.

Lemma NoDup_py_slice {A} (l : list A) i j : NoDup l -> NoDup (py_slice l i j).
Proof.
  intros Hl. unfold py_slice. eapply sublist_NoDup; [|apply sublist_take].
  eapply sublist_NoDup; [done|apply sublist_drop].
Qed.

(** A list of lists each of length at most [c]. *)
Lemma length_join_le {A} (ls : list (list A)) c :
  (forall i l, ls !! i = Some l -> length l <= c) -> length (mjoin ls) <= length ls * c.
Proof.
  induction ls as [|l ls IH]; intros Hc; simpl; [lia|].
  rewrite length_app. specialize (Hc 0 l eq_refl) as Hl.
  assert (length (mjoin ls) <= length ls * c) by (apply IH; intros i; apply (Hc (S i))). lia.
Qed.

(** Consecutive slices of width [w] tile a prefix of the list. *)
Lemma py_slice_consecutive {A} (l : list A) w n :
  mjoin (map (fun b => py_slice l (b * w) (S b * w)) (seq 0 n)) = take (n * w) l.
Proof.
  induction n as [|n IH]; [reflexivity|].
  rewrite seq_S, map_app, join_app, IH. simpl. rewrite app_nil_r.
  unfold py_slice.
  replace (S n * w - n * w) with w by lia.
  rewrite take_take_drop. f_equal. lia.
Qed.

#[export] Hint Rewrite @length_py_slice : pyrw.

(** An invariant indexed by the number of loop iterations done is kept by
    [py_foldM] over [seq k m] when each iteration keeps it. *)
Lemma py_foldM_seq_inv {St A} (P : nat -> A -> St -> Prop) (f : A -> nat -> py St A) :
  (forall k a s a' s', P k a s -> f a k s = (inr a', s') -> P (S k) a' s') ->
  forall m k a s a' s', P k a s -> py_foldM f (seq k m) a s = (inr a', s') -> P (k + m) a' s'.
Proof.
  intros Hstep m. induction m as [|m IH]; intros k a s a' s' Hp Hrun; simpl in Hrun.
  - injection Hrun as <- <-. by rewrite Nat.add_0_r.
  - unfold py_bind in Hrun. destruct (f a k s) as [[e|a1] s1] eqn:E; [done|].
    replace (k + S m) with (S k + m) by lia. eapply IH; [|exact Hrun]. eauto.
Qed.

(** A loop whose body always succeeds and keeps [P] succeeds. *)
Lemma py_foldM_seq_total {St A} (P : nat -> A -> St -> Prop) (f : A -> nat -> py St A) :
  (forall k a s, P k a s -> exists a' s', f a k s = (inr a', s') /\ P (S k) a' s') ->
  forall m k a s, P k a s ->
  exists a' s', py_foldM f (seq k m) a s = (inr a', s') /\ P (k + m) a' s'.
Proof.
  intros Hstep m. induction m as [|m IH]; intros k a s Hp; simpl.
  - exists a, s. by rewrite Nat.add_0_r.
  - destruct (Hstep k a s Hp) as (a1 & s1 & E & Hp1). unfold py_bind. rewrite E.
    replace (k + S m) with (S k + m) by lia. by apply IH.
Qed.

(** ** Frame conditions: a computation that leaves a projection [g] of the
    state unchanged, whatever it returns. *)
Definition py_pres {St T A} (g : St -> T) (m : py St A) : Prop :=
  forall s r s', m s = (r, s') -> g s' = g s.

Lemma py_pres_ret {St T A} (g : St -> T) (a : A) : py_pres g (py_ret a).
Proof. by intros s r s' [= _ <-]. Qed.

Lemma py_pres_raise {St T A} (g : St -> T) e : py_pres g (@py_raise St A e).
Proof. by intros s r s' [= _ <-]. Qed.

Lemma py_pres_get {St T} (g : St -> T) : py_pres g py_get.
Proof. by intros s r s' [= _ <-]. Qed.

Lemma py_pres_lift {St T A} (g : St -> T) (r0 : exn + A) : py_pres g (py_lift r0).
Proof. by intros s r s' [= _ <-]. Qed.

Lemma py_pres_bind {St T A B} (g : St -> T) (m : py St A) (k : A -> py St B) :
  py_pres g m -> (forall a, py_pres g (k a)) -> py_pres g (py_bind m k).
Proof.
  intros Hm Hk s r s'. unfold py_bind. destruct (m s) as [[e|a] s1] eqn:E.
  - intros [= _ <-]. by eapply Hm.
  - intros H. rewrite (Hk a _ _ _ H). by eapply Hm.
Qed.

Lemma py_pres_foldM {St T A B} (g : St -> T) (f : A -> B -> py St A) l a :
  (forall a x, py_pres g (f a x)) -> py_pres g (py_foldM f l a).
Proof.
  intros Hf. revert a. induction l as [|x l IH]; intros a; simpl.
  - apply py_pres_ret.
  - apply py_pres_bind; auto.
Qed.

#[export] Hint Resolve py_pres_ret py_pres_raise py_pres_get py_pres_lift
  py_pres_bind py_pres_foldM : pylib.

(** With enough fuel, the batches of [chunks] cover the list. *)
Lemma chunks_go_concat {A} fuel b (l : list A) :
  0 < b -> length l <= fuel * b -> mjoin (chunks_go fuel b false l) = l.
Proof.
  revert l. induction fuel as [|f IH]; intros l Hb Hl; simpl.
  - destruct l; simpl in *; [done|lia].
  - destruct l as [|x l']; [done|]. simpl (false && _). cbn [mjoin list_join].
    rewrite IH; [apply take_drop|done|]. rewrite length_drop. simpl in *. lia.
Qed.

Lemma chunks_nil {A} b drop_last (l : list A) :
  0 < b -> chunks b drop_last l = [] <-> l = [] \/ (drop_last = true /\ length l < b).
Proof.
  intros Hb. unfold chunks. destruct l as [|x l']; simpl; [by split; [left|]|].
  destruct drop_last; simpl; [|split; [done|by intros [|[]]]].
  destruct (Nat.ltb_spec (S (length l')) b); split; try done.
  - intros _. by right.
  - intros [|[_ ?]]; [done|lia].
Qed.

Lemma chunks_concat {A} b (l : list A) : 0 < b -> mjoin (chunks b false l) = l.
Proof. intros Hb. apply chunks_go_concat; [done|]. nia. Qed.

(** The tactic that runs a [py] program on a state: unfold the monad's
    operations and reduce. *)
Ltac py_simpl :=
  cbv beta iota zeta delta [py_bind py_ret py_get py_put py_modify py_lift py_raise] in *.
