(* ===== verification/Sorting.v ===== *)
(** * Stable sorting and argsort

    The program sorts in two places: [sorted(pathloss, key=lambda x:
    x.loss, reverse=True)] in [make_batches] (Python's sort is stable, and
    [reverse=True] keeps equal keys in their original order), and numpy's
    [argsort] in [get_new_samples].  Both are modelled by one stable
    insertion sort [stable_sort] on a boolean total preorder; [argsort]
    sorts the indices [0 .. n-1] by the values they point to.  This file
    holds the sort, its permutation, sortedness and stability theorems,
    and the commutation of sorting with a key map. *)

From S2P Require Import Prelude.
From Stdlib Require Import Sorted.

Section StableSort.
Context {A : Type} (le : A -> A -> bool).

(** [insert x l] puts [x] before the first element [y] with [le x y]:
    elements equal to [x] that are already in [l] stay after it. *)
Fixpoint insert (x : A) (l : list A) : list A :=
  match l with
  | [] => [x]
  | y :: l' => if le x y then x :: y :: l' else y :: insert x l'
  end.

Fixpoint stable_sort (l : list A) : list A :=
  match l with
  | [] => []
  | x :: l' => insert x (stable_sort l')
  end.

(** Two elements are equivalent when each is below the other. *)
Definition equivb (x y : A) : bool := le x y && le y x.

Lemma insert_perm x l : insert x l ≡ₚ x :: l.
Proof.
  induction l as [|y l IH]; simpl; [done|].
  destruct (le x y); [done|]. rewrite IH. constructor.
Qed.

Lemma stable_sort_perm l : stable_sort l ≡ₚ l.
Proof.
  induction l as [|x l IH]; simpl; [done|]. by rewrite insert_perm, IH.
Qed.

Lemma length_stable_sort l : length (stable_sort l) = length l.
Proof. apply Permutation_length, stable_sort_perm. Qed.

Lemma elem_of_stable_sort x l : x ∈ stable_sort l <-> x ∈ l.
Proof. apply elem_of_Permutation_proper, stable_sort_perm. Qed.

Section Preorder.
Hypothesis le_total : forall a b, le a b = true \/ le b a = true.
Hypothesis le_trans : forall a b c, le a b = true -> le b c = true -> le a c = true.

Definition le_rel (a b : A) : Prop := le a b = true.

Lemma insert_sorted x l : Sorted le_rel l -> Sorted le_rel (insert x l).
Proof.
  induction 1 as [|y l Hl IH Hhd]; simpl; [by repeat constructor|].
  destruct (le x y) eqn:Exy.
  - by repeat constructor.
  - assert (Hyx : le y x = true) by (destruct (le_total x y); congruence).
    constructor; [done|].
    destruct l as [|z l]; simpl; [by constructor|].
    inversion Hhd as [|? ? Hyz]; subst. simpl in IH.
    destruct (le x z); constructor; done.
Qed.

Lemma stable_sort_sorted l : Sorted le_rel (stable_sort l).
Proof. induction l; simpl; [constructor | by apply insert_sorted]. Qed.

Lemma stable_sort_strongly_sorted l : StronglySorted le_rel (stable_sort l).
Proof.
  apply Sorted_StronglySorted; [|apply stable_sort_sorted].
  intros a b c; apply le_trans.
Qed.

Lemma equivb_trans a b c : equivb a b = true -> equivb b c = true -> equivb a c = true.
Proof.
  unfold equivb. rewrite !andb_true_iff. intros [] []. eauto.
Qed.

(** Inserting [x] keeps the relative order of the class of any [c]. *)
Lemma filter_insert c x l :
  StronglySorted le_rel l ->
  filter (fun y => equivb c y = true) (insert x l)
  = filter (fun y => equivb c y = true) (x :: l).
Proof.
  induction l as [|y l IH]; intros Hs; simpl; [done|].
  destruct (le x y) eqn:Exy; [done|].
  inversion Hs as [|? ? Hs' Hall]; subst.
  rewrite filter_cons, IH by done.
  rewrite !filter_cons.
  destruct (decide (equivb c y = true)) as [Hy|Hy];
    destruct (decide (equivb c x = true)) as [Hx|Hx]; try done.
  exfalso. unfold equivb in *. apply andb_true_iff in Hy as [Hcy Hyc].
  apply andb_true_iff in Hx as [Hcx Hxc].
  assert (le x y = true) by eauto. congruence.
Qed.

(** Stability: within every class of equivalent elements, the sorted
    list lists the elements in their input order. *)
Lemma stable_sort_stable c l :
  filter (fun y => equivb c y = true) (stable_sort l)
  = filter (fun y => equivb c y = true) l.
Proof.
  induction l as [|x l IH]; simpl; [done|].
  rewrite filter_insert by apply stable_sort_strongly_sorted.
  by rewrite !filter_cons, IH.
Qed.
End Preorder.
End StableSort.

(** Sorting by a key commutes with mapping the key. *)
Lemma stable_sort_map {A B} (le : B -> B -> bool) (f : A -> B) l :
  map f (stable_sort (fun a b => le (f a) (f b)) l) = stable_sort le (map f l).
Proof.
  induction l as [|x l IH]; simpl; [done|]. rewrite <- IH.
  generalize (stable_sort (fun a b => le (f a) (f b)) l) as k.
  induction k as [|y k IHk]; simpl; [done|].
  destruct (le (f x) (f y)); simpl; by rewrite ?IHk.
Qed.

(** ** numpy's [argsort] on a one-dimensional array

    [argsort le xs] lists the indices of [xs] ordered by the values they
    point to; equal values keep increasing indices. *)
Definition argsort {K} (le : K -> K -> bool) (xs : list K) : list nat :=
  map snd (stable_sort (fun p q => le p.1 q.1) (zip xs (seq 0 (length xs)))).

Lemma length_argsort {K} (le : K -> K -> bool) xs : length (argsort le xs) = length xs.
Proof.
  unfold argsort. rewrite length_map, length_stable_sort, length_zip, length_seq. lia.
Qed.

Lemma argsort_perm {K} (le : K -> K -> bool) xs : argsort le xs ≡ₚ seq 0 (length xs).
Proof.
  unfold argsort. rewrite stable_sort_perm, snd_zip; [done|].
  rewrite length_seq. lia.
Qed.

(** The values read through the indices of [argsort] are the sorted values. *)
Lemma argsort_values {K} (le : K -> K -> bool) xs :
  map fst (stable_sort (fun p q => le p.1 q.1) (zip xs (seq 0 (length xs))))
  = stable_sort le xs.
Proof.
  rewrite (stable_sort_map le fst). rewrite fst_zip; [done|]. rewrite length_seq. lia.
Qed.

#[export] Hint Resolve stable_sort_perm argsort_perm : pylib.
#[export] Hint Rewrite @length_stable_sort @length_argsort : pyrw.

Lemma elem_of_argsort {K} (le : K -> K -> bool) xs i :
  i ∈ argsort le xs <-> i < length xs.
Proof. rewrite (argsort_perm le xs), elem_of_seq. lia. Qed.

Lemma argsort_NoDup {K} (le : K -> K -> bool) xs : NoDup (argsort le xs).
Proof. rewrite (argsort_perm le xs). apply NoDup_seq. Qed.

Lemma elem_of_zip_seq {K} (xs : list K) s x i :
  (x, i) ∈ zip xs (seq s (length xs)) -> s <= i /\ xs !! (i - s) = Some x.
Proof.
  revert s. induction xs as [|y xs IH]; intros s Hin; simpl in Hin.
  - by apply elem_of_nil in Hin.
  - apply elem_of_cons in Hin as [[= -> ->]|Hin].
    + by rewrite Nat.sub_diag.
    + apply IH in Hin as [Hle Hl]. split; [lia|].
      replace (i - s) with (S (i - S s)) by lia. done.
Qed.

(** Reading [xs] through the indices of [argsort] gives the sorted values. *)
Lemma argsort_lookup {K} (le : K -> K -> bool) xs :
  map (fun i => xs !! i) (argsort le xs) = map Some (stable_sort le xs).
Proof.
  rewrite <- argsort_values. unfold argsort. rewrite !map_map.
  apply map_ext_in. intros [x i] Hin%list_elem_of_In. simpl.
  apply elem_of_stable_sort, elem_of_zip_seq in Hin as [_ Hl].
  by rewrite Nat.sub_0_r in Hl.
Qed.
