(* ===== verification/Accuracy.v ===== *)
(** * Top-k accuracy ([accuracy] in [src/utils/commons.py])

    [accuracy(pred, target, topk=1)] takes the scores [pred] of shape
    [(N, C)] and the labels [target] of [N] samples.  It asks
    [pred.topk(maxk, dim=1)] for the [maxk] best classes of every sample,
    transposes them to a [(maxk, N)] matrix, compares each row with the
    labels broadcast by [expand_as], and for every [k] of [topk] counts
    the hits of the first [k] rows, scaled by [100.0 / N].

    The model keeps the vectorised computation of the code (transpose,
    broadcast, elementwise [eq], [correct[:k].view(-1).sum()]) and proves
    it equal, where it succeeds, to the per-sample reference: the share
    of samples whose label is among their [k] best classes.  [correct]
    keeps the strides of the transposed [pred_label], so [view(-1)]
    raises [RuntimeError] on a slice of [k >= 2] rows of [N >= 2]
    samples: [accuracy] succeeds with [topk >= 2] only on one sample.

    Scores are rationals; [torch.topk] returns the indices of the largest
    entries, largest first, and its order among equal scores is not
    specified: the model takes the lower index first (a stable sort).
    Labels and the entries of [topk] are non-negative integers. *)

From S2P Require Import Prelude Sorting.

(** A two-dimensional tensor of shape [(N, C)]: its rows and [C]. *)
Record Matrix : Type := { m_rows : list (list Q); m_cols : nat }.

Definition matrix_wf (m : Matrix) : Prop := Forall (fun r => length r = m_cols m) (m_rows m).

(** The [topk] argument: an [int], a [tuple], or a value of another type. *)
Inductive TopK : Type := TopInt (k : nat) | TopTuple (ks : list nat) | TopOther.

(** [res[0] if return_single else res]: [return_single] holds when
    [topk] is an [int]. *)
Inductive AccResult : Type := AccSingle (q : Q) | AccList (qs : list Q).

(** [max(topk)] *)
Definition py_max (ks : list nat) : exn + nat :=
  match ks with
  | [] => inl (ValueError "max() arg is an empty sequence")
  | k :: ks' => inr (foldl Nat.max k ks')
  end.

(** The [maxk] best classes of one row, best first. *)
Definition row_topk (maxk : nat) (row : list Q) : list nat :=
  take maxk (argsort (fun a b => Qle_bool b a) row).

(** [pred.topk(maxk, dim=1)]: the indices, of shape [(N, maxk)]. *)
Definition topk_indices (maxk : nat) (pred : Matrix) : exn + list (list nat) :=
  if m_cols pred <? maxk then inl (RuntimeError "selected index k out of range")
  else inr (map (row_topk maxk) (m_rows pred)).

(** [pred_label.t()] of an [(N, k)] matrix. *)
Definition transpose (k : nat) (m : list (list nat)) : list (list nat) :=
  map (fun j => map (fun r => nth j r 0) m) (seq 0 k).

(** [target.view(1, -1).expand_as(pred_label)] for [pred_label] of shape
    [(k, n)]: the row of labels is repeated [k] times; a single label is
    broadcast along the row as well. *)
Definition expand_target (target : list nat) (k n : nat) : exn + list (list nat) :=
  if length target =? n then inr (replicate k target)
  else match target with
       | [t] => inr (replicate k (replicate n t))
       | _ => inl (RuntimeError "The expanded size of the tensor must match the existing size")
       end.

(** [pred_label.eq(...)] *)
Definition eq_matrix (a b : list (list nat)) : list (list bool) :=
  zip_with (zip_with Nat.eqb) a b.

(** [.float().sum()] of a boolean vector. *)
Definition count_true (l : list bool) : nat := sum_list_with Nat.b2n l.

(** [correct] is computed elementwise from the transposed [pred_label],
    whose strides are [(1, maxk)], and keeps them.  [correct[:k]] is a
    [(k', N)] tensor with [k' = min(k, maxk)] and the same strides, and
    [view(-1)] can merge its two dimensions only when one of them has
    size 1 or none holds an element: for [k' >= 2] and [N >= 2] it
    raises [RuntimeError]. *)
Definition view_msg : string :=
  "view size is not compatible with input tensor's size and stride".

(** [rows.view(-1)] for the [(length rows, n)] slice [rows] of [correct]. *)
Definition view_flat (rows : list (list bool)) (n : nat) : exn + list bool :=
  if (2 <=? length rows) && (2 <=? n) then inl (RuntimeError view_msg) else inr (mjoin rows).

(** [correct[:k].view(-1).float().sum(0, keepdim=True)] for [correct] of
    [n] columns. *)
Definition correct_k (correct : list (list bool)) (k n : nat) : exn + nat :=
  flat ← view_flat (take k correct) n;
  mret (count_true flat).

(** [correct_k.mul_(100.0 / pred.size(0))]: a float division by [N]. *)
Definition scale (c n : nat) : exn + Q :=
  if n =? 0 then inl ZeroDivisionError
  else inr (inject_Z (Z.of_nat c) * (100 / inject_Z (Z.of_nat n)))%Q.

(** Lines 71-79 of [accuracy]: the scores for every [k] of [topk], in
    order; the first [k] that fails stops the loop. *)
Definition topk_scores (pred : Matrix) (target : list nat) (ks : list nat) : exn + list Q :=
  maxk ← py_max ks;
  labels ← topk_indices maxk pred;
  let pred_label := transpose maxk labels in
  let n := length (m_rows pred) in
  expanded ← expand_target target maxk n;
  let correct := eq_matrix pred_label expanded in
  mapM (M := sum exn) (fun k => c ← correct_k correct k n; scale c n) ks.

Definition accuracy (pred : Matrix) (target : list nat) (topk : TopK) : exn + AccResult :=
  ks ← (match topk with
         | TopInt k => inr [k]
         | TopTuple ks => inr ks
         | TopOther => inl (AssertionError "isinstance(topk, (int, tuple))")
         end : exn + list nat);
  res ← topk_scores pred target ks;
  mret (match topk with
        | TopInt _ => AccSingle (default 0%Q (head res))
        | _ => AccList res
        end).

(** The values an [accuracy] result holds. *)
Definition acc_values (r : AccResult) : list Q :=
  match r with AccSingle q => [q] | AccList qs => qs end.

(** ** The per-sample reference *)

(** The number of samples whose label is among their [k] best classes. *)
Definition hits (k : nat) (rows : list (list Q)) (labels : list nat) : nat :=
  length (filter (fun p : list Q * nat => bool_decide (p.2 ∈ row_topk k p.1)) (zip rows labels)).

(** [c * (100.0 / n)]: the value [scale] returns for [n > 0]. *)
Definition pct (c n : nat) : Q := (inject_Z (Z.of_nat c) * (100 / inject_Z (Z.of_nat n)))%Q.

(** ** Counting *)
Lemma count_true_app l1 l2 : count_true (l1 ++ l2) = count_true l1 + count_true l2.
Proof. apply sum_list_with_app. Qed.

(** Counting the first column apart from the others. *)
Lemma count_true_join_cons {J} (f : J -> bool) (g : J -> list bool) js :
  count_true (mjoin (map (fun j => f j :: g j) js)) =
  count_true (map f js) + count_true (mjoin (map g js)).
Proof.
  induction js as [|j js IH]; [done|]. simpl.
  rewrite !count_true_app in *. simpl. lia.
Qed.

(** A list without duplicates holds [t] at most once. *)
Lemma count_eqb_NoDup l t :
  NoDup l -> count_true (map (fun x => x =? t) l) = if bool_decide (t ∈ l) then 1 else 0.
Proof.
  induction 1 as [|x l Hx Hnd IH]; [done|]. unfold count_true in *. simpl.
  destruct (Nat.eqb_spec x t) as [->|Hne]; simpl.
  - rewrite IH, bool_decide_eq_false_2 by done. by rewrite bool_decide_eq_true_2 by set_solver.
  - rewrite IH. case_bool_decide; case_bool_decide; set_solver.
Qed.

Lemma count_true_le l : count_true l <= length l.
Proof. induction l as [|[] l IH]; simpl; lia. Qed.

Lemma map_nth_seq (l : list nat) k : k <= length l -> map (fun j => nth j l 0) (seq 0 k) = take k l.
Proof.
  intros Hk. apply list_eq. intros i. change (map ?f ?l) with (f <$> l).
  rewrite list_lookup_fmap, lookup_take.
  destruct (decide (i < k)) as [Hi|Hi].
  - rewrite lookup_seq_lt by done. simpl. rewrite nth_lookup.
    by destruct (lookup_lt_is_Some_2 l i ltac:(lia)) as [x ->].
  - by rewrite lookup_seq_ge by lia.
Qed.

(** ** The vectorised count is the per-sample count *)

Lemma length_row_topk maxk row : maxk <= length row -> length (row_topk maxk row) = maxk.
Proof. intros H. unfold row_topk. rewrite length_take, length_argsort. lia. Qed.

Lemma NoDup_row_topk maxk row : NoDup (row_topk maxk row).
Proof. unfold row_topk. eapply sublist_NoDup; [|apply sublist_take]. apply argsort_NoDup. Qed.

Lemma take_row_topk k maxk row : k <= maxk -> take k (row_topk maxk row) = row_topk k row.
Proof. intros H. unfold row_topk. rewrite take_take. f_equal. lia. Qed.

(** Row [j] of [pred_label.eq(target...)] reads column [j] of every sample. *)
Lemma eq_matrix_transpose m (labels : list (list nat)) tgt :
  eq_matrix (transpose m labels) (replicate m tgt) =
  map (fun j => zip_with Nat.eqb (map (fun r => nth j r 0) labels) tgt) (seq 0 m).
Proof.
  unfold eq_matrix, transpose.
  replace (replicate m tgt) with (replicate (length (seq 0 m)) tgt) by by rewrite length_seq.
  generalize (seq 0 m). intros js. induction js as [|j js IH]; [done|]. simpl. by rewrite IH.
Qed.

Lemma count_correct_hits rows tgt maxk k :
  Forall (fun r => maxk <= length r) rows -> length tgt = length rows -> k <= maxk ->
  count_true (mjoin (take k (eq_matrix (transpose maxk (map (row_topk maxk) rows))
                                        (replicate maxk tgt)))) =
  hits k rows tgt.
Proof.
  intros Hrows Hlen Hk. rewrite eq_matrix_transpose.
  rewrite <- fmap_take, take_seq. replace (k `min` maxk) with k by lia.
  revert tgt Hlen. induction Hrows as [|row rows Hrow Hrows IH]; intros [|t ts] Hlen;
    simpl in Hlen; try lia.
  { unfold hits. simpl. induction (seq 0 k) as [|? ? IH]; [done|exact IH]. }
  simpl. rewrite count_true_join_cons, IH by lia.
  replace (map _ (seq 0 k)) with (map (fun x => x =? t) (take k (row_topk maxk row))).
  2:{ rewrite <- map_nth_seq by (rewrite length_row_topk; lia). by rewrite map_map. }
  rewrite count_eqb_NoDup.
  2:{ apply (sublist_NoDup _ (row_topk maxk row)); [apply NoDup_row_topk|apply sublist_take]. }
  rewrite take_row_topk by done. unfold hits. simpl. rewrite filter_cons. simpl.
  by case_bool_decide.
Qed.

(** ** Evaluation of the steps *)

Lemma py_max_ge ks m : py_max ks = inr m -> Forall (fun k => k <= m) ks.
Proof.
  destruct ks as [|k ks]; [done|]. intros [= <-].
  assert (forall a, a <= foldl Nat.max a ks /\ Forall (fun k => k <= foldl Nat.max a ks) ks)
    as H by (induction ks as [|k' ks IH]; intros a; simpl; [auto|];
             destruct (IH (Nat.max a k')) as [H1 H2]; split; [lia|constructor; [lia|done]]).
  constructor; apply H.
Qed.

Lemma topk_indices_ok maxk pred :
  maxk <= m_cols pred -> topk_indices maxk pred = inr (map (row_topk maxk) (m_rows pred)).
Proof. intros H. unfold topk_indices. by rewrite (proj2 (Nat.ltb_ge _ _) H). Qed.

(** The row the labels are broadcast to, when [expand_as] accepts them. *)
Lemma expand_target_ok target k n expanded :
  expand_target target k n = inr expanded ->
  exists tgt, expanded = replicate k tgt /\ length tgt = n /\
    (tgt = target \/ exists t, target = [t] /\ tgt = replicate n t).
Proof.
  unfold expand_target. destruct (Nat.eqb_spec (length target) n) as [Hn|Hn].
  - intros [= <-]. eauto.
  - destruct target as [|t [|]]; [done| |done]. intros [= <-].
    exists (replicate n t). rewrite length_replicate. eauto 10.
Qed.

Lemma length_eq_matrix_transpose m (labels : list (list nat)) tgt :
  length (eq_matrix (transpose m labels) (replicate m tgt)) = m.
Proof.
  unfold eq_matrix, transpose. rewrite length_zip_with, length_map, length_seq, length_replicate.
  lia.
Qed.

(** One iteration of the loop over [topk]: it succeeds exactly when
    [view(-1)] accepts the slice and the batch is not empty. *)
Lemma score_step_inr correct k n q :
  (c ← correct_k correct k n; scale c n) = inr q <->
  0 < n /\ (length (take k correct) <= 1 \/ n <= 1) /\
  q = pct (count_true (mjoin (take k correct))) n.
Proof.
  unfold correct_k, view_flat, scale, mbind, exn_bind, mret, exn_ret, pct.
  destruct (Nat.leb_spec 2 (length (take k correct))), (Nat.leb_spec 2 n),
    (Nat.eqb_spec n 0); simpl; split; try (intros [= <-]; split; [lia|split; [lia|done]]);
    try done; intros (? & [?|?] & ->); (done || lia).
Qed.

(** Every percentage of [hits] lies in [0, 100]. *)
Lemma pct_hits_bounds k rows tgt :
  length tgt = length rows -> 0 < length rows ->
  (0 <= pct (hits k rows tgt) (length rows) <= 100)%Q.
Proof.
  intros Hl Hn. assert (hits k rows tgt <= length rows) as Hh.
  { unfold hits. etransitivity; [apply length_filter|]. rewrite length_zip. lia. }
  unfold pct. set (h := hits k rows tgt) in *. set (n := length rows) in *.
  assert (0 < inject_Z (Z.of_nat n))%Q as Hq
    by (change 0%Q with (inject_Z 0); rewrite <- Zlt_Qlt; lia).
  assert (inject_Z (Z.of_nat h) <= inject_Z (Z.of_nat n))%Q as Hle by (rewrite <- Zle_Qle; lia).
  assert (0 <= inject_Z (Z.of_nat h))%Q as H0
    by (change 0%Q with (inject_Z 0); rewrite <- Zle_Qle; lia).
  assert (inject_Z (Z.of_nat h) * (100 / inject_Z (Z.of_nat n)) ==
          (100 * inject_Z (Z.of_nat h)) / inject_Z (Z.of_nat n))%Q as -> by (unfold Qdiv; ring).
  split.
  - apply Qle_shift_div_l; [done|]. rewrite Qmult_0_l.
    apply Qmult_le_0_compat; [discriminate|done].
  - apply Qle_shift_div_r; [done|]. by apply Qmult_le_l.
Qed.

(** ** The result of a successful call *)

Lemma topk_scores_inv pred target ks res :
  matrix_wf pred -> topk_scores pred target ks = inr res ->
  exists tgt, length tgt = length (m_rows pred) /\ 0 < length (m_rows pred) /\
    (tgt = target \/ exists t, target = [t] /\ tgt = replicate (length (m_rows pred)) t) /\
    Forall (fun k => k <= 1 \/ length (m_rows pred) <= 1) ks /\
    res = map (fun k => pct (hits k (m_rows pred) tgt) (length (m_rows pred))) ks.
Proof.
  intros Hwf. unfold topk_scores, mbind at 1 2 3, exn_bind.
  destruct (py_max ks) as [e|maxk] eqn:Hm; [done|]. pose proof (py_max_ge _ _ Hm) as Hge.
  destruct (decide (maxk <= m_cols pred)) as [Hc|Hc].
  2:{ unfold topk_indices. by rewrite (proj2 (Nat.ltb_lt _ _)) by lia. }
  rewrite topk_indices_ok by done.
  destruct (expand_target _ _ _) as [e|ex] eqn:He; [done|].
  apply expand_target_ok in He as (tgt & -> & Htl & Ht).
  intros Hres%mapM_exn_Forall2. exists tgt. split; [done|].
  assert (Hrows : Forall (fun r => maxk <= length r) (m_rows pred))
    by (eapply Forall_impl; [exact Hwf|]; simpl; lia).
  destruct ks as [|k0 ks0]; [discriminate Hm|].
  inversion Hres as [|? ? ? ? Hq0%score_step_inr _]; subst. split; [by destruct Hq0|].
  split; [done|]. clear Hq0 Hm.
  induction Hres as [|k q ks res Hq%score_step_inr _ IH]; [done|].
  apply Forall_cons in Hge as [Hk Hge]. destruct IH as [IHf ->]; [done|].
  destruct Hq as (_ & Hv & ->). rewrite length_take, length_eq_matrix_transpose in Hv.
  split; [constructor; [lia|done]|]. simpl. f_equal. f_equal. by apply count_correct_hits.
Qed.

Lemma accuracy_inv pred target topk r :
  matrix_wf pred -> accuracy pred target topk = inr r ->
  exists ks res, topk_scores pred target ks = inr res /\ acc_values r = take (length ks) res /\
    (forall k, topk = TopInt k -> ks = [k]) /\ ks <> [].
Proof.
  intros Hwf. unfold accuracy, mbind, exn_bind.
  destruct topk as [k|ks|]; [| |done];
    (destruct (topk_scores _ _ _) as [e|res] eqn:E; [done|]); intros [= <-];
    destruct (topk_scores_inv _ _ _ _ Hwf E) as (tgt & _ & _ & _ & _ & Hres).
  - exists [k], res. split; [done|]. rewrite Hres. split; [done|]. split; [by intros ? [= ->]|done].
  - exists ks, res. split; [done|]. simpl. rewrite take_ge by (rewrite Hres, length_map; lia).
    split; [done|]. split; [done|]. intros ->. discriminate E.
Qed.

(** Runs the straight-line part of [accuracy] on an [int] [topk]. *)
Local Ltac acc_simpl :=
  cbv beta iota zeta delta [accuracy topk_scores mbind exn_bind mret exn_ret py_max foldl].

(** A failing branch of an error characterisation. *)
Local Ltac decide_err :=
  split; [intros Hx; try discriminate Hx; injection Hx as <-; naive_solver lia
         |intros Hx; naive_solver lia].

(** Evaluates one iteration of the loop over [topk] once the branch
    conditions are known. *)
Local Ltac score_simpl :=
  cbn [mapM]; unfold correct_k, view_flat, scale, mbind, exn_bind, mret, exn_ret;
  rewrite ?length_take, ?length_eq_matrix_transpose, ?Nat.min_id.

(** C31. Equivalence of the vectorised top-k count with the per-sample
    definition: for an [int] [topk = k] no larger than the number of
    classes, labels for every sample and a non-empty batch, where
    [view(-1)] accepts the slice (top-1, or a single sample), [accuracy]
    returns [100 * hits / N], where [hits] is the number of samples
    whose label is among the [k] classes of highest score. *)
Theorem accuracy_topk_hits pred target k :
  matrix_wf pred -> k <= m_cols pred -> (k <= 1 \/ length (m_rows pred) = 1) ->
  length target = length (m_rows pred) -> m_rows pred <> [] ->
  accuracy pred target (TopInt k) =
    inr (AccSingle (pct (hits k (m_rows pred) target) (length (m_rows pred)))).
Proof.
  intros Hwf Hk Hv Hl Hne. acc_simpl.
  rewrite topk_indices_ok by done. unfold expand_target. rewrite (proj2 (Nat.eqb_eq _ _) Hl).
  assert (0 < length (m_rows pred)) by (destruct (m_rows pred); simpl; [done|lia]).
  score_simpl.
  rewrite (proj2 (Nat.eqb_neq _ 0)) by lia.
  destruct (Nat.leb_spec 2 k), (Nat.leb_spec 2 (length (m_rows pred))); simpl; try lia.
  all: unfold pct; rewrite count_correct_hits; [done| |done|done];
    eapply Forall_impl; [exact Hwf|]; simpl; lia.
Qed.

(** C32. Bounds: every accuracy a successful call returns, for an [int]
    or a [tuple] [topk], lies between 0 and 100; the count of hits never
    exceeds the batch size, since the [maxk] classes of a sample are
    distinct. *)
Theorem accuracy_bounds pred target topk r :
  matrix_wf pred -> accuracy pred target topk = inr r ->
  Forall (fun q => 0 <= q <= 100)%Q (acc_values r).
Proof.
  intros Hwf Ha. destruct (accuracy_inv _ _ _ _ Hwf Ha) as (ks & res & Hs & -> & _ & _).
  destruct (topk_scores_inv _ _ _ _ Hwf Hs) as (tgt & Htl & Hn & _ & _ & ->).
  apply Forall_take, Forall_forall. intros q (k & <- & _)%list_elem_of_In%in_map_iff.
  by apply pct_hits_bounds.
Qed.

(** C33. The errors of [accuracy] with an [int] [topk], all of them:
    [topk] larger than the number of classes ([RuntimeError] of
    [topk]); labels that [expand_as] cannot broadcast, neither one per
    sample nor a single one ([RuntimeError]); [topk >= 2] on a batch of
    two samples or more, whose slice [view(-1)] cannot flatten
    ([RuntimeError]); an empty batch ([ZeroDivisionError] of
    [100.0 / pred.size(0)]). *)
Theorem accuracy_int_error pred target k e :
  accuracy pred target (TopInt k) = inl e <->
  (m_cols pred < k /\ e = RuntimeError "selected index k out of range") \/
  (k <= m_cols pred /\ length target <> length (m_rows pred) /\ length target <> 1 /\
   e = RuntimeError "The expanded size of the tensor must match the existing size") \/
  (k <= m_cols pred /\ (length target = length (m_rows pred) \/ length target = 1) /\
   2 <= k /\ 2 <= length (m_rows pred) /\ e = RuntimeError view_msg) \/
  (k <= m_cols pred /\ length (m_rows pred) = 0 /\ length target <= 1 /\ e = ZeroDivisionError).
Proof.
  acc_simpl. unfold topk_indices.
  destruct (Nat.ltb_spec (m_cols pred) k) as [Hlt|Hge]; [decide_err|].
  unfold expand_target.
  destruct (Nat.eqb_spec (length target) (length (m_rows pred))) as [Heq|Hne];
    [|destruct target as [|t [|t' ts]]; simpl in Hne; [| |decide_err]];
    try decide_err; score_simpl;
    destruct (Nat.leb_spec 2 k), (Nat.leb_spec 2 (length (m_rows pred)));
    try rewrite length_replicate; try destruct (Nat.leb_spec 2 (length (m_rows pred)));
    destruct (Nat.eqb_spec (length (m_rows pred)) 0); simpl; decide_err.
Qed.

(** ** Concrete runs *)

(** Three samples, two classes; the third sample is a tie. *)
Definition acc_pred : Matrix := {| m_rows := [[1; 9]; [8; 2]; [3; 3]]%Q; m_cols := 2 |}.

Lemma accuracy_topk_hits_witness :
  matrix_wf acc_pred /\ 1 <= m_cols acc_pred /\ (1 <= 1 \/ length (m_rows acc_pred) = 1) /\
  length [1; 1; 1] = length (m_rows acc_pred) /\ m_rows acc_pred <> [] /\
  accuracy acc_pred [1; 1; 1] (TopInt 1) =
    inr (AccSingle (pct (hits 1 (m_rows acc_pred) [1; 1; 1]) (length (m_rows acc_pred)))).
Proof.
  assert (Hwf : matrix_wf acc_pred) by repeat constructor.
  split; [exact Hwf|]. split; [simpl; lia|]. split; [left; lia|].
  split; [reflexivity|]. split; [discriminate|].
  apply accuracy_topk_hits; [exact Hwf|simpl; lia|left; lia|reflexivity|discriminate].
Defined.

(** One sample, top-1 and top-2: the shape on which [view(-1)] accepts a
    slice of two rows. *)
Definition acc_pred1 : Matrix := {| m_rows := [[1; 9; 4]]%Q; m_cols := 3 |}.

Lemma accuracy_bounds_witness :
  exists r, accuracy acc_pred1 [2] (TopTuple [1; 2]) = inr r /\
    Forall (fun q => 0 <= q <= 100)%Q (acc_values r).
Proof.
  eexists. split; [reflexivity|].
  apply (accuracy_bounds acc_pred1 [2] (TopTuple [1; 2])); [repeat constructor|reflexivity].
Defined.
