(* ===== verification/LogLossHead.v ===== *)
(** * The classifier head ([src/models/heads/logloss_head.py])

    [LogLossHead(encoder, with_avg_pool, in_channels, num_classes)]
    replaces the [fc] attribute of the encoder object it is given by
    [nn.Linear(in_channels, num_classes)] and keeps that same object as
    [fc_cls].  The encoder is shared with the caller: the model keeps a
    heap of module objects ([Heap]) and the head holds their addresses,
    so that the mutation of [__init__] is seen through every reference.

    [forward(x)] asserts that [x] is a one-element tuple or list, pools a
    4-dimensional tensor when [with_avg_pool], flattens it with
    [x.view(x.size(0), -1)] and calls [fc_cls], the whole encoder.
    [loss(cls_score, labels)] asserts that [cls_score] is a one-element
    tuple or list and returns the cross-entropy loss and the top-1
    [accuracy] of its element.

    Tensors are their shape and their entries in row-major order.  The
    encoder's forward pass and [nn.CrossEntropyLoss] belong to PyTorch and
    are section variables. *)

From S2P Require Import Prelude Sorting Accuracy.

(** A tensor: its shape and its entries, row-major. *)
Record Tensor : Type := { t_shape : list nat; t_data : list Q }.

Definition numel (t : Tensor) : nat := foldr Nat.mul 1 (t_shape t).

(** The Python values [forward] and [loss] are called with. *)
Inductive PyArg : Type :=
| PTensor (t : Tensor)
| PTuple (items : list PyArg)
| PList (items : list PyArg)
| POther.

(** A layer held by a module attribute. *)
Inductive Layer : Type :=
| Linear (in_features out_features : nat)
| OtherLayer (name : string).

(** A module object of the heap: its [fc] attribute and the rest of its
    parameters. *)
Record ModuleObj : Type := { fc : Layer; body : gmap string (list Q) }.

Definition set_fc (m : ModuleObj) (l : Layer) : ModuleObj := {| fc := l; body := body m |}.

Definition loc : Type := nat.
Definition Heap : Type := gmap loc ModuleObj.

Record LogLossHead : Type := {
  encoder : loc;
  with_avg_pool : bool;
  in_channels : nat;
  num_classes : nat;
  has_avg_pool : bool;
  fc_cls : loc
}.

(** The losses dictionary [{'loss': ..., 'acc': ...}]. *)
Record Losses : Type := { loss_value : Q; acc_value : AccResult }.

(** ** [__init__] *)

(** [self.encoder.fc = nn.Linear(in_channels, num_classes)]: an attribute
    store into the shared object. *)
Definition set_encoder_fc (enc : loc) (l : Layer) : py Heap unit :=
  h <- py_get ;;
  match h !! enc with
  | Some m => py_put (<[enc := set_fc m l]> h)
  | None => py_raise (AttributeError "encoder")
  end.

Definition loglosshead_init (enc : loc) (with_avg_pool : bool) (in_channels num_classes : nat)
    : py Heap LogLossHead :=
  set_encoder_fc enc (Linear in_channels num_classes) ;;;
  py_ret {| encoder := enc; with_avg_pool := with_avg_pool; in_channels := in_channels;
            num_classes := num_classes; has_avg_pool := with_avg_pool; fc_cls := enc |}.

(** ** [forward] *)

(** [nn.AdaptiveAvgPool2d((1, 1))] on a tensor of shape [(N, C, H, W)]:
    the mean of every [H x W] window. *)
Definition avg_pool (t : Tensor) : Tensor :=
  match t_shape t with
  | [n; c; hh; ww] =>
      let win := hh * ww in
      {| t_shape := [n; c; 1; 1];
         t_data := map (fun i => (foldr Qplus 0 (take win (drop (i * win) (t_data t)))
                                  / inject_Z (Z.of_nat win))%Q) (seq 0 (n * c)) |}
  | _ => t
  end.

(** [x.view(x.size(0), -1)] *)
Definition flatten (t : Tensor) : exn + Tensor :=
  match t_shape t with
  | [] => inl (IndexError)
  | 0 :: _ => inl (RuntimeError "cannot reshape tensor of 0 elements into shape [0, -1]")
  | n :: _ => inr {| t_shape := [n; numel t / n]; t_data := t_data t |}
  end.

(** [assert isinstance(x, (tuple, list)) and len(x) == 1; x = x[0]] *)
Definition single_item (x : PyArg) : exn + PyArg :=
  match x with
  | PTuple [y] | PList [y] => inr y
  | _ => inl (AssertionError EmptyString)
  end.

Section Head.
(** [module(x)] for a module object of the heap. *)
Variable module_forward : ModuleObj -> Tensor -> exn + Tensor.
(** [nn.CrossEntropyLoss()(scores, labels)] *)
Variable cross_entropy : Tensor -> list nat -> exn + Q.

Definition forward (self : LogLossHead) (x : PyArg) : py Heap PyArg :=
  x0 <- py_lift (single_item x) ;;
  t <- py_lift (match x0 with
                | PTensor t => inr t
                | _ => inl (AttributeError (if with_avg_pool self then "dim" else "view"))
                end) ;;
  t <- (if with_avg_pool self
        then if length (t_shape t) =? 4 then py_ret (avg_pool t)
             else py_raise (AssertionError ("Tensor must has 4 dims, got: " +:+ pretty (length (t_shape t))))
        else py_ret t) ;;
  t <- py_lift (flatten t) ;;
  h <- py_get ;;
  match h !! fc_cls self with
  | Some m => cls_score <- py_lift (module_forward m t) ;; py_ret (PTensor cls_score)
  | None => py_raise (AttributeError "fc_cls")
  end.

(** The scores of a two-dimensional tensor, as [accuracy] reads them:
    [pred.topk(maxk, dim=1)] needs a second dimension, and
    [pred_label.t()] at most two. *)
Definition to_matrix (t : Tensor) : exn + Matrix :=
  match t_shape t with
  | [] | [_] => inl IndexError
  | [n; c] => inr {| m_rows := map (fun i => take c (drop (i * c) (t_data t))) (seq 0 n);
                     m_cols := c |}
  | _ => inl (RuntimeError "t() expects a tensor with <= 2 dimensions")
  end.

(** [loss(cls_score, labels)] *)
Definition loss (self : LogLossHead) (cls_score : PyArg) (labels : list nat) : exn + Losses :=
  s ← single_item cls_score;
  t ← (match s with PTensor t => inr t | _ => inl (AttributeError "size") end : exn + Tensor);
  l ← cross_entropy t labels;
  pred ← to_matrix t;
  a ← accuracy pred labels (TopInt 1);
  mret {| loss_value := l; acc_value := a |}.
End Head.

Section HeadFacts.
Variable module_forward : ModuleObj -> Tensor -> exn + Tensor.
Variable cross_entropy : Tensor -> list nat -> exn + Q.

(** [__init__] stores the new [fc] into the caller's encoder object and
    makes [fc_cls] an alias of it; no other object changes. *)
Theorem loglosshead_init_aliases enc wap ic nc h m :
  h !! enc = Some m ->
  exists self, loglosshead_init enc wap ic nc h = (inr self, <[enc := set_fc m (Linear ic nc)]> h) /\
    encoder self = enc /\ fc_cls self = enc /\ has_avg_pool self = wap.
Proof.
  intros Hm. unfold loglosshead_init, set_encoder_fc. py_simpl. rewrite Hm. by eexists.
Qed.

(** A successful [forward]: the heap is unchanged, and [fc_cls] (the
    whole encoder object) was called on a two-dimensional tensor, whose
    rows are the flattened samples; its output is returned as a bare
    tensor. *)
Lemma forward_inv self x h r h' :
  forward module_forward self x h = (inr r, h') ->
  h' = h /\ exists m t n k, h !! fc_cls self = Some m /\ t_shape t = [n; k] /\ 0 < n /\
    exists out, module_forward m t = inr out /\ r = PTensor out.
Proof.
  unfold forward. py_simpl.
  destruct (single_item x) as [e|x0]; [done|]. simpl.
  destruct x0 as [t| | |]; try done. simpl.
  set (pooled := if with_avg_pool self then _ else _).
  destruct (pooled h) as [[e|t1] h1] eqn:Ep; [subst pooled; by repeat case_match; simplify_eq|].
  assert (h1 = h) as -> by (subst pooled; repeat case_match; by simplify_eq).
  destruct (flatten t1) as [e|t2] eqn:Ef; [done|]. simpl.
  destruct (h !! fc_cls self) as [m|] eqn:Hm; [|done].
  destruct (module_forward m t2) as [e|out] eqn:Ec; [done|]. intros [= <- <-].
  split; [done|]. exists m, t2.
  unfold flatten in Ef. destruct (t_shape t1) as [|[|n] rest] eqn:Hs; try done.
  injection Ef as <-. exists (S n), (numel t1 / S n). split; [done|]. split; [done|].
  split; [lia|]. eauto.
Qed.

(** C34. The head's two methods do not compose: [forward] returns
    [cls_score] as a bare tensor (the commented-out version returned
    [[cls_score]]), while [loss] asserts a one-element tuple or list, so
    [loss(forward(x), labels)] fails its assertion whenever [forward]
    succeeds. *)
Theorem forward_loss_assertion self x h r h' labels :
  forward module_forward self x h = (inr r, h') ->
  loss cross_entropy self r labels = inl (AssertionError EmptyString).
Proof. by intros (_ & m & t & n & k & _ & _ & _ & out & _ & ->)%forward_inv. Qed.
End HeadFacts.

(** ** Concrete runs *)
Definition test_heap : Heap := {[ 0 := {| fc := OtherLayer "fc"; body := ∅ |} ]}.

Definition test_head : LogLossHead :=
  {| encoder := 0; with_avg_pool := false; in_channels := 3; num_classes := 2;
     has_avg_pool := false; fc_cls := 0 |}.

(** A batch of two samples of three features. *)
Definition test_input : PyArg :=
  PList [PTensor {| t_shape := [2; 3]; t_data := [1; 2; 3; 4; 5; 6]%Q |}].

Lemma forward_loss_assertion_witness :
  exists r h', forward (fun _ t => inr t) test_head test_input test_heap = (inr r, h') /\
    loss (fun _ _ => inr 0%Q) test_head r [0; 1] = inl (AssertionError EmptyString).
Proof.
  destruct (forward (fun _ t => inr t) test_head test_input test_heap) as [[e|r] h'] eqn:E;
    [vm_compute in E; discriminate|].
  exists r, h'. split; [done|]. exact (forward_loss_assertion _ _ _ _ _ _ _ _ E).
Defined.
