(* ===== verification/PathLoss.v ===== *)
(** * The [PathLoss] record ([src/datautils/path_loss.py])

    [@dataclass(order=True) class PathLoss] has three fields in this
    order: [sort_index] (not an argument of [__init__], set to [loss] by
    [__post_init__]), [path] and [loss].  [order=True] generates [__lt__]
    comparing the tuples [(sort_index, path, loss)] lexicographically.
    Losses are Python floats; they are modelled by rationals [Q], which
    keeps their order and equality on finite values.  The file also holds
    the loss-descending sort of [make_batches] (Python's [sorted] with
    [key=lambda x: x.loss, reverse=True]). *)

From S2P Require Import Prelude Sorting.
From Stdlib Require Import Sorted.

Record PathLoss : Type := {
  sort_index : Q;
  path : string;
  loss : Q
}.

(** [PathLoss(path, loss)]: [__init__] followed by [__post_init__]. *)
Definition mk_PathLoss (p : string) (l : Q) : PathLoss :=
  {| sort_index := l; path := p; loss := l |}.

(** A record built by the constructor keeps [sort_index = loss]. *)
Definition pathloss_wf (x : PathLoss) : Prop := sort_index x = loss x.

(** The generated [__lt__]: lexicographic on [(sort_index, path, loss)]. *)
Definition pathloss_cmp (a b : PathLoss) : comparison :=
  match Qcompare (sort_index a) (sort_index b) with
  | Eq => match String.compare (path a) (path b) with
          | Eq => Qcompare (loss a) (loss b)
          | c => c
          end
  | c => c
  end.

Definition pathloss_lt (a b : PathLoss) : bool :=
  match pathloss_cmp a b with Lt => true | _ => false end.

(** [key=lambda x: x.loss, reverse=True]: [x] may precede [y] when its
    loss is at least [y]'s. *)
Definition loss_ge (a b : PathLoss) : bool := Qle_bool (loss b) (loss a).

(** [sorted(pathloss, key=lambda x: x.loss, reverse=True)] *)
Definition sorted_by_loss_desc (l : list PathLoss) : list PathLoss :=
  stable_sort loss_ge l.

(** ** Shared facts on [Q] comparisons *)

Lemma Qle_bool_total a b : Qle_bool a b = true \/ Qle_bool b a = true.
Proof.
  rewrite !Qle_bool_iff. destruct (Qlt_le_dec a b); [left|right]; auto.
  by apply Qlt_le_weak.
Qed.

Lemma Qle_bool_trans a b c :
  Qle_bool a b = true -> Qle_bool b c = true -> Qle_bool a c = true.
Proof. rewrite !Qle_bool_iff. apply Qle_trans. Qed.

Lemma loss_ge_total a b : loss_ge a b = true \/ loss_ge b a = true.
Proof. unfold loss_ge. destruct (Qle_bool_total (loss a) (loss b)); auto. Qed.

Lemma loss_ge_trans a b c :
  loss_ge a b = true -> loss_ge b c = true -> loss_ge a c = true.
Proof. unfold loss_ge. intros. eapply Qle_bool_trans; eauto. Qed.

#[export] Hint Resolve Qle_bool_total Qle_bool_trans loss_ge_total loss_ge_trans : pylib.

Lemma mk_PathLoss_wf p l : pathloss_wf (mk_PathLoss p l).
Proof. reflexivity. Qed.

Lemma Forall_map_mk_PathLoss_wf {A} (f : A -> string) (g : A -> Q) l :
  Forall pathloss_wf (map (fun x => mk_PathLoss (f x) (g x)) l).
Proof.
  apply Forall_forall. intros x (a & <- & _)%list_elem_of_In%in_map_iff. apply mk_PathLoss_wf.
Qed.

(** Adjacent elements of a [Sorted] list, read by index. *)
Lemma Sorted_lookup {A} (R : A -> A -> Prop) (l : list A) i x y :
  Sorted R l -> l !! i = Some x -> l !! S i = Some y -> R x y.
Proof.
  intros Hs. revert i. induction Hs as [|a l Hl IH Hhd]; intros i Hx Hy; [done|].
  destruct i as [|i]; simpl in *.
  - injection Hx as <-. destruct l as [|b l]; [done|]. simpl in Hy.
    injection Hy as <-. by inversion Hhd.
  - eauto.
Qed.

Lemma sorted_by_loss_desc_sorted l : Sorted (le_rel loss_ge) (sorted_by_loss_desc l).
Proof. apply stable_sort_sorted; auto with pylib. Qed.

(** C21. The generated [__lt__] orders by loss and, between equal losses,
    by path: the order is not a function of the loss alone. *)
Theorem pathloss_lt_spec a b :
  pathloss_wf a -> pathloss_wf b ->
  pathloss_lt a b = true <->
  (loss a < loss b)%Q \/ ((loss a == loss b)%Q /\ String.compare (path a) (path b) = Lt).
Proof.
  unfold pathloss_wf, pathloss_lt, pathloss_cmp. intros -> ->.
  destruct (Qcompare_spec (loss a) (loss b)) as [Heq|Hlt|Hgt].
  - destruct (String.compare (path a) (path b)) eqn:Ec.
    + split; [done|]. intros [Hlt|[_ ?]]; [|done].
      exfalso. by apply (Qlt_not_eq _ _ Hlt).
    + split; [intros _; by right|done].
    + split; [done|]. intros [Hlt|[_ ?]]; [|done]. exfalso. by apply (Qlt_not_eq _ _ Hlt).
  - split; [intros _; by left|done].
  - split; [done|]. intros [Hlt|[Heq _]].
    + exfalso. apply (Qlt_not_le _ _ Hgt). by apply Qlt_le_weak.
    + exfalso. apply (Qlt_not_eq _ _ Hgt). by symmetry.
Qed.

(** ** Concrete runs *)
Lemma pathloss_lt_spec_witness :
  pathloss_wf (mk_PathLoss "a.png" 1) /\ pathloss_wf (mk_PathLoss "b.png" 1) /\
  pathloss_lt (mk_PathLoss "a.png" 1) (mk_PathLoss "b.png" 1) = true /\
  (pathloss_lt (mk_PathLoss "a.png" 1) (mk_PathLoss "b.png" 1) = true <->
   (1 < 1)%Q \/ ((1 == 1)%Q /\ String.compare "a.png" "b.png" = Lt)).
Proof.
  split; [reflexivity|]. split; [reflexivity|]. split; [reflexivity|].
  apply (pathloss_lt_spec (mk_PathLoss "a.png" 1) (mk_PathLoss "b.png" 1)); reflexivity.
Defined.
