(* ===== verification/Config.v ===== *)
(** * Configuration: the [args] namespace and the enums

    Every function of the program receives [args], an [argparse]
    namespace that some functions also mutate ([al_batch_size],
    [global_step], [current_epoch], [resume]).  [Args] is the record of
    the fields the modelled code reads or writes.  The enums
    [SSL_Method], [AL_Method] and [TrainingType] live in modules outside
    [src/] ([models/utils/ssl_method_enum.py],
    [models/active_learning/al_method_enum.py],
    [models/utils/training_type_enum.py]); their members are those the
    code uses and their string values are taken from the spec's names. *)

From S2P Require Import Prelude.

Inductive SSL_Method : Type := SIMCLR | DCL | MYOW | SWAV | SUPERVISED.

Definition ssl_value (m : SSL_Method) : string :=
  match m with
  | SIMCLR => "simclr" | DCL => "dcl" | MYOW => "myow"
  | SWAV => "swav" | SUPERVISED => "supervised"
  end.

Inductive AL_Method : Type := LEAST_CONFIDENCE | ENTROPY | BOTH.

Definition al_value (m : AL_Method) : string :=
  match m with
  | LEAST_CONFIDENCE => "least_confidence" | ENTROPY => "entropy" | BOTH => "both"
  end.

Inductive TrainingType : Type :=
  BASE_PRETRAIN | TARGET_PRETRAIN | ACTIVE_LEARNING | AL_FINETUNING.

#[export] Instance TrainingType_eq_dec : EqDecision TrainingType.
Proof. solve_decision. Defined.

Record Args : Type := {
  method : string;
  al_method : string;
  al_batches : nat;
  al_epochs : nat;
  al_batch_size : nat;
  model_path : string;
  al_path_loss_file : string;
  pretrain_path_loss_file : string;
  resume : option string;
  epoch_num : nat;
  current_epoch : nat;
  global_step : nat;
  base_epochs : nat;
  start_epoch : nat;
  target_epochs : nat;
  base_optimizer : string;
  target_optimizer : string;
  base_dataset : string;
  target_dataset : string;
  dataset_dir : string
}.

(** Functional updates of the mutable fields. *)
Definition set_al_batch_size (a : Args) (n : nat) : Args :=
  {| method := method a; al_method := al_method a; al_batches := al_batches a;
     al_epochs := al_epochs a; al_batch_size := n; model_path := model_path a;
     al_path_loss_file := al_path_loss_file a;
     pretrain_path_loss_file := pretrain_path_loss_file a; resume := resume a;
     epoch_num := epoch_num a; current_epoch := current_epoch a;
     global_step := global_step a; base_epochs := base_epochs a;
     start_epoch := start_epoch a; target_epochs := target_epochs a;
     base_optimizer := base_optimizer a; target_optimizer := target_optimizer a;
     base_dataset := base_dataset a; target_dataset := target_dataset a;
     dataset_dir := dataset_dir a |}.

Definition set_global_step (a : Args) (n : nat) : Args :=
  {| method := method a; al_method := al_method a; al_batches := al_batches a;
     al_epochs := al_epochs a; al_batch_size := al_batch_size a; model_path := model_path a;
     al_path_loss_file := al_path_loss_file a;
     pretrain_path_loss_file := pretrain_path_loss_file a; resume := resume a;
     epoch_num := epoch_num a; current_epoch := current_epoch a;
     global_step := n; base_epochs := base_epochs a;
     start_epoch := start_epoch a; target_epochs := target_epochs a;
     base_optimizer := base_optimizer a; target_optimizer := target_optimizer a;
     base_dataset := base_dataset a; target_dataset := target_dataset a;
     dataset_dir := dataset_dir a |}.

Definition set_resume (a : Args) (r : option string) : Args :=
  {| method := method a; al_method := al_method a; al_batches := al_batches a;
     al_epochs := al_epochs a; al_batch_size := al_batch_size a; model_path := model_path a;
     al_path_loss_file := al_path_loss_file a;
     pretrain_path_loss_file := pretrain_path_loss_file a; resume := r;
     epoch_num := epoch_num a; current_epoch := current_epoch a;
     global_step := global_step a; base_epochs := base_epochs a;
     start_epoch := start_epoch a; target_epochs := target_epochs a;
     base_optimizer := base_optimizer a; target_optimizer := target_optimizer a;
     base_dataset := base_dataset a; target_dataset := target_dataset a;
     dataset_dir := dataset_dir a |}.

Definition set_current_epoch (a : Args) (n : nat) : Args :=
  {| method := method a; al_method := al_method a; al_batches := al_batches a;
     al_epochs := al_epochs a; al_batch_size := al_batch_size a; model_path := model_path a;
     al_path_loss_file := al_path_loss_file a;
     pretrain_path_loss_file := pretrain_path_loss_file a; resume := resume a;
     epoch_num := epoch_num a; current_epoch := n;
     global_step := global_step a; base_epochs := base_epochs a;
     start_epoch := start_epoch a; target_epochs := target_epochs a;
     base_optimizer := base_optimizer a; target_optimizer := target_optimizer a;
     base_dataset := base_dataset a; target_dataset := target_dataset a;
     dataset_dir := dataset_dir a |}.

(** Python truthiness of [args.resume]: [None] and the empty string are false. *)
Definition resume_truthy (r : option string) : bool :=
  match r with Some s => negb (bool_decide (s = EmptyString)) | None => false end.

(** The fields of [args] that no operation of the active-learning loop
    writes: the loop's configuration. *)
Definition al_static (a : Args) :=
  (method a, al_method a, al_batches a, al_epochs a, al_batch_size a,
   model_path a, al_path_loss_file a, pretrain_path_loss_file a).
