(* ===== verification/Torch.v ===== *)
(** * The PyTorch interface the program is written against

    PyTorch is a library the sources call, not code of this repository:
    this file states what the program relies on.  A module's parameters
    are a state dict (parameter name to tensor); a module is its state
    dict and its [training] flag; [load_state_dict(sd, strict=False)]
    copies the entries of [sd] whose names the module has, ignores the
    others, and raises on a shape mismatch.  The encoder's forward passes,
    softmax, the criterion and the training step are operations of the
    class [Backend], whose laws say what the code assumes of them: in
    evaluation mode a forward pass does not draw from the random number
    generator and depends on the weights and the input only. *)

From S2P Require Import Prelude.
From Stdlib Require Import Qabs.

Definition tensor : Type := list Q.
Abbreviation state_dict := (gmap string tensor).

Record nn_module : Type := { weights : state_dict; training : bool }.

(** [model.eval()] and [model.train()] *)
Definition eval_mode (m : nn_module) : nn_module := {| weights := weights m; training := false |}.
Definition train_mode (m : nn_module) : nn_module := {| weights := weights m; training := true |}.

(** [load_state_dict(sd, strict=False)]: every parameter of the module that
    [sd] names takes [sd]'s tensor; a tensor of another length raises. *)
Definition shapes_match (m : nn_module) (sd : state_dict) : Prop :=
  map_Forall (fun k v => length (default v (sd !! k)) = length v) (weights m).

#[export] Instance shapes_match_dec m sd : Decision (shapes_match m sd).
Proof. unfold shapes_match. apply _. Defined.

Definition load_state_dict (m : nn_module) (sd : state_dict) : exn + nn_module :=
  if decide (shapes_match m sd)
  then inr {| weights := map_imap (fun k v => Some (default v (sd !! k))) (weights m);
              training := training m |}
  else inl (RuntimeError "size mismatch").

Lemma load_state_dict_lookup m sd m' k :
  load_state_dict m sd = inr m' ->
  weights m' !! k = (fun v => default v (sd !! k)) <$> weights m !! k.
Proof.
  unfold load_state_dict. case_decide; [|done]. intros [= <-]. simpl.
  rewrite map_lookup_imap. by destruct (weights m !! k).
Qed.

(** Loading a module's own state dict gives the module back. *)
Lemma load_state_dict_self m : load_state_dict m (weights m) = inr m.
Proof.
  unfold load_state_dict. rewrite decide_True.
  - destruct m as [w t]. f_equal. f_equal. simpl. apply map_eq. intros k.
    rewrite map_lookup_imap. by destruct (w !! k) eqn:E; simpl; rewrite ?E.
  - intros k v Hk. simpl. by rewrite Hk.
Qed.

(** An optimizer: how many steps it has taken since it was built, and
    whether its state was restored from a checkpoint ([load_optimizer]
    with a [state]) or is fresh. *)
Record Optimizer : Type := { opt_steps : nat; opt_restored : bool }.

(** ** The encoder and numeric back end *)
Class Backend : Type := {
  rng : Type;
  image : Type;
  (** the image a sample's path is read and transformed into *)
  read_image : string -> image;
  (** [model(image)] for a model returning [(features, outputs)] *)
  forward_pair : nn_module -> rng -> image -> rng * (tensor * tensor);
  (** [model(image)] for a model returning one tensor *)
  forward_single : nn_module -> rng -> image -> rng * tensor;
  eval_pair : state_dict -> image -> tensor * tensor;
  eval_single : state_dict -> image -> tensor;
  forward_pair_eval : forall m r x,
    training m = false -> forward_pair m r x = (r, eval_pair (weights m) x);
  forward_single_eval : forall m r x,
    training m = false -> forward_single m r x = (r, eval_single (weights m) x);
  (** the order in which a [DataLoader] with [shuffle=True] yields a
      dataset, drawn from the generator: a permutation *)
  shuffle : forall {A : Type}, rng -> list A -> rng * list A;
  shuffle_perm : forall A r (l : list A), (shuffle r l).2 ≡ₚ l;
  (** one iteration of [train_epoch]: [optimizer.zero_grad()],
      [model(image)], [criterion(output)], [loss.backward()],
      [optimizer.step()]; the new weights and the loss *)
  train_step : nn_module -> Optimizer -> rng -> list image -> rng * (state_dict * Q);
  (** [optimizer.state_dict()] *)
  optimizer_state : Optimizer -> state_dict;
  (** [F.softmax(outputs, dim=1)] on one row *)
  softmax : tensor -> tensor;
  (** the criterion of [get_model_criterion] on two output rows *)
  criterion : tensor -> tensor -> Q;
  (** [np.log] on a positive argument *)
  ln : Q -> Q
}.

(** ** A concrete back end for the concrete runs of the theorems

    The generator is a counter.  In training mode a forward pass reads the
    counter (a stand-in for dropout noise) and advances it; in evaluation
    mode it does not.  Outputs are one-element rows. *)
Definition test_eval_pair (sd : state_dict) (x : string) : tensor * tensor :=
  ([inject_Z (Z.of_nat (String.length x))], [inject_Z (Z.of_nat (String.length x))]).

Definition test_forward_pair (m : nn_module) (r : nat) (x : string) : nat * (tensor * tensor) :=
  if training m then (S r, ([inject_Z (Z.of_nat r)], [inject_Z (Z.of_nat (r + String.length x))]))
  else (r, test_eval_pair (weights m) x).

Definition test_forward_single (m : nn_module) (r : nat) (x : string) : nat * tensor :=
  if training m then (S r, [inject_Z (Z.of_nat r)])
  else (r, (test_eval_pair (weights m) x).2).

(** [criterion(a, b)]: the absolute difference of the first entries. *)
Definition test_criterion (a b : tensor) : Q :=
  Qabs (default 0%Q (head a) - default 0%Q (head b)).

Program Definition test_backend : Backend := {|
  rng := nat;
  image := string;
  read_image p := p;
  forward_pair := test_forward_pair;
  forward_single := test_forward_single;
  eval_pair := test_eval_pair;
  eval_single sd x := (test_eval_pair sd x).2;
  shuffle A r l := (r, l);
  train_step m o r xs := (S r, (weights m, inject_Z (Z.of_nat (length xs))));
  optimizer_state o := {[ "steps" := [inject_Z (Z.of_nat (opt_steps o))] ]};
  softmax row := row;
  criterion := test_criterion;
  ln q := (q - 1)%Q
|}.
Next Obligation. intros. unfold test_forward_pair. by match goal with H : training _ = false |- _ => rewrite H end. Qed.
Next Obligation. intros. unfold test_forward_single. by match goal with H : training _ = false |- _ => rewrite H end. Qed.
