(* ===== verification/TargetDataset.v ===== *)
(** * The target dataset ([src/datautils/target_dataset.py])

    [get_target_pretrain_ds(args, training_type, is_train, batch_size)]
    maps [args.target_dataset] to a directory and a [TargetDataset];
    for an unknown name it evaluates [ValueError] without raising it and
    returns [None].  [TargetDataset.get_loader] picks the transforms by
    the training type and [args.method] and wraps the dataset in a
    [DataLoader] with [drop_last=True] and [shuffle=is_train], or builds
    the loader of [TransformsSwAV] for SwAV.  [target_loader] is
    [get_target_pretrain_ds(args, training_type=tt).get_loader()], whose
    attribute lookup fails on [None]: [make_batches] (line 148 of
    [pretext_trainer.py]) and [first_pretrain] call it.

    The values of [DatasetType] and [get_params] are outside [src/]: they
    are section variables here, and the class [DatasetEnv] for the
    scorer, whose definitions are stated once for every environment. *)

From S2P Require Import Prelude Config.

(** [datautils.dataset_enum.DatasetType] *)
Inductive DatasetType : Type := IMAGENET | CIFAR10 | CHEST_XRAY | REAL | UCMERCED.

Inductive Transform : Type :=
| Transforms (size : nat)
| TransformsSimCLR (size : nat)
| TransformsDCL (size : nat)
| TransformsMoCo (size : nat)
| ComposeToTensor.

Inductive Dataset : Type :=
| MakeBatchDataset (dir : string) (with_train is_train : bool) (tr : Transform)
| ImageFolder (dir : string) (tr : Transform).

(** A [DataLoader], or the loader of [TransformsSwAV]. *)
Inductive Loader : Type :=
| DataLoader (ds : Dataset) (batch_size : nat) (drop_last shuffle : bool)
| SwAVLoader (dir : string) (batch_size : nat).

Record TargetDataset : Type := {
  td_dir : string;
  td_method : string;
  td_training_type : TrainingType;
  td_with_train : bool;
  td_is_train : bool;
  td_image_size : nat;
  td_batch_size : nat
}.

Section TargetDatasets.
Variable dataset_value : DatasetType -> string.
Variables params_image_size params_batch_size : Args -> TrainingType -> nat.

(** [TargetDataset.__init__]: [batch_size] overrides [get_params] when it
    is truthy (neither [None] nor 0). *)
Definition target_dataset_init (a : Args) (dir : string) (tt : TrainingType)
    (with_train is_train : bool) (batch_size : option nat) : TargetDataset :=
  {| td_dir := dataset_dir a +:+ dir; td_method := method a; td_training_type := tt;
     td_with_train := with_train; td_is_train := is_train;
     td_image_size := params_image_size a tt;
     td_batch_size := match batch_size with
                      | Some (S n) => S n
                      | _ => params_batch_size a tt
                      end |}.

Definition get_dataset (td : TargetDataset) (tr : Transform) : Dataset :=
  if bool_decide (td_training_type td = ACTIVE_LEARNING)
  then MakeBatchDataset (td_dir td) (td_with_train td) (td_is_train td) tr
  else ImageFolder (td_dir td) tr.

(** The value of [transforms] after the two [if] chains of [get_loader],
    or [None] when no branch assigns it. *)
Definition loader_transforms (td : TargetDataset) : option Transform :=
  let m := td_method td in
  let size := td_image_size td in
  if bool_decide (td_training_type td = ACTIVE_LEARNING) then Some (Transforms size)
  else
    let t1 := if bool_decide (m = ssl_value SIMCLR) then Some (TransformsSimCLR size) else None in
    if bool_decide (m = ssl_value DCL) then Some (TransformsDCL size)
    else if bool_decide (m = ssl_value MYOW) then Some ComposeToTensor
    else if bool_decide (m = ssl_value SUPERVISED) then Some (Transforms size)
    else t1.

(** [TargetDataset.get_loader]; [self.method is not SSL_Method.SWAV.value]
    is read as a comparison of values. *)
Definition get_loader (td : TargetDataset) : exn + Loader :=
  if bool_decide (td_method td = ssl_value SWAV)
  then inr (SwAVLoader (td_dir td) (td_batch_size td))
  else match loader_transforms td with
       | Some tr => inr (DataLoader (get_dataset td tr) (td_batch_size td) true (td_is_train td))
       | None => inl (UnboundLocalError "transforms")
       end.

Definition get_target_pretrain_ds (a : Args) (tt : TrainingType) (is_train : bool)
    (batch_size : option nat) : option TargetDataset :=
  let d := target_dataset a in
  let mk dir wt := Some (target_dataset_init a dir tt wt is_train batch_size) in
  if bool_decide (d = dataset_value CHEST_XRAY) then mk "/chest_xray" false
  else if bool_decide (d = dataset_value REAL) then mk "/real" false
  else if bool_decide (d = dataset_value UCMERCED) then mk "/ucmerced/images" false
  else if bool_decide (d = dataset_value IMAGENET) then mk "/imagenet" true
  else if bool_decide (d = dataset_value CIFAR10) then mk "/cifar10v2" true
  else None.

(** [get_target_pretrain_ds(args, training_type=tt).get_loader()]: on
    [None] the attribute lookup fails. *)
Definition target_loader (a : Args) (tt : TrainingType) : exn + Loader :=
  match get_target_pretrain_ds a tt true None with
  | Some td => get_loader td
  | None => inl (AttributeError "'NoneType' object has no attribute 'get_loader'")
  end.
End TargetDatasets.

(** The parts of the dataset configuration outside [src/] that the
    scorer reaches: the values of [DatasetType] and [get_params]. *)
Class DatasetEnv : Type := {
  env_dataset_value : DatasetType -> string;
  env_image_size : Args -> TrainingType -> nat;
  env_batch_size : Args -> TrainingType -> nat
}.

(** The five names [get_target_pretrain_ds] knows. *)
Definition known_datasets (dataset_value : DatasetType -> string) : list string :=
  map dataset_value [CHEST_XRAY; REAL; UCMERCED; IMAGENET; CIFAR10].

(** The loader of active learning is built exactly when the target
    dataset is known; otherwise the lookup of [get_loader] on [None]
    raises [AttributeError]. *)
Lemma target_loader_al dv pis pbs a :
  match target_loader dv pis pbs a ACTIVE_LEARNING with
  | inr _ => target_dataset a ∈ known_datasets dv
  | inl e => (target_dataset a ∉ known_datasets dv) /\
             e = AttributeError "'NoneType' object has no attribute 'get_loader'"
  end.
Proof.
  unfold target_loader, get_target_pretrain_ds, known_datasets. simpl.
  repeat case_bool_decide; simpl;
    unfold get_loader, loader_transforms; simpl; repeat case_bool_decide; set_solver.
Qed.

(** ** Concrete values *)
Definition test_dataset_value (d : DatasetType) : string :=
  match d with
  | IMAGENET => "imagenet" | CIFAR10 => "cifar10" | CHEST_XRAY => "chest_xray"
  | REAL => "real" | UCMERCED => "ucmerced"
  end.

Definition test_image_size (a : Args) (ty : TrainingType) : nat := 224.
Definition test_batch_size (a : Args) (ty : TrainingType) : nat := 32.

Definition test_env : DatasetEnv := {|
  env_dataset_value := test_dataset_value;
  env_image_size := test_image_size;
  env_batch_size := test_batch_size
|}.
