(* ===== verification/Store.v ===== *)
(** * Persistence ([src/utils/commons.py])

    The file system is a finite map from paths to stored objects: a
    pickled list of [PathLoss] ([pickle.dump]) or a dictionary saved by
    [torch.save].  Some paths cannot be opened for writing (a missing
    directory, no permission): writing there raises an [OSError].  The
    whole program shares one [args] object, one file system and the torch
    random number generator: [World] holds the three, and every operation
    of the program is a [py World] computation.

    Modelled functions: [save_path_loss], [load_path_loss] (its [except
    IOError] turns a failed open into [None]; [IOError] is [OSError] in
    Python 3), [simple_save_model], [simple_load_model], [save_state] and
    [load_saved_state], with [os.path.join] ([posixpath.join] on two
    arguments). *)

From S2P Require Import Prelude PathLoss Config Torch.

Inductive torch_val : Type :=
| TStateDict (sd : state_dict).

Inductive stored : Type :=
| Pickled (l : list PathLoss)
| TorchSaved (d : gmap string torch_val).

Record FS : Type := { files : gmap string stored; unwritable : gset string }.

Section WithBackend.
Context {BE : Backend}.

Record World : Type := { w_args : Args; w_fs : FS; w_rng : rng }.

(** What the active-learning loop needs unchanged by the operations it
    calls between two checkpoint writes. *)
Definition frame (w : World) := (w_fs w, al_static (w_args w)).

Definition set_args (w : World) (a : Args) : World :=
  {| w_args := a; w_fs := w_fs w; w_rng := w_rng w |}.
Definition set_fs (w : World) (fs : FS) : World :=
  {| w_args := w_args w; w_fs := fs; w_rng := w_rng w |}.
Definition set_rng (w : World) (r : rng) : World :=
  {| w_args := w_args w; w_fs := w_fs w; w_rng := r |}.

(** [posixpath.join(a, b)] *)
Definition os_path_join (a b : string) : string :=
  if String.prefix "/" b then b
  else if bool_decide (a = EmptyString) || String.prefix "/" (String.substring (String.length a - 1) 1 a)
  then a +:+ b
  else a +:+ "/" +:+ b.

(** [open(out, "wb")] followed by a successful dump, or an [OSError]. *)
Definition write_file (p : string) (o : stored) : py World unit :=
  fun w => if decide (p ∈ unwritable (w_fs w))
           then (inl (OSError p), w)
           else (inr tt, set_fs w {| files := <[p:=o]> (files (w_fs w));
                                     unwritable := unwritable (w_fs w) |}).

(** [open(out, "rb")] / [torch.load(out)]: a missing file raises. *)
Definition read_file (p : string) : py World stored :=
  fun w => match files (w_fs w) !! p with
           | Some o => (inr o, w)
           | None => (inl (OSError p), w)
           end.

Definition model_file (name : string) : py World string :=
  w <- py_get ;; py_ret (os_path_join (model_path (w_args w)) name).

(** [except IOError: print(...)]: an [OSError] is swallowed. *)
Definition catch_oserror {A} (m : py World A) (h : py World A) : py World A :=
  fun w => match m w with
           | (inl (OSError _), w') => h w'
           | r => r
           end.

Definition save_path_loss (filename : string) (l : list PathLoss) : py World unit :=
  out <- model_file filename ;;
  catch_oserror (write_file out (Pickled l)) (py_ret tt).

(** [pickle.load] of a file written by [torch.save] (a zip archive)
    raises an [UnpicklingError], which [except IOError] does not catch. *)
Definition load_path_loss (filename : string) : py World (option (list PathLoss)) :=
  out <- model_file filename ;;
  catch_oserror
    (o <- read_file out ;;
     match o with
     | Pickled l => py_ret (Some l)
     | TorchSaved _ => py_raise UnpicklingError
     end)
    (py_ret None).

Definition simple_save_model (sd : state_dict) (name : string) : py World unit :=
  out <- model_file name ;;
  write_file out (TorchSaved {[ "model" := TStateDict sd ]}).

(** [torch.load(out)['model']]: [torch.load] also reads a plain pickle,
    and indexing a list with a string raises a [TypeError]. *)
Definition checkpoint_model (o : stored) : exn + state_dict :=
  match o with
  | TorchSaved d => match d !! "model" with
                    | Some (TStateDict sd) => inr sd
                    | None => inl (KeyError "model")
                    end
  | Pickled _ => inl (TypeError "list indices must be integers or slices, not str")
  end.

Definition simple_load_model (name : string) : py World state_dict :=
  out <- model_file name ;;
  o <- read_file out ;;
  py_lift (checkpoint_model o).

(** The checkpoint prefix chosen from [args.method]. *)
Definition checkpoint_prefix (m : string) : string :=
  if bool_decide (m = ssl_value SIMCLR) then "simclr"
  else if bool_decide (m = ssl_value DCL) then "dcl"
  else "myow".

Definition checkpoint_name (a : Args) (level : string) (epoch : nat) : string :=
  os_path_join (model_path a)
    (checkpoint_prefix (method a) +:+ "_" +:+ level +:+ "_checkpoint_" +:+ pretty epoch +:+ ".tar").

(** [{'model': model.state_dict(), optimizer_type + '-optimizer': ...}] *)
Definition state_checkpoint (sd opt : state_dict) (optimizer_type : string) : stored :=
  TorchSaved (<[ optimizer_type +:+ "-optimizer" := TStateDict opt ]>
              {[ "model" := TStateDict sd ]}).

Definition save_state (sd : state_dict) (opt : state_dict) (level optimizer_type : string)
  : py World unit :=
  w <- py_get ;;
  let out := checkpoint_name (w_args w) level (current_epoch (w_args w)) in
  write_file out (state_checkpoint sd opt optimizer_type) ;;;
  w' <- py_get ;;
  py_put (set_args w' (set_resume (w_args w') (Some out))).

Definition load_saved_state (recent : bool) (level : string) : py World stored :=
  w <- py_get ;;
  let a := w_args w in
  let model_fp := if recent && resume_truthy (resume a)
                  then default EmptyString (resume a)
                  else checkpoint_name a level (epoch_num a) in
  read_file model_fp.
End WithBackend.

(** ** Theorems on persistence *)
Section StoreFacts.
Context {BE : Backend}.

Definition model_path_of (w : World) (name : string) : string :=
  os_path_join (model_path (w_args w)) name.

Definition writable (w : World) (p : string) : Prop := p ∉ unwritable (w_fs w).

Lemma write_file_ok p o w :
  writable w p ->
  write_file p o w = (inr tt, set_fs w {| files := <[p:=o]> (files (w_fs w));
                                          unwritable := unwritable (w_fs w) |}).
Proof. intros Hw. unfold write_file. by rewrite decide_False. Qed.

Lemma write_file_fail p o w :
  ~ writable w p -> write_file p o w = (inl (OSError p), w).
Proof. intros Hw. unfold write_file. rewrite decide_True; [done|]. by apply dec_stable. Qed.

Lemma read_file_write p o w w' :
  write_file p o w = (inr tt, w') -> read_file p w' = (inr o, w').
Proof.
  unfold write_file, read_file. case_decide; [done|]. intros [= <-]. simpl.
  by rewrite lookup_insert_eq.
Qed.

Lemma write_file_other p q o w w' :
  p <> q -> write_file p o w = (inr tt, w') -> files (w_fs w') !! q = files (w_fs w) !! q.
Proof.
  unfold write_file. case_decide; [done|]. intros Hne [= <-]. simpl.
  by rewrite lookup_insert_ne.
Qed.

(** [save_path_loss] never raises: a failed write is printed and the
    program goes on with the list in memory only. *)
Lemma save_path_loss_no_raise name l w :
  fst (save_path_loss name l w) = inr tt.
Proof.
  unfold save_path_loss, model_file, catch_oserror. py_simpl.
  unfold write_file. by case_decide.
Qed.

(** The file system after [save_path_loss]: the list is stored when the
    target path is writable, and nothing changes otherwise. *)
Lemma save_path_loss_fs name l w :
  snd (save_path_loss name l w)
  = if decide (writable w (model_path_of w name))
    then set_fs w {| files := <[model_path_of w name := Pickled l]> (files (w_fs w));
                     unwritable := unwritable (w_fs w) |}
    else w.
Proof.
  unfold save_path_loss, model_file, catch_oserror. py_simpl.
  unfold write_file, writable, model_path_of. by repeat case_decide.
Qed.

(** [save_state] writes the checkpoint named by [args.current_epoch] and
    points [args.resume] at it, or raises [OSError] and changes nothing. *)
Lemma save_state_spec sd opt level ot w :
  let out := checkpoint_name (w_args w) level (current_epoch (w_args w)) in
  save_state sd opt level ot w =
  if decide (out ∈ unwritable (w_fs w)) then (inl (OSError out), w)
  else (inr tt, set_args (set_fs w {| files := <[out := state_checkpoint sd opt ot]> (files (w_fs w));
                                     unwritable := unwritable (w_fs w) |})
                         (set_resume (w_args w) (Some out))).
Proof. unfold save_state, write_file. py_simpl. by case_decide. Qed.

Lemma append_nonempty (a b : string) : b <> EmptyString -> a +:+ b <> EmptyString.
Proof. destruct a; simpl; [done|discriminate]. Qed.

Lemma length_append (a b : string) : String.length (a +:+ b) = String.length a + String.length b.
Proof. induction a; simpl; auto. Qed.

(** Checkpoint paths are never empty, so [args.resume] set to one is
    truthy. *)
Lemma checkpoint_name_nonempty a level e : checkpoint_name a level e <> EmptyString.
Proof.
  assert (Hb : checkpoint_prefix (method a) +:+ "_" +:+ level +:+ "_checkpoint_" +:+ pretty e
               +:+ ".tar" <> EmptyString).
  { unfold checkpoint_prefix. by repeat case_decide. }
  unfold checkpoint_name, os_path_join. repeat case_match; try done; by apply append_nonempty.
Qed.

(** The ["model"] entry of a [save_state] checkpoint is the saved model. *)
Lemma checkpoint_model_state sd opt ot : checkpoint_model (state_checkpoint sd opt ot) = inr sd.
Proof.
  unfold checkpoint_model, state_checkpoint. rewrite lookup_insert_ne; [by rewrite lookup_singleton_eq|].
  intros H. apply (f_equal String.length) in H. rewrite length_append in H. simpl in H. lia.
Qed.

(** C15. Round trip: a list saved by [save_path_loss] at a writable path is
    what [load_path_loss] returns. *)
Theorem save_load_path_loss name l w :
  writable w (model_path_of w name) ->
  load_path_loss name (snd (save_path_loss name l w))
  = (inr (Some l), snd (save_path_loss name l w)).
Proof.
  intros Hw. rewrite save_path_loss_fs, decide_True by done.
  unfold load_path_loss, model_file, catch_oserror, read_file. py_simpl.
  unfold model_path_of. simpl. by rewrite lookup_insert_eq.
Qed.

(** C16. A failed save is swallowed: when the target path is not
    writable, [save_path_loss] returns normally ([except IOError] catches
    the [OSError] of [open]) and leaves the file system as it was, so a
    later [load_path_loss] reads whatever the file held before (a stale
    list, or nothing). *)
Theorem save_path_loss_failed_stale name l w :
  ~ writable w (model_path_of w name) ->
  save_path_loss name l w = (inr tt, w).
Proof.
  intros Hw. unfold save_path_loss, model_file, catch_oserror. py_simpl.
  unfold write_file. rewrite decide_True; [done|]. by apply dec_stable.
Qed.

(** C22. Round trip: weights saved by [simple_save_model] at a writable path
    are what [simple_load_model] returns. *)
Theorem simple_save_load_model sd name w :
  writable w (model_path_of w name) ->
  exists w', simple_save_model sd name w = (inr tt, w') /\
             simple_load_model name w' = (inr sd, w').
Proof.
  intros Hw. unfold simple_save_model, simple_load_model, model_file. py_simpl.
  rewrite write_file_ok by done. eexists; split; [done|].
  unfold read_file, model_path_of in *. simpl. rewrite lookup_insert_eq. simpl.
  by rewrite lookup_singleton_eq.
Qed.

Lemma save_path_loss_args name l w :
  w_args (snd (save_path_loss name l w)) = w_args w.
Proof. rewrite save_path_loss_fs. by case_decide. Qed.

(** What [load_path_loss] returns, read off the file system. *)
Lemma load_path_loss_eq name w :
  load_path_loss name w
  = (match files (w_fs w) !! model_path_of w name with
     | Some (Pickled l) => inr (Some l)
     | Some (TorchSaved _) => inl UnpicklingError
     | None => inr None
     end, w).
Proof.
  unfold load_path_loss, model_file, catch_oserror, read_file, model_path_of. py_simpl.
  by destruct (files (w_fs w) !! _) as [[]|].
Qed.
Lemma load_saved_state_frame rc lvl w r w' :
  load_saved_state rc lvl w = (r, w') -> w' = w.
Proof.
  unfold load_saved_state, read_file. py_simpl.
  by destruct (files (w_fs w) !! _); intros [= _ <-].
Qed.


Lemma load_saved_state_pres {T} (g : World -> T) rc lvl : py_pres g (load_saved_state rc lvl).
Proof. intros w r w' ->%load_saved_state_frame. done. Qed.
(** The object [simple_save_model] writes. *)
Definition model_checkpoint (sd : state_dict) : stored := TorchSaved {[ "model" := TStateDict sd ]}.

Lemma simple_save_model_inv sd name w r w' :
  simple_save_model sd name w = (r, w') ->
  w_args w' = w_args w /\
  (r = inr tt -> files (w_fs w') = <[model_path_of w name := model_checkpoint sd]> (files (w_fs w))) /\
  (forall e, r = inl e -> w' = w).
Proof.
  unfold simple_save_model, model_file, write_file, model_path_of. py_simpl.
  case_decide; intros [= <- <-]; by repeat split.
Qed.

(** Writes only add or replace files: the set of paths grows and the
    unwritable paths stay as they are. *)
Definition fs_le (w w' : World) : Prop :=
  dom (files (w_fs w)) ⊆ dom (files (w_fs w')) /\ unwritable (w_fs w') = unwritable (w_fs w).

Lemma fs_le_refl w : fs_le w w.
Proof. split; [set_solver|done]. Qed.

Lemma fs_le_trans w1 w2 w3 : fs_le w1 w2 -> fs_le w2 w3 -> fs_le w1 w3.
Proof. intros [H1 H2] [H3 H4]. split; [set_solver|congruence]. Qed.

Lemma fs_le_insert w p o :
  fs_le w (set_fs w {| files := <[p:=o]> (files (w_fs w)); unwritable := unwritable (w_fs w) |}).
Proof. split; [|done]. simpl. rewrite dom_insert_L. set_solver. Qed.

Lemma fs_le_args w a : fs_le w (set_args w a).
Proof. split; [set_solver|done]. Qed.

Lemma save_path_loss_le name l w : fs_le w (snd (save_path_loss name l w)).
Proof. rewrite save_path_loss_fs. case_decide; [apply fs_le_insert|apply fs_le_refl]. Qed.

Lemma simple_save_model_le sd name w r w' : simple_save_model sd name w = (r, w') -> fs_le w w'.
Proof.
  unfold simple_save_model, model_file, write_file. py_simpl. case_decide.
  - intros [= _ <-]. apply fs_le_refl.
  - intros [= _ <-]. apply fs_le_insert.
Qed.

#[local] Hint Resolve fs_le_refl fs_le_insert fs_le_args save_path_loss_le : pylib.

Lemma simple_load_model_checkpoint sd name w :
  files (w_fs w) !! model_path_of w name = Some (model_checkpoint sd) ->
  simple_load_model name w = (inr sd, w).
Proof.
  unfold simple_load_model, model_file, read_file, model_path_of. py_simpl.
  intros ->. simpl. by rewrite lookup_singleton_eq.
Qed.
End StoreFacts.

#[export] Hint Resolve load_saved_state_pres : pylib.

(** ** Concrete configurations for the concrete runs *)
Definition test_args : Args := {|
  method := "simclr"; al_method := "entropy"; al_batches := 2; al_epochs := 1;
  al_batch_size := 64; model_path := "/models"; al_path_loss_file := "al_path_loss.pkl";
  pretrain_path_loss_file := "pretrain_path_loss.pkl"; resume := None; epoch_num := 100;
  current_epoch := 0; global_step := 0; base_epochs := 100;
  start_epoch := 0; target_epochs := 100; base_optimizer := "Adam-Cosine";
  target_optimizer := "Adam-Cosine"; base_dataset := "imagenet"; target_dataset := "ucmerced";
  dataset_dir := "/data" |}.

Definition test_checkpoint : stored :=
  TorchSaved {[ "model" := TStateDict {[ "fc.weight" := [1%Q; 2%Q] ]} ]}.

(** A world holding the level-1 checkpoint of epoch [epoch_num]. *)
Definition test_world : @World test_backend := {|
  w_args := test_args;
  w_fs := {| files := {[ "/models/simclr_1_checkpoint_100.tar" := test_checkpoint ]};
             unwritable := ∅ |};
  w_rng := (0 : @rng test_backend) |}.

(** The same world without any checkpoint. *)
Definition test_world_empty : @World test_backend := {|
  w_args := test_args; w_fs := {| files := ∅; unwritable := ∅ |};
  w_rng := (0 : @rng test_backend) |}.

Definition test_encoder : nn_module :=
  {| weights := {[ "fc.weight" := [0%Q; 0%Q]; "fc.bias" := [0%Q] ]}; training := true |}.

(** A world where the model directory refuses writes of [x.pkl]. *)
Definition test_world_readonly : @World test_backend := {|
  w_args := test_args;
  w_fs := {| files := {[ "/models/x.pkl" := Pickled [] ]}; unwritable := {[ "/models/x.pkl" ]} |};
  w_rng := (0 : @rng test_backend) |}.

Lemma save_load_path_loss_witness :
  writable test_world (model_path_of test_world "x.pkl") /\
  load_path_loss "x.pkl" (snd (save_path_loss "x.pkl" [mk_PathLoss "a.png" 1] test_world))
  = (inr (Some [mk_PathLoss "a.png" 1]),
     snd (save_path_loss "x.pkl" [mk_PathLoss "a.png" 1] test_world)).
Proof.
  assert (writable test_world (model_path_of test_world "x.pkl")) as Hw
    by apply not_elem_of_empty.
  split; [done|]. by apply save_load_path_loss.
Defined.

Lemma save_path_loss_failed_stale_witness :
  ~ writable test_world_readonly (model_path_of test_world_readonly "x.pkl") /\
  save_path_loss "x.pkl" [mk_PathLoss "a.png" 1] test_world_readonly = (inr tt, test_world_readonly).
Proof.
  assert (~ writable test_world_readonly (model_path_of test_world_readonly "x.pkl")) as Hw.
  { unfold writable. intros H. apply H. simpl. rewrite elem_of_singleton. reflexivity. }
  split; [done|]. by apply save_path_loss_failed_stale.
Defined.

Lemma simple_save_load_model_witness :
  writable test_world (model_path_of test_world "proxy_0.pth") /\
  exists w', simple_save_model {[ "fc.weight" := [3%Q] ]} "proxy_0.pth" test_world = (inr tt, w') /\
             simple_load_model "proxy_0.pth" w' = (inr {[ "fc.weight" := [3%Q] ]}, w').
Proof.
  assert (writable test_world (model_path_of test_world "proxy_0.pth")) as Hw
    by apply not_elem_of_empty.
  split; [done|]. by apply simple_save_load_model.
Defined.
