(* ===== verification/Selector.v ===== *)
(** * The acquisition policy ([PretextTrainer.get_new_samples])

    [preds] is the matrix of softmax rows, one per sample of the batch.
    [get_new_samples] computes an index order from it and maps the
    indices back to [samples], keeping the first 5120:
    - least confidence: [preds.max(axis=1).argsort()], ascending;
    - entropy: [(np.log(preds) * preds).sum(axis=1) * -1.], argsorted,
      then reversed with [[::-1]];
    - both: the two index arrays added elementwise, shuffled, and sliced
      with [len(indices)/2], a float: Python raises a [TypeError];
    - any other name: [ValueError].
    Floating-point entropy is modelled with [fl]: a finite value or NaN.
    A probability [p <= 0] gives [np.log(p) * p = nan] ([log 0 = -inf],
    [-inf * 0 = nan]), and NaN propagates through the sum.  numpy's sort
    puts NaN after every finite value ([nan_le]). *)

From S2P Require Import Prelude Sorting PathLoss Config Torch.
From Stdlib Require Import Sorted Qminmax.

(** A float that is a finite value or NaN. *)
Inductive fl : Type := Fin (q : Q) | NaN.

#[export] Instance fl_eq_dec : EqDecision fl.
Proof. solve_decision. Defined.

(** numpy's sort order: finite values by value, NaN last. *)
Definition nan_le (a b : fl) : bool :=
  match a, b with
  | Fin x, Fin y => Qle_bool x y
  | Fin _, NaN => true
  | NaN, Fin _ => false
  | NaN, NaN => true
  end.

(** The acquisition constant of [get_new_samples]. *)
#[local] Set Warnings "-abstract-large-number".
Definition max_new_samples : nat := 5120.

Section Selector.
Context {BE : Backend}.

(** [preds.max(axis=1)] on one row; numpy raises on an empty row. *)
Definition row_max (row : tensor) : exn + Q :=
  match row with
  | [] => inl (ValueError "zero-size array to reduction operation maximum which has no identity")
  | x :: r => inr (foldl Qmax x r)
  end.

(** [np.log(p) * p] *)
Definition xlogx (p : Q) : fl :=
  if Qle_bool p 0 then NaN else Fin (ln p * p)%Q.

Definition fl_add (a b : fl) : fl :=
  match a, b with Fin x, Fin y => Fin (x + y)%Q | _, _ => NaN end.

Definition fl_neg (a : fl) : fl :=
  match a with Fin x => Fin (- x)%Q | NaN => NaN end.

(** [(np.log(row) * row).sum() * -1.] *)
Definition row_entropy (row : tensor) : fl :=
  fl_neg (foldl fl_add (Fin 0) (map xlogx row)).

Fixpoint mapM_sum {A B} (f : A -> exn + B) (l : list A) : exn + list B :=
  match l with
  | [] => inr []
  | x :: l' => match f x with
               | inl e => inl e
               | inr y => match mapM_sum f l' with
                          | inl e => inl e
                          | inr ys => inr (y :: ys)
                          end
               end
  end.

(** [samples[item]] for every index, in order. *)
Definition index_all {A} (samples : list A) (idx : list nat) : exn + list A :=
  mapM_sum (fun i => match samples !! i with Some x => inr x | None => inl IndexError end) idx.

Definition least_confidence_indices (preds : list tensor) : exn + list nat :=
  match mapM_sum row_max preds with
  | inl e => inl e
  | inr probs => inr (argsort Qle_bool probs)
  end.

Definition entropy_indices (preds : list tensor) : list nat :=
  reverse (argsort nan_le (map row_entropy preds)).

(** The [if]/[elif] chain of [get_new_samples] that computes [indices]. *)
Definition acquisition_indices (al_meth : string) (preds : list tensor) : exn + list nat :=
  if bool_decide (al_meth = al_value LEAST_CONFIDENCE) then least_confidence_indices preds
  else if bool_decide (al_meth = al_value ENTROPY) then inr (entropy_indices preds)
  else if bool_decide (al_meth = al_value BOTH) then
    match least_confidence_indices preds with
    | inl e => inl e
    | inr _ => inl (TypeError "slice indices must be integers or None or have an __index__ method")
    end
  else inl (ValueError ("'" +:+ al_meth +:+ "' method doesn't exist")).

(** [new_samples = [samples[item] for item in indices]; return new_samples[:5120]] *)
Definition get_new_samples {A} (al_meth : string) (preds : list tensor) (samples : list A)
  : exn + list A :=
  match acquisition_indices al_meth preds with
  | inl e => inl e
  | inr idx => match index_all samples idx with
               | inl e => inl e
               | inr new_samples => inr (take max_new_samples new_samples)
               end
  end.

(** [get_predictions]: [F.softmax(outputs, dim=1)] row by row. *)
Definition get_predictions (outputs : list tensor) : list tensor := map softmax outputs.
End Selector.

(** ** Theorems on the acquisition policy *)
Section SelectorFacts.
Context {BE : Backend}.

Lemma mapM_sum_length {A B} (f : A -> exn + B) l l' :
  mapM_sum f l = inr l' -> length l' = length l.
Proof.
  revert l'. induction l as [|x l IH]; intros l' H; simpl in H; [by injection H as <-|].
  destruct (f x); [done|]. destruct (mapM_sum f l) eqn:E; [done|].
  injection H as <-. simpl. by rewrite (IH _ eq_refl).
Qed.

Lemma mapM_sum_map {A B} (f : A -> exn + B) (g : A -> B) l :
  (forall x, x ∈ l -> f x = inr (g x)) -> mapM_sum f l = inr (map g l).
Proof.
  induction l as [|x l IH]; intros Hf; simpl; [done|].
  rewrite Hf by set_solver. rewrite IH; [done|]. set_solver.
Qed.

Lemma index_all_spec {A} (s : list A) idx l :
  index_all s idx = inr l <-> map (fun i => s !! i) idx = map Some l.
Proof.
  unfold index_all. revert l. induction idx as [|i idx IH]; intros l; simpl.
  - split; [by intros [= <-]|]. by destruct l.
  - destruct (s !! i) as [x|] eqn:Ei.
    + destruct (mapM_sum _ idx) as [e|l'] eqn:E.
      * split; [done|]. destruct l as [|y l]; [done|]. intros [= -> Hl].
        apply IH in Hl. congruence.
      * split; [intros [= <-]; simpl; f_equal; by apply IH|].
        destruct l as [|y l]; [done|]. intros [= -> Hl]. apply IH in Hl. congruence.
    + split; [done|]. by destruct l.
Qed.

Lemma index_all_total {A} (s : list A) idx :
  (forall i, i ∈ idx -> i < length s) -> exists l, index_all s idx = inr l.
Proof.
  unfold index_all. induction idx as [|i idx IH]; intros Hr; simpl; [by eexists|].
  destruct (lookup_lt_is_Some_2 s i) as [x ->]; [set_solver|].
  destruct IH as [l ->]; [set_solver|]. by eexists.
Qed.

Lemma index_all_length {A} (s : list A) idx l :
  index_all s idx = inr l -> length l = length idx.
Proof. intros H%index_all_spec. by rewrite <- (length_map Some), <- H, length_map. Qed.

Lemma index_all_elem_of {A} (s : list A) idx l x :
  index_all s idx = inr l -> x ∈ l -> x ∈ s.
Proof.
  intros H%index_all_spec Hx.
  assert (In (Some x) (map (fun i => s !! i) idx)) as (i & Hi & _)%in_map_iff.
  { rewrite H. apply in_map. by apply list_elem_of_In. }
  apply list_elem_of_lookup. eauto.
Qed.

(** Distinct indices into a list without duplicates give distinct samples. *)
Lemma index_all_NoDup {A} (s : list A) idx l :
  NoDup s -> NoDup idx -> index_all s idx = inr l -> NoDup l.
Proof.
  intros Hs. revert l. induction idx as [|i idx IH]; intros l Hidx H;
    apply index_all_spec in H; destruct l as [|x l]; try done; [constructor|].
  simpl in H. injection H as Hi Hl. apply NoDup_cons in Hidx as [Hni Hidx].
  constructor.
  - intros Hx. assert (In (Some x) (map (fun i => s !! i) idx)) as (j & Hj & Hjin)%in_map_iff.
    { rewrite Hl. apply in_map. by apply list_elem_of_In. }
    assert (i = j) as -> by exact (NoDup_lookup s i j x Hs Hi Hj). by apply Hni, list_elem_of_In.
  - apply IH; [done|]. by apply index_all_spec.
Qed.
End SelectorFacts.

Section SelectorTheorems.
Context {BE : Backend}.

Lemma least_confidence_indices_perm preds idx :
  least_confidence_indices preds = inr idx -> idx ≡ₚ seq 0 (length preds).
Proof.
  unfold least_confidence_indices. destruct (mapM_sum row_max preds) eqn:E; [done|].
  intros [= <-]. rewrite argsort_perm. by rewrite (mapM_sum_length _ _ _ E).
Qed.

Lemma entropy_indices_perm preds : entropy_indices preds ≡ₚ seq 0 (length preds).
Proof. unfold entropy_indices. by rewrite reverse_Permutation, argsort_perm, length_map. Qed.

(** Whatever the policy, the index order is a permutation of the rows. *)
Lemma acquisition_indices_perm m preds idx :
  acquisition_indices m preds = inr idx -> idx ≡ₚ seq 0 (length preds).
Proof.
  unfold acquisition_indices.
  repeat case_bool_decide;
    first [ apply least_confidence_indices_perm
          | intros [= <-]; apply entropy_indices_perm
          | by destruct (least_confidence_indices preds) ].
Qed.

Lemma get_new_samples_inv {A} m preds (samples : list A) r :
  get_new_samples m preds samples = inr r ->
  exists idx l, acquisition_indices m preds = inr idx /\
    index_all samples idx = inr l /\ r = take max_new_samples l.
Proof.
  unfold get_new_samples. destruct (acquisition_indices m preds) as [|idx]; [done|].
  destruct (index_all samples idx) as [|l] eqn:E; [done|]. intros [= <-]. eauto.
Qed.

(** What the loop relies on: every selected sample comes from the batch,
    a batch without duplicates yields a selection without duplicates, and
    at most 5120 are kept. *)
Lemma get_new_samples_sound {A} m preds (samples : list A) r :
  get_new_samples m preds samples = inr r ->
  (forall x, x ∈ r -> x ∈ samples) /\ (NoDup samples -> NoDup r) /\ length r <= max_new_samples.
Proof.
  intros (idx & l & Hidx & Hl & ->)%get_new_samples_inv. split; [|split].
  - intros x (i & Hi & _)%elem_of_take. eapply index_all_elem_of; [done|].
    apply list_elem_of_lookup. eauto.
  - intros Hs. eapply sublist_NoDup; [|apply sublist_take]. eapply index_all_NoDup; eauto.
    rewrite (acquisition_indices_perm _ _ _ Hidx). apply NoDup_seq.
  - rewrite length_take. lia.
Qed.

(** C7. The selection keeps at most 5120 samples: exactly
    [min 5120 (number of rows)] whenever it succeeds. *)
Theorem get_new_samples_length {A} m preds (samples : list A) r :
  get_new_samples m preds samples = inr r ->
  length r = max_new_samples `min` length preds.
Proof.
  intros (idx & l & Hidx & Hl & ->)%get_new_samples_inv.
  rewrite length_take, (index_all_length _ _ _ Hl).
  by rewrite (Permutation_length (acquisition_indices_perm _ _ _ Hidx)), length_seq.
Qed.


Lemma mapM_sum_total {A B} (f : A -> exn + B) l :
  (forall x, x ∈ l -> exists y, f x = inr y) -> exists l', mapM_sum f l = inr l'.
Proof.
  induction l as [|x l IH]; intros Hf; simpl; [by eexists|].
  destruct (Hf x) as [y ->]; [set_solver|]. destruct IH as [l' ->]; [set_solver|].
  by eexists.
Qed.

Lemma row_maxima_total preds :
  Forall (fun row => row <> []) preds ->
  exists probs, mapM_sum row_max preds = inr probs /\ length probs = length preds.
Proof.
  intros Hne. destruct (mapM_sum_total row_max preds) as [probs Hp].
  - intros [|x row] Hin; [|by eexists]. by apply Forall_forall with (x := []) in Hne.
  - exists probs. split; [done|]. by eapply mapM_sum_length.
Qed.

(** The samples picked through an index order with all indices in range. *)
Lemma index_all_take {A} (samples : list A) idx :
  (forall i, i ∈ idx -> i < length samples) ->
  exists r, (match index_all samples idx with
             | inl e => inl e
             | inr new_samples => inr (take max_new_samples new_samples)
             end) = inr r /\
            map Some r = map (fun i => samples !! i) (take max_new_samples idx).
Proof.
  intros Hr. destruct (index_all_total samples idx Hr) as [l Hl]. rewrite Hl.
  eexists; split; [done|]. apply index_all_spec in Hl.
  by rewrite <- !firstn_map, <- Hl.
Qed.

Lemma entropy_indices_lookup preds :
  map (fun i => map row_entropy preds !! i) (entropy_indices preds)
  = map Some (reverse (stable_sort nan_le (map row_entropy preds))).
Proof.
  unfold entropy_indices.
  change (map ?f (reverse ?l)) with (f <$> reverse l). rewrite fmap_reverse.
  change (fmap ?f ?l) with (map f l). by rewrite argsort_lookup, fmap_reverse.
Qed.

Lemma nan_le_total a b : nan_le a b = true \/ nan_le b a = true.
Proof. destruct a, b; simpl; auto using Qle_bool_total. Qed.

Lemma nan_le_trans a b c : nan_le a b = true -> nan_le b c = true -> nan_le a c = true.
Proof. destruct a, b, c; simpl; eauto using Qle_bool_trans; done. Qed.

Lemma foldl_fl_add_NaN l : foldl fl_add NaN l = NaN.
Proof. induction l; simpl; auto. Qed.

Lemma foldl_fl_add_has_NaN a l : NaN ∈ l -> foldl fl_add a l = NaN.
Proof.
  revert a. induction l as [|x l IH]; intros a Hin; [by apply elem_of_nil in Hin|].
  simpl. apply elem_of_cons in Hin as [<-|Hin]; [|auto].
  destruct a; apply foldl_fl_add_NaN.
Qed.

(** A row holding a probability [p <= 0] has entropy NaN. *)
Lemma row_entropy_nonpos row p : p ∈ row -> (p <= 0)%Q -> row_entropy row = NaN.
Proof.
  intros Hin Hp. unfold row_entropy. rewrite foldl_fl_add_has_NaN; [done|].
  apply list_elem_of_In, in_map_iff. exists p. split; [|by apply list_elem_of_In].
  unfold xlogx. by rewrite (proj2 (Qle_bool_iff p 0) Hp).
Qed.

(** In numpy's order NaN is the largest value: a sorted list holding a
    NaN ends with one. *)
Lemma sorted_nan_last l :
  StronglySorted (le_rel nan_le) l -> NaN ∈ l -> last l = Some NaN.
Proof.
  induction 1 as [|x l Hs IH Hall]; intros Hin; [by apply elem_of_nil in Hin|].
  destruct (decide (NaN ∈ l)) as [Hl|Hl].
  - rewrite last_cons, IH by done. done.
  - apply elem_of_cons in Hin as [<-|]; [|done].
    destruct l as [|y l]; [done|]. exfalso. apply Hl.
    inversion Hall as [|? ? Hy]; subst. destruct y; [done|]. apply elem_of_cons. by left.
Qed.

(** C5. Least confidence: the selection is the samples whose rows have the
    5120 smallest maxima, in ascending order of the maximum (equal maxima
    by increasing index), read through [argsort] of the row maxima. *)
Theorem get_new_samples_least_confidence {A} preds (samples : list A) :
  Forall (fun row => row <> []) preds -> length preds <= length samples ->
  exists probs r,
    mapM_sum row_max preds = inr probs /\
    get_new_samples (al_value LEAST_CONFIDENCE) preds samples = inr r /\
    map Some r = map (fun i => samples !! i) (take max_new_samples (argsort Qle_bool probs)) /\
    map (fun i => probs !! i) (take max_new_samples (argsort Qle_bool probs))
    = map Some (take max_new_samples (stable_sort Qle_bool probs)).
Proof.
  intros Hne Hlen. destruct (row_maxima_total preds Hne) as (probs & Hp & Hpl).
  destruct (index_all_take samples (argsort Qle_bool probs)) as (r & Hr & Hmap).
  { intros i Hi%elem_of_argsort. lia. }
  exists probs, r. split; [done|]. split.
  - unfold get_new_samples, acquisition_indices, least_confidence_indices.
    rewrite bool_decide_eq_true_2 by done. by rewrite Hp.
  - split; [done|]. by rewrite <- !firstn_map, argsort_lookup.
Qed.

(** C6. Entropy: the selection reads the samples through the reversed
    [argsort] of the row entropies, so the selected rows' entropies are
    the 5120 largest in descending order, NaN rows first. *)
Theorem get_new_samples_entropy {A} preds (samples : list A) :
  length preds <= length samples ->
  exists r,
    get_new_samples (al_value ENTROPY) preds samples = inr r /\
    map Some r = map (fun i => samples !! i) (take max_new_samples (entropy_indices preds)) /\
    map (fun i => map row_entropy preds !! i) (take max_new_samples (entropy_indices preds))
    = map Some (take max_new_samples (reverse (stable_sort nan_le (map row_entropy preds)))).
Proof.
  intros Hlen. destruct (index_all_take samples (entropy_indices preds)) as (r & Hr & Hmap).
  { intros i Hi. rewrite (entropy_indices_perm preds), elem_of_seq in Hi. lia. }
  exists r. split; [|split; [done|]].
  - unfold get_new_samples, acquisition_indices.
    rewrite bool_decide_eq_false_2 by done. by rewrite bool_decide_eq_true_2.
  - rewrite <- !firstn_map. f_equal. apply entropy_indices_lookup.
Qed.

(** C11. The [BOTH] policy never returns a selection: it raises a
    [ValueError] on an empty row, and otherwise a [TypeError] from
    slicing with the float [len(indices)/2]. *)
Theorem get_new_samples_both_raises {A} preds (samples : list A) :
  exists msg, get_new_samples (al_value BOTH) preds samples = inl (TypeError msg)
           \/ get_new_samples (al_value BOTH) preds samples = inl (ValueError msg).
Proof.
  unfold get_new_samples, acquisition_indices.
  rewrite !bool_decide_eq_false_2 by done. rewrite bool_decide_eq_true_2 by done.
  unfold least_confidence_indices.
  destruct (mapM_sum row_max preds) as [e|probs] eqn:E; [|eauto].
  (* the only error of [row_max] is the empty-row [ValueError] *)
  revert e E. induction preds as [|row preds IH]; intros e E; simpl in E; [done|].
  destruct row as [|x row]; simpl in E.
  - injection E as <-. eauto.
  - destruct (mapM_sum row_max preds) eqn:E'; [|done]. injection E as <-. eauto.
Qed.

(** C20. An [al_method] that names no policy raises [ValueError]. *)
Theorem get_new_samples_unknown_method {A} m preds (samples : list A) :
  m <> al_value LEAST_CONFIDENCE -> m <> al_value ENTROPY -> m <> al_value BOTH ->
  get_new_samples m preds samples = inl (ValueError ("'" +:+ m +:+ "' method doesn't exist")).
Proof.
  intros H1 H2 H3. unfold get_new_samples, acquisition_indices.
  by rewrite !bool_decide_eq_false_2.
Qed.

(** C10. A prediction row that holds a zero (or negative) probability has
    entropy NaN, and numpy sorts NaN last, so after [[::-1]] such a row
    is ranked first: the first selected sample is one whose row has
    entropy NaN. *)
Theorem entropy_nan_row_selected_first {A} preds (samples : list A) r :
  (exists row p, row ∈ preds /\ p ∈ row /\ (p <= 0)%Q) ->
  get_new_samples (al_value ENTROPY) preds samples = inr r ->
  exists i row x, preds !! i = Some row /\ row_entropy row = NaN /\
                  samples !! i = Some x /\ head r = Some x.
Proof.
  intros (row & p & Hrow & Hp & Hle) (idx & l & Hidx & Hl & ->)%get_new_samples_inv.
  unfold acquisition_indices in Hidx.
  rewrite bool_decide_eq_false_2, bool_decide_eq_true_2 in Hidx by done.
  injection Hidx as <-.
  pose proof (entropy_indices_lookup preds) as Hlk.
  assert (Hhd : head (reverse (stable_sort nan_le (map row_entropy preds))) = Some NaN).
  { rewrite head_reverse. apply sorted_nan_last.
    - apply stable_sort_strongly_sorted; [apply nan_le_total|apply nan_le_trans].
    - apply elem_of_stable_sort, list_elem_of_In, in_map_iff. exists row.
      split; [eapply row_entropy_nonpos; eauto|by apply list_elem_of_In]. }
  destruct (reverse _) as [|e es] eqn:Er; [done|]. injection Hhd as ->.
  destruct (entropy_indices preds) as [|i rest]; [done|]. injection Hlk as Hi _.
  apply index_all_spec in Hl. destruct l as [|x l]; [done|]. injection Hl as Hx _.
  rewrite list_lookup_fmap in Hi. destruct (preds !! i) as [row'|] eqn:E; [|done].
  injection Hi as Hent. exists i, row', x. by repeat split.
Qed.
End SelectorTheorems.

(** ** Concrete runs *)
Definition test_preds : list tensor := [[1#2; 1#2]; [9#10; 1#10]; [1#3; 2#3]]%Q.
Definition test_batch : list string := ["a.png"; "b.png"; "c.png"].
(** Rows of a batch where the first row holds a zero probability. *)
Definition zero_preds : list tensor := [[1; 0]; [1#2; 1#2]]%Q.

Lemma get_new_samples_least_confidence_witness :
  Forall (fun row => row <> []) test_preds /\ length test_preds <= length test_batch /\
  exists probs r,
    mapM_sum row_max test_preds = inr probs /\
    get_new_samples (BE:=test_backend) (al_value LEAST_CONFIDENCE) test_preds test_batch = inr r /\
    map Some r = map (fun i => test_batch !! i) (take max_new_samples (argsort Qle_bool probs)) /\
    map (fun i => probs !! i) (take max_new_samples (argsort Qle_bool probs))
    = map Some (take max_new_samples (stable_sort Qle_bool probs)).
Proof.
  assert (Forall (fun row : tensor => row <> []) test_preds) as Hne by (repeat (constructor; try discriminate)).
  split; [done|]. split; [simpl; lia|].
  apply (get_new_samples_least_confidence (BE:=test_backend)); [done|simpl; lia].
Defined.

Lemma get_new_samples_entropy_witness :
  length test_preds <= length test_batch /\
  exists r,
    get_new_samples (BE:=test_backend) (al_value ENTROPY) test_preds test_batch = inr r /\
    map Some r = map (fun i => test_batch !! i)
                     (take max_new_samples (entropy_indices (BE:=test_backend) test_preds)) /\
    map (fun i => map (row_entropy (BE:=test_backend)) test_preds !! i)
        (take max_new_samples (entropy_indices (BE:=test_backend) test_preds))
    = map Some (take max_new_samples
                  (reverse (stable_sort nan_le (map (row_entropy (BE:=test_backend)) test_preds)))).
Proof.
  split; [simpl; lia|]. apply (get_new_samples_entropy (BE:=test_backend)). simpl. lia.
Defined.

Lemma get_new_samples_length_witness :
  exists r, get_new_samples (BE:=test_backend) (al_value ENTROPY) test_preds test_batch = inr r /\
    length r = max_new_samples `min` length test_preds.
Proof.
  destruct (get_new_samples (BE:=test_backend) (al_value ENTROPY) test_preds test_batch)
    as [e|r] eqn:E; [vm_compute in E; discriminate|].
  exists r. split; [done|]. exact (get_new_samples_length _ _ _ _ E).
Defined.

Lemma entropy_nan_row_selected_first_witness :
  exists r, get_new_samples (BE:=test_backend) (al_value ENTROPY) zero_preds ["a.png"; "b.png"] = inr r /\
    exists i row x, zero_preds !! i = Some row /\ row_entropy (BE:=test_backend) row = NaN /\
                    ["a.png"; "b.png"] !! i = Some x /\ head r = Some x.
Proof.
  destruct (get_new_samples (BE:=test_backend) (al_value ENTROPY) zero_preds ["a.png"; "b.png"])
    as [e|r] eqn:E; [vm_compute in E; discriminate|].
  exists r. split; [done|]. apply (entropy_nan_row_selected_first zero_preds _ r); [|exact E].
  exists [1; 0]%Q, 0%Q. split; [by left|]. split; [by right; left|]. apply Qle_refl.
Defined.

Lemma get_new_samples_unknown_method_witness :
  "random" <> al_value LEAST_CONFIDENCE /\ "random" <> al_value ENTROPY /\
  "random" <> al_value BOTH /\
  get_new_samples (BE:=test_backend) "random" test_preds test_batch
  = inl (ValueError ("'" +:+ "random" +:+ "' method doesn't exist")).
Proof.
  split; [discriminate|]. split; [discriminate|]. split; [discriminate|].
  apply get_new_samples_unknown_method; discriminate.
Defined.
