(* ===== verification/Scorer.v ===== *)
(** * The scorer ([PretextTrainer.make_batches])

    [make_batches] scores every sample of the target dataset once:
    it sets [args.al_batch_size = 1] (restored at the end), loads the
    level-1 pretraining checkpoint into the encoder with
    [load_state_dict(strict=False)], builds the loader of the target
    dataset ([target_loader], which raises [AttributeError] for an
    unknown [args.target_dataset]), puts the model in evaluation mode and,
    for each [(image, path)] of the shuffled loader, runs two forward
    passes and records [criterion(output1, output2) +
    criterion(output2, output1)].  The list is sorted by loss, descending,
    saved under [args.al_path_loss_file] and returned.

    [get_model_criterion] (outside [src/]) is taken to return the encoder
    and the back end's [criterion].  The iteration of the loader
    ([MakeBatchDataset] is outside [src/]) is taken to yield the samples
    of the target dataset, given by their paths, once each in a shuffled
    order, one per step (the batch size 1 set in [args]).  The values of
    [DatasetType] and [get_params] come from the class [DatasetEnv]. *)

From S2P Require Import Prelude Sorting PathLoss Config Torch TargetDataset Store.
From Stdlib Require Import Sorted.

Section Scorer.
Context {BE : Backend} {DE : DatasetEnv}.

(** One loop iteration: two forward passes of the same image. *)
Definition score_sample (model : nn_module) (p : string) : py World PathLoss :=
  w <- py_get ;;
  let x := read_image p in
  let '(r1, (feature1, output1)) := forward_pair model (w_rng w) x in
  let '(r2, (feature2, output2)) := forward_pair model r1 x in
  py_put (set_rng w r2) ;;;
  py_ret (mk_PathLoss p (criterion output1 output2 + criterion output2 output1)%Q).

(** [enumerate(loader)] for the loader of active learning: the order of
    the scan, one sample per step. *)
Definition shuffled_loader {A} (l : list A) : py World (list A) :=
  w <- py_get ;;
  let '(r, order) := shuffle (w_rng w) l in
  py_put (set_rng w r) ;;; py_ret order.

Definition make_batches (encoder : nn_module) (dataset : list string)
  : py World (list PathLoss) :=
  w <- py_get ;;
  let batch_size := al_batch_size (w_args w) in
  py_put (set_args w (set_al_batch_size (w_args w) 1)) ;;;
  state <- load_saved_state true "1" ;;
  sd <- py_lift (checkpoint_model state) ;;
  model <- py_lift (load_state_dict encoder sd) ;;
  w1 <- py_get ;;
  loader <- py_lift (target_loader env_dataset_value env_image_size env_batch_size
                                   (w_args w1) ACTIVE_LEARNING) ;;
  order <- shuffled_loader dataset ;;
  pathloss <- py_mapM (score_sample (eval_mode model)) order ;;
  let sorted_samples := sorted_by_loss_desc pathloss in
  w1 <- py_get ;;
  save_path_loss (al_path_loss_file (w_args w1)) sorted_samples ;;;
  w2 <- py_get ;;
  py_put (set_args w2 (set_al_batch_size (w_args w2) batch_size)) ;;;
  py_ret sorted_samples.
End Scorer.

Section ScorerFacts.
Context {BE : Backend} {DE : DatasetEnv}.

(** The score of a sample under weights [sd] in evaluation mode. *)
Definition eval_score (sd : state_dict) (p : string) : Q :=
  let o := (eval_pair sd (read_image p)).2 in (criterion o o + criterion o o)%Q.

Lemma set_rng_same (w : World) : set_rng w (w_rng w) = w.
Proof. by destruct w. Qed.

(** In evaluation mode both passes give the same output and the
    generator is not drawn from. *)
Lemma score_sample_eval m p w :
  training m = false ->
  score_sample m p w = (inr (mk_PathLoss p (eval_score (weights m) p)), w).
Proof.
  intros Hm. unfold score_sample. py_simpl.
  rewrite !forward_pair_eval by done. simpl.
  unfold eval_score. destruct (eval_pair (weights m) (read_image p)) as [f o].
  simpl. by rewrite set_rng_same.
Qed.

Lemma score_loop_eval m l w :
  training m = false ->
  py_mapM (score_sample m) l w
  = (inr (map (fun p => mk_PathLoss p (eval_score (weights m) p)) l), w).
Proof.
  intros Hm. induction l as [|p l IH]; [done|]. simpl. py_simpl.
  rewrite score_sample_eval by done. by rewrite IH.
Qed.

Lemma shuffled_loader_inv {A} (l : list A) w r w' :
  shuffled_loader l w = (r, w') ->
  exists order, r = inr order /\ order ≡ₚ l /\ w' = set_rng w (shuffle (w_rng w) l).1.
Proof.
  unfold shuffled_loader. py_simpl. pose proof (shuffle_perm _ (w_rng w) l) as Hp.
  destruct (shuffle (w_rng w) l) as [r0 order]. intros [= <- <-]. eauto.
Qed.

(** A successful run of [make_batches], step by step: the loaded weights,
    the scan order, the result, and the final world. *)
Lemma make_batches_inv enc ds w res w' :
  make_batches enc ds w = (inr res, w') ->
  exists sd model r order,
    load_state_dict enc sd = inr model /\ order ≡ₚ ds /\
    res = sorted_by_loss_desc (map (fun p => mk_PathLoss p (eval_score (weights model) p)) order) /\
    let w2 := set_rng (set_args w (set_al_batch_size (w_args w) 1)) r in
    let w3 := snd (save_path_loss (al_path_loss_file (w_args w)) res w2) in
    w' = set_args w3 (set_al_batch_size (w_args w3) (al_batch_size (w_args w))).
Proof.
  unfold make_batches. py_simpl.
  set (w1 := set_args w (set_al_batch_size (w_args w) 1)).
  destruct (load_saved_state true "1" w1) as [[e|st] w1'] eqn:E1;
    apply load_saved_state_frame in E1 as ->; [done|].
  destruct (checkpoint_model st) as [e|sd]; [done|].
  destruct (load_state_dict enc sd) as [e|model] eqn:Em; [done|]. simpl.
  destruct (target_loader _ _ _ _ _) as [e|ld]; [done|]. simpl.
  destruct (shuffled_loader ds w1) as [ro w2] eqn:Es.
  apply shuffled_loader_inv in Es as (order & -> & Hperm & ->).
  rewrite score_loop_eval by done.
  intros H.
  change (al_path_loss_file (w_args (set_rng w1 _))) with (al_path_loss_file (w_args w)) in H.
  destruct (save_path_loss _ _ _) as [[e|[]] w3] eqn:Esave in H.
  { pose proof (f_equal fst Esave) as F. by rewrite save_path_loss_no_raise in F. }
  injection H as <- <-. exists sd, model, (shuffle (w_rng w1) ds).1, order.
  change (weights (eval_mode model)) with (weights model) in Esave.
  do 3 (split; [done|]). cbv zeta. by rewrite Esave.
Qed.

Lemma make_batches_fail enc ds w e w' :
  make_batches enc ds w = (inl e, w') -> w' = set_args w (set_al_batch_size (w_args w) 1).
Proof.
  unfold make_batches. py_simpl.
  set (w1 := set_args w (set_al_batch_size (w_args w) 1)).
  destruct (load_saved_state true "1" w1) as [[e'|st] w1'] eqn:E1;
    apply load_saved_state_frame in E1 as ->; [by intros [= _ <-]|].
  destruct (checkpoint_model st) as [e'|sd]; [by intros [= _ <-]|].
  destruct (load_state_dict enc sd) as [e'|model] eqn:Em; [by intros [= _ <-]|]. simpl.
  destruct (target_loader _ _ _ _ _) as [e'|ld]; [by intros [= _ <-]|]. simpl.
  destruct (shuffled_loader ds w1) as [ro w2] eqn:Es.
  apply shuffled_loader_inv in Es as (order & -> & Hperm & ->).
  rewrite score_loop_eval by done.
  destruct (save_path_loss _ _ _) as [[e'|[]] w3] eqn:Esave; [|done].
  pose proof (f_equal fst Esave) as F. by rewrite save_path_loss_no_raise in F.
Qed.

(** A successful run leaves [args] as it found it. *)
Lemma make_batches_ok_args enc ds w res w' :
  make_batches enc ds w = (inr res, w') -> w_args w' = w_args w.
Proof.
  intros (sd & model & rg & order & _ & _ & _ & ->)%make_batches_inv. simpl.
  rewrite save_path_loss_args. simpl. by destruct (w_args w).
Qed.
End ScorerFacts.


Section ScorerTheorems.
Context {BE : Backend} {DE : DatasetEnv}.

(** C3. [make_batches] returns one [PathLoss] per sample of the dataset,
    its paths are the dataset's, and the list is sorted by loss,
    descending: [result[i].loss >= result[i+1].loss]. *)
Theorem make_batches_sorted enc ds w res w' :
  make_batches enc ds w = (inr res, w') ->
  length res = length ds /\ map path res ≡ₚ ds /\
  (forall i x y, res !! i = Some x -> res !! S i = Some y -> (loss y <= loss x)%Q).
Proof.
  intros (sd & model & r & order & _ & Hperm & -> & _)%make_batches_inv.
  split; [|split].
  - unfold sorted_by_loss_desc. by rewrite length_stable_sort, length_map, Hperm.
  - unfold sorted_by_loss_desc. rewrite (stable_sort_perm _ _), map_map. simpl.
    by rewrite map_id, Hperm.
  - intros i x y Hx Hy. apply Qle_bool_iff.
    exact (Sorted_lookup _ _ i x y (sorted_by_loss_desc_sorted _) Hx Hy).
Qed.

(** C9. The model is put in evaluation mode before the scan, so the two
    forward passes of a sample give the same output: every recorded loss
    is [criterion(o, o) + criterion(o, o)] for the output [o] of the
    loaded weights, with no randomness between the passes. *)
Theorem make_batches_single_output enc ds w res w' :
  make_batches enc ds w = (inr res, w') ->
  exists sd model, load_state_dict enc sd = inr model /\
    forall x, x ∈ res ->
      let o := (eval_pair (weights model) (read_image (path x))).2 in
      loss x = (criterion o o + criterion o o)%Q /\ pathloss_wf x.
Proof.
  intros (sd & model & r & order & Hm & _ & -> & _)%make_batches_inv.
  exists sd, model. split; [done|]. intros x Hx.
  apply elem_of_stable_sort, list_elem_of_In, in_map_iff in Hx as (p & <- & _).
  split; reflexivity.
Qed.

(** C17. [args.al_batch_size] is set to 1 for the scan and restored only
    on the normal return: after a successful run [args] is unchanged,
    after an exception (a missing or malformed checkpoint, an unknown
    target dataset) it is left at 1, since the code has no
    [try/finally]. *)
Theorem make_batches_args enc ds w r w' :
  make_batches enc ds w = (r, w') ->
  match r with
  | inr _ => w_args w' = w_args w
  | inl _ => w_args w' = set_al_batch_size (w_args w) 1
  end.
Proof.
  destruct r as [e|res].
  - by intros ->%make_batches_fail.
  - apply make_batches_ok_args.
Qed.

End ScorerTheorems.

(** ** Concrete runs *)
#[local] Existing Instance test_env.

Definition test_dataset : list string := ["a.png"; "bbb.png"; "cc.png"].

Lemma make_batches_sorted_witness :
  exists res w', make_batches test_encoder test_dataset test_world = (inr res, w') /\
    length res = length test_dataset /\ map path res ≡ₚ test_dataset /\
    (forall i x y, res !! i = Some x -> res !! S i = Some y -> (loss y <= loss x)%Q).
Proof.
  destruct (make_batches test_encoder test_dataset test_world) as [[e|res] w'] eqn:E.
  - vm_compute in E. discriminate.
  - exists res, w'. split; [done|]. exact (make_batches_sorted _ _ _ _ _ E).
Defined.

Lemma make_batches_single_output_witness :
  exists res w', make_batches test_encoder test_dataset test_world = (inr res, w') /\
    exists sd model, load_state_dict test_encoder sd = inr model /\
    forall x, x ∈ res ->
      let o := (@eval_pair test_backend (weights model) (@read_image test_backend (path x))).2 in
      loss x = (@criterion test_backend o o + @criterion test_backend o o)%Q /\ pathloss_wf x.
Proof.
  destruct (make_batches test_encoder test_dataset test_world) as [[e|res] w'] eqn:E.
  - vm_compute in E. discriminate.
  - exists res, w'. split; [done|]. exact (make_batches_single_output _ _ _ _ _ E).
Defined.

(** Without the checkpoint the run fails and leaves [al_batch_size] at 1. *)
Lemma make_batches_args_witness :
  exists e w', make_batches test_encoder test_dataset test_world_empty = (inl e, w') /\
    w_args w' = set_al_batch_size (w_args test_world_empty) 1.
Proof.
  destruct (make_batches test_encoder test_dataset test_world_empty) as [[e|res] w'] eqn:E.
  - exists e, w'. split; [done|]. exact (make_batches_args _ _ _ _ _ E).
  - vm_compute in E. discriminate.
Defined.
