(* ===== verification/Trainer.v ===== *)
(** * The proxy trainer ([PretextTrainer.train_proxy] and [SimCLRTrainer])

    [train_proxy(samples, model, rebuild_al_model)] builds a loader over
    the samples, chooses a trainer by [args.method] ([SimCLRTrainer],
    [SimCLRTrainerV2] for DCL, [get_myow_trainer] for MYOW), runs
    [args.al_epochs] epochs, stepping the scheduler after each, and
    returns [trainer.model].  An unknown method reaches [ValueError] as a
    bare expression (it is not raised) and fails later on the unbound
    [trainer].

    A trainer is reached through the record [TrainerOps]: its state, its
    construction, one epoch, the scheduler step and its model, with the
    law that a trainer touches neither the file system nor the loop's
    configuration in [args] ([frame]).  [simclr_ops] is
    the implementation of [simclr_trainer.py] and discharges the law; the
    DCL and MYOW trainers, whose code is outside [src/], are parameters.

    [SimCLRTrainer.__init__]: in active learning without
    [rebuild_al_model] it keeps the caller's encoder and builds a fresh
    optimizer ([state = None]); otherwise it reloads the checkpoint of the
    pretraining level and builds the optimizer from it.  [train_epoch]
    sets training mode, runs one step per batch of a freshly shuffled
    loader, adds [batch_size] to [total_num] and [loss * batch_size] to
    [total_loss] per step, increments [args.global_step], and returns
    [total_loss / total_num], which divides by zero on an empty loader.

    The loader ([PretextDataLoader], outside [src/]) is built first
    ([pretext_loader]): its constructor refuses a batch size of 0, an
    error raised before the method is looked at.  It is taken to batch the
    samples by [args.al_batch_size] (the size [get_params] gives active
    learning, which [make_batches] overrides through that field), to
    reshuffle at each epoch, and to drop a last incomplete batch when
    [pretext_drop_last] holds; the scheduler is counted by its steps. *)

From S2P Require Import Prelude PathLoss Config Torch Store.

Section Trainer.
Context {BE : Backend}.

(** [load_optimizer(args, params, state, train_params)] *)
Definition load_optimizer (state : option stored) : Optimizer :=
  {| opt_steps := 0; opt_restored := bool_decide (is_Some state) |}.

Record TrainerOps : Type := {
  tr_state : Type;
  tr_init : nn_module -> list PathLoss -> bool -> py World tr_state;
  tr_train_epoch : tr_state -> py World (tr_state * Q);
  tr_scheduler_step : tr_state -> tr_state;
  tr_model : tr_state -> nn_module;
  tr_init_frame : forall e s r, py_pres frame (tr_init e s r);
  tr_epoch_frame : forall t, py_pres frame (tr_train_epoch t)
}.

(** ** [SimCLRTrainer] *)
Record SimCLRTrainer : Type := {
  st_model : nn_module;
  st_optimizer : Optimizer;
  st_sched_steps : nat;
  st_samples : list PathLoss;
  st_batch_size : nat
}.

Variable pretext_drop_last : bool.

(** [SimCLRTrainer.__init__] for [training_type] and [pretrain_level]. *)
Definition simclr_init (tt : TrainingType) (level : string) (encoder : nn_module)
    (samples : list PathLoss) (rebuild : bool) : py World SimCLRTrainer :=
  w <- py_get ;;
  let a := w_args w in
  ms <- (if bool_decide (tt = ACTIVE_LEARNING) && negb rebuild
         then py_ret (encoder, None)
         else if negb (bool_decide (tt = BASE_PRETRAIN)) || negb (epoch_num a =? base_epochs a)
         then state <- load_saved_state true level ;;
              sd <- py_lift (checkpoint_model state) ;;
              model <- py_lift (load_state_dict encoder sd) ;;
              py_ret (model, Some state)
         else py_ret (encoder, None)) ;;
  py_ret {| st_model := ms.1; st_optimizer := load_optimizer ms.2; st_sched_steps := 0;
            st_samples := samples; st_batch_size := al_batch_size a |}.

(** One step of the epoch loop on a batch of samples. *)
Definition simclr_step (acc : SimCLRTrainer * Q * nat) (batch : list PathLoss)
    : py World (SimCLRTrainer * Q * nat) :=
  let '(t, total_loss, total_num) := acc in
  w <- py_get ;;
  let '(r, (sd, l)) := train_step (st_model t) (st_optimizer t) (w_rng w)
                                   (map (fun x => read_image (path x)) batch) in
  py_put (set_args (set_rng w r) (set_global_step (w_args w) (S (global_step (w_args w))))) ;;;
  let bs := st_batch_size t in
  py_ret ({| st_model := {| weights := sd; training := training (st_model t) |};
             st_optimizer := {| opt_steps := S (opt_steps (st_optimizer t));
                                opt_restored := opt_restored (st_optimizer t) |};
             st_sched_steps := st_sched_steps t; st_samples := st_samples t;
             st_batch_size := bs |},
          (total_loss + l * inject_Z (Z.of_nat bs))%Q, total_num + bs).

(** The batches of one epoch: a fresh shuffle, then batching. *)
Definition epoch_batches (samples : list PathLoss) (bs : nat) : py World (list (list PathLoss)) :=
  w <- py_get ;;
  let '(r, order) := shuffle (w_rng w) samples in
  py_put (set_rng w r) ;;;
  py_lift (data_loader bs pretext_drop_last order).

Definition simclr_train_epoch (t : SimCLRTrainer) : py World (SimCLRTrainer * Q) :=
  let t0 := {| st_model := train_mode (st_model t); st_optimizer := st_optimizer t;
               st_sched_steps := st_sched_steps t; st_samples := st_samples t;
               st_batch_size := st_batch_size t |} in
  batches <- epoch_batches (st_samples t) (st_batch_size t) ;;
  acc <- py_foldM simclr_step batches (t0, 0%Q, 0) ;;
  let '(t', total_loss, total_num) := acc in
  if total_num =? 0 then py_raise ZeroDivisionError
  else py_ret (t', (total_loss / inject_Z (Z.of_nat total_num))%Q).

Definition simclr_scheduler_step (t : SimCLRTrainer) : SimCLRTrainer :=
  {| st_model := st_model t; st_optimizer := st_optimizer t;
     st_sched_steps := S (st_sched_steps t); st_samples := st_samples t;
     st_batch_size := st_batch_size t |}.
End Trainer.

Section TrainerFacts.
Context {BE : Backend}.
Variable pretext_drop_last : bool.

Lemma simclr_init_pres tt level e s r : py_pres frame (simclr_init tt level e s r).
Proof.
  unfold simclr_init. apply py_pres_bind; [auto with pylib|]. intros w.
  apply py_pres_bind; [|auto with pylib]. repeat case_match; auto 10 with pylib.
Qed.

Lemma simclr_step_pres acc batch : py_pres frame (simclr_step acc batch).
Proof.
  destruct acc as [[t tl] tn]. intros w r w'. unfold simclr_step. py_simpl.
  destruct (train_step _ _ _ _) as [rg [sd l]]. by intros [= _ <-].
Qed.

Lemma epoch_batches_pres samples bs : py_pres frame (epoch_batches pretext_drop_last samples bs).
Proof.
  intros w r w'. unfold epoch_batches. py_simpl.
  destruct (shuffle _ _) as [rg order]. by intros [= _ <-].
Qed.

#[local] Hint Resolve simclr_init_pres simclr_step_pres epoch_batches_pres : pylib.

Lemma simclr_train_epoch_pres t : py_pres frame (simclr_train_epoch pretext_drop_last t).
Proof.
  unfold simclr_train_epoch. apply py_pres_bind; [auto with pylib|]. intros b.
  apply py_pres_bind; [auto with pylib|]. intros [[t' tl] tn]. case_match; auto with pylib.
Qed.
End TrainerFacts.

#[export] Hint Resolve simclr_init_pres simclr_step_pres epoch_batches_pres
  simclr_train_epoch_pres : pylib.

Section TrainProxy.
Context {BE : Backend}.
Variable pretext_drop_last : bool.

(** [SimCLRTrainer] as a trainer of active learning. *)
Definition simclr_ops : TrainerOps := {|
  tr_state := SimCLRTrainer;
  tr_init := simclr_init ACTIVE_LEARNING "1";
  tr_train_epoch := simclr_train_epoch pretext_drop_last;
  tr_scheduler_step := simclr_scheduler_step;
  tr_model := st_model;
  tr_init_frame := simclr_init_pres ACTIVE_LEARNING "1";
  tr_epoch_frame := simclr_train_epoch_pres pretext_drop_last
|}.

(** The DCL and MYOW trainers (outside [src/]). *)
Variables dcl_ops myow_ops : TrainerOps.

(** [for epoch in range(self.args.al_epochs)]: one epoch, then
    [trainer.scheduler.step()]; then [return trainer.model]. *)
Definition run_trainer (ops : TrainerOps) (samples : list PathLoss) (model : nn_module)
    (rebuild : bool) : py World nn_module :=
  t <- tr_init ops model samples rebuild ;;
  w <- py_get ;;
  t' <- py_foldM (fun t _ => x <- tr_train_epoch ops t ;; py_ret (tr_scheduler_step ops x.1))
                 (seq 0 (al_epochs (w_args w))) t ;;
  py_ret (tr_model ops t').

(** [loader = PretextDataLoader(self.args, samples).get_loader()]
    (outside [src/]): a [DataLoader] over the samples with batch size
    [args.al_batch_size], whose constructor refuses a batch size of 0.
    The loader is handed to the trainer, which iterates it once per
    epoch. *)
Definition pretext_loader (samples : list PathLoss) : py World (list (list PathLoss)) :=
  w <- py_get ;;
  py_lift (data_loader (al_batch_size (w_args w)) pretext_drop_last samples).

Definition train_proxy (samples : list PathLoss) (model : nn_module) (rebuild : bool)
    : py World nn_module :=
  _ <- pretext_loader samples ;;
  w <- py_get ;;
  let m := method (w_args w) in
  if bool_decide (m = ssl_value SIMCLR) then run_trainer simclr_ops samples model rebuild
  else if bool_decide (m = ssl_value DCL) then run_trainer dcl_ops samples model rebuild
  else if bool_decide (m = ssl_value MYOW) then run_trainer myow_ops samples model rebuild
  else py_raise (UnboundLocalError "trainer").

Lemma run_trainer_pres ops samples model rebuild :
  py_pres frame (run_trainer ops samples model rebuild).
Proof.
  unfold run_trainer. apply py_pres_bind; [apply tr_init_frame|].
  intros t. apply py_pres_bind; [auto with pylib|]. intros w.
  apply py_pres_bind; [|auto with pylib]. apply py_pres_foldM. intros t1 _.
  apply py_pres_bind; [apply tr_epoch_frame|auto with pylib].
Qed.

(** [train_proxy] leaves the file system and the loop's configuration as
    they are. *)
Lemma train_proxy_pres samples model rebuild : py_pres frame (train_proxy samples model rebuild).
Proof.
  unfold train_proxy, pretext_loader. apply py_pres_bind; [auto with pylib|]. intros _.
  apply py_pres_bind; [auto with pylib|]. intros w.
  repeat case_bool_decide; auto using run_trainer_pres with pylib.
Qed.
End TrainProxy.

Section TrainerTheorems.
Context {BE : Backend}.
Variable pretext_drop_last : bool.
Variables dcl_ops myow_ops : TrainerOps.

(** C19. [train_proxy] with a method that is none of SimCLR, DCL and MYOW
    fails: with [ValueError] of the loader built at line 33 when
    [args.al_batch_size] is 0, and otherwise with [UnboundLocalError] on
    [trainer], since the [else] branch evaluates [ValueError] without
    raising it and both the epoch loop and [return trainer.model] read
    the unbound name. *)
Theorem train_proxy_unknown_method samples model rebuild w :
  method (w_args w) <> ssl_value SIMCLR -> method (w_args w) <> ssl_value DCL ->
  method (w_args w) <> ssl_value MYOW ->
  train_proxy pretext_drop_last dcl_ops myow_ops samples model rebuild w
  = (inl (if al_batch_size (w_args w) =? 0
          then ValueError "batch_size should be a positive integer value"
          else UnboundLocalError "trainer"), w).
Proof.
  intros H1 H2 H3. unfold train_proxy, pretext_loader, data_loader. py_simpl.
  destruct (Nat.eqb_spec (al_batch_size (w_args w)) 0); py_simpl; [done|].
  by rewrite !bool_decide_eq_false_2.
Qed.

End TrainerTheorems.

Section EpochTheorems.
Context {BE : Backend}.
Variable pretext_drop_last : bool.

Lemma simclr_step_ok t tl tn b w :
  exists t' tl' w', simclr_step (t, tl, tn) b w = (inr (t', tl', tn + st_batch_size t), w') /\
    st_batch_size t' = st_batch_size t /\
    global_step (w_args w') = S (global_step (w_args w)).
Proof.
  unfold simclr_step. py_simpl. destruct (train_step _ _ _ _) as [r [sd l]].
  by do 3 eexists.
Qed.

(** The epoch loop never raises: it counts [batch_size] per batch and one
    global step per batch. *)
Lemma simclr_fold_ok bs t tl tn w :
  exists t' tl' w', py_foldM simclr_step bs (t, tl, tn) w
    = (inr (t', tl', tn + st_batch_size t * length bs), w') /\
    global_step (w_args w') = global_step (w_args w) + length bs.
Proof.
  revert t tl tn w. induction bs as [|b bs IH]; intros t tl tn w; cbn [py_foldM length].
  - exists t, tl, w. rewrite Nat.mul_0_r, Nat.add_0_r. split; [done|lia].
  - destruct (simclr_step_ok t tl tn b w) as (t1 & tl1 & w1 & E1 & Hbs & Hg1).
    unfold py_bind at 1. rewrite E1.
    destruct (IH t1 tl1 (tn + st_batch_size t) w1) as (t2 & tl2 & w2 & E2 & Hg2).
    exists t2, tl2, w2. rewrite E2, Hbs.
    replace (tn + st_batch_size t + st_batch_size t * length bs)
      with (tn + st_batch_size t * S (length bs)) by lia. split; [done|lia].
Qed.

(** C18. An epoch of [SimCLRTrainer.train_epoch] divides by zero exactly
    when its loader yields no batch: an empty sample pool, or, with
    [drop_last], a pool smaller than one batch. *)
Theorem simclr_train_epoch_zero_division t w :
  0 < st_batch_size t ->
  (fst (simclr_train_epoch pretext_drop_last t w) = inl ZeroDivisionError <->
   st_samples t = [] \/ (pretext_drop_last = true /\ length (st_samples t) < st_batch_size t)).
Proof.
  intros Hbs. unfold simclr_train_epoch, epoch_batches, data_loader. py_simpl.
  pose proof (shuffle_perm _ (w_rng w) (st_samples t)) as Hp.
  destruct (shuffle (w_rng w) (st_samples t)) as [r order]. simpl in Hp.
  rewrite (proj2 (Nat.eqb_neq _ 0)) by lia. simpl.
  match goal with |- context [py_foldM simclr_step ?bs (?t0, ?a, ?b) ?w0] =>
    destruct (simclr_fold_ok bs t0 a b w0) as (t' & tl' & w' & -> & _) end.
  simpl. transitivity (chunks (st_batch_size t) pretext_drop_last order = []).
  - destruct (Nat.eqb_spec (st_batch_size t *
                            length (chunks (st_batch_size t) pretext_drop_last order)) 0) as [Hz|Hz].
    + split; [|done]. intros _. apply length_zero_iff_nil. nia.
    + split; [done|]. intros Hc. rewrite Hc in Hz. simpl in Hz. lia.
  - rewrite !chunks_nil, (Permutation_length Hp) by done.
    assert (order = [] <-> st_samples t = []) as ->; [|done].
    split; intros Hn; rewrite Hn in Hp; [by apply Permutation_nil|by apply Permutation_nil, Permutation_sym].
Qed.
End EpochTheorems.

(** ** Concrete runs *)
Definition byol_world : @World test_backend := {|
  w_args := {| method := "byol"; al_method := "entropy"; al_batches := 2; al_epochs := 1;
               al_batch_size := 64; model_path := "/models";
               al_path_loss_file := "al_path_loss.pkl";
               pretrain_path_loss_file := "pretrain_path_loss.pkl"; resume := None;
               epoch_num := 100; current_epoch := 0; global_step := 0; base_epochs := 100;
               start_epoch := 0; target_epochs := 100; base_optimizer := "Adam-Cosine";
               target_optimizer := "Adam-Cosine"; base_dataset := "imagenet";
               target_dataset := "ucmerced"; dataset_dir := "/data" |};
  w_fs := w_fs test_world; w_rng := w_rng test_world |}.

(** A trainer over an empty pool with batches of two. *)
Definition empty_trainer : SimCLRTrainer := {|
  st_model := test_encoder; st_optimizer := {| opt_steps := 0; opt_restored := false |};
  st_sched_steps := 0; st_samples := []; st_batch_size := 2 |}.

Lemma train_proxy_unknown_method_witness :
  method (w_args byol_world) <> ssl_value SIMCLR /\ method (w_args byol_world) <> ssl_value DCL /\
  method (w_args byol_world) <> ssl_value MYOW /\
  train_proxy false (simclr_ops false) (simclr_ops false) [] test_encoder true byol_world
  = (inl (if al_batch_size (w_args byol_world) =? 0
          then ValueError "batch_size should be a positive integer value"
          else UnboundLocalError "trainer"), byol_world).
Proof.
  split; [discriminate|]. split; [discriminate|]. split; [discriminate|].
  apply train_proxy_unknown_method; discriminate.
Defined.

Lemma simclr_train_epoch_zero_division_witness :
  0 < st_batch_size empty_trainer /\
  (fst (simclr_train_epoch false empty_trainer test_world) = inl ZeroDivisionError <->
   st_samples empty_trainer = [] \/
   (false = true /\ length (st_samples empty_trainer) < st_batch_size empty_trainer)).
Proof.
  split; [simpl; lia|]. apply simclr_train_epoch_zero_division. simpl. lia.
Defined.
