(* ===== verification/Batching.v ===== *)
(** * Termination of the loader loops

    A [DataLoader] yields the batches of its dataset one after the other;
    every loop of the program over a loader ([for step, (image, _) in
    enumerate(self.train_loader)] in [SimCLRTrainer.train_epoch],
    [for step, (image, _) in enumerate(loader)] in
    [PretextTrainer.finetune]) runs once per batch.  [Prelude] models the
    batching by [chunks], a recursion bounded by fuel ([length l]).  This
    file gives the batching a definition by well-founded recursion on the
    length of the list, [batches] (with Equations), proves that the
    fuelled [chunks] computes it whenever the batch size is positive (so
    the fuel never runs out), and counts the batches: [n / b] with
    [drop_last], [ceil (n / b)] without. *)

From S2P Require Import Prelude Sorting PathLoss Config Torch Store Trainer.
From Equations Require Import Equations.

(** The batches of [l], by well-founded recursion: each step removes a
    non-empty prefix.  A batch size of 0 has no batches ([DataLoader]
    refuses it before any is asked for). *)
Equations batches {A} (b : nat) (drop_last : bool) (l : list A) : list (list A)
  by wf (length l) lt :=
  batches 0 _ _ := [];
  batches (S b') _ [] := [];
  batches (S b') dl (x :: xs) :=
    if dl && (length (x :: xs) <? S b') then []
    else take (S b') (x :: xs) :: batches (S b') dl (drop (S b') (x :: xs)).
Next Obligation. simpl. rewrite length_drop. lia. Qed.

(** With at least [length l] units of fuel, [chunks_go] is [batches]. *)
Lemma chunks_go_batches {A} fuel b dl (l : list A) :
  0 < b -> length l <= fuel -> chunks_go fuel b dl l = batches b dl l.
Proof.
  destruct b as [|b']; [lia|]. intros _. revert l.
  induction fuel as [|f IH]; intros [|x xs] Hl; simp batches; simpl in Hl; try done; [lia|].
  cbn [chunks_go]. destruct (dl && _); [done|]. f_equal.
  apply IH. rewrite length_drop. simpl. lia.
Qed.

Lemma chunks_batches {A} b dl (l : list A) : 0 < b -> chunks b dl l = batches b dl l.
Proof. intros Hb. by apply chunks_go_batches. Qed.

(** The number of batches, as bounds: with [drop_last], the largest [k]
    with [k * b <= n]; without, the least [k] with [n <= k * b]. *)
Lemma length_batches_bounds {A} b dl (l : list A) : 0 < b ->
  let k := length (batches b dl l) in
  if dl then b * k <= length l < b * S k else length l <= b * k < length l + b.
Proof.
  funelim (batches b dl l); intros Hb; cbv zeta;
    [lia|case_match; simpl; lia|].
  destruct (dl && _) eqn:Hd; simpl length.
  - apply andb_prop in Hd as [-> Hlt%Nat.ltb_lt]. simpl in *. lia.
  - specialize (H Hb). cbv zeta in H. rewrite length_drop in H. simpl length in *.
    destruct dl; simpl in Hd.
    + apply Nat.ltb_ge in Hd. nia.
    + destruct (decide (length xs < b')); [|nia].
      replace (S (length xs) - S b') with 0 in H by lia.
      set (k := length (batches _ _ _)) in *. assert (k = 0) as -> by (destruct k; [done|lia]). lia.
Qed.

(** The bounds determine the count as Python's integer divisions. *)
Lemma length_batches {A} b dl (l : list A) : 0 < b ->
  length (batches b dl l) = if dl then length l / b else (length l + b - 1) / b.
Proof.
  intros Hb. pose proof (length_batches_bounds b dl l Hb) as H. cbv zeta in H.
  set (k := length (batches b dl l)) in *. destruct dl.
  - apply (Nat.div_unique _ _ _ (length l - b * k)); lia.
  - apply (Nat.div_unique _ _ _ (length l + b - 1 - b * k)); nia.
Qed.

Section Epoch.
Context {BE : Backend}.
Variable pretext_drop_last : bool.

End Epoch.

(** ** Concrete runs *)
Definition three_samples : list PathLoss :=
  [mk_PathLoss "a.png" 1; mk_PathLoss "b.png" 2; mk_PathLoss "c.png" 3].
