(* ===== verification/ActiveLearning.v ===== *)
(** * The active-learning loop ([PretextTrainer.do_active_learning], [finetune])

    [do_active_learning] loads the scored pool from [args.al_path_loss_file]
    or, when that load gives [None], computes it with [make_batches].  It
    then runs [args.al_batches] iterations; iteration [batch] takes the
    slice [path_loss[batch*6400 : (batch+1)*6400]]:
    - batch 0 keeps its first 5120 samples;
    - a later batch reloads the proxy from [proxy_<batch-1>.pth] and
      selects samples with [finetune];
    the selection is appended to the pool and, except in the last
    iteration, the proxy is trained on the whole pool by [train_proxy]
    ([rebuild_al_model] only the first time) and saved as
    [proxy_<batch>.pth].  The pool is saved under
    [args.pretrain_path_loss_file] and returned.

    [finetune] puts the proxy in evaluation mode (the caller's object, so
    the caller's proxy is in evaluation mode afterwards), computes the
    softmax rows of the features of every batch of the slice, concatenates
    them ([torch.cat] raises on an empty list), and calls
    [get_new_samples].  The loop state [ALState] is the triple of Python
    variables [pretraining_sample_pool], [proxy_model] and
    [rebuild_al_model]. *)

From S2P Require Import Prelude Sorting PathLoss Config Torch TargetDataset Store Selector Scorer Trainer.

#[local] Set Warnings "-abstract-large-number".

(** The slice width and the seed size of batch 0. *)
Definition batch_width : nat := 6400.
Definition seed_size : nat := 5120.

Definition proxy_name (i : nat) : string := "proxy_" +:+ pretty i +:+ ".pth".

Record ALState : Type := { pool : list PathLoss; proxy : nn_module; rebuild : bool }.

(** [PretextTrainer(args, writer)].  [self.args] is a reference to the
    shared [args] namespace, which the model keeps once, as the [w_args]
    of the world, so that the mutations of [make_batches] are seen by
    every holder of it.  The object itself holds the summary writer
    (passed on to the trainers outside [src/]) and
    [self.criterion = None], which no method reads. *)
Record PretextTrainer (Writer : Type) : Type := { pt_writer : Writer; pt_criterion : option unit }.

Definition pretext_trainer_init {Writer} (writer : Writer) : PretextTrainer Writer :=
  {| pt_writer := writer; pt_criterion := None |}.

Section ActiveLearning.
Context {BE : Backend} {DE : DatasetEnv}.
Variable pretext_drop_last : bool.
Variables dcl_ops myow_ops : TrainerOps.

(** [features = model(image)] for SimCLR, [features, _ = model(image)]
    otherwise. *)
Definition forward_features (model : nn_module) (x : image) : py World tensor :=
  w <- py_get ;;
  if bool_decide (method (w_args w) = ssl_value SIMCLR)
  then let '(r, f) := forward_single model (w_rng w) x in
       py_put (set_rng w r) ;;; py_ret f
  else let '(r, (f, _)) := forward_pair model (w_rng w) x in
       py_put (set_rng w r) ;;; py_ret f.

(** [_preds.append(self.get_predictions(features))] for one batch. *)
Definition predict_batch (model : nn_module) (batch : list PathLoss) : py World (list tensor) :=
  feats <- py_mapM (fun s => forward_features model (read_image (path s))) batch ;;
  py_ret (get_predictions feats).

(** [finetune(model, samples)]: the selection, and the proxy object, now
    in evaluation mode. *)
Definition finetune (model : nn_module) (samples : list PathLoss)
    : py World (list PathLoss * nn_module) :=
  w <- py_get ;;
  batches <- py_lift (data_loader (al_batch_size (w_args w)) pretext_drop_last samples) ;;
  let model := eval_mode model in
  preds <- py_mapM (predict_batch model) batches ;;
  match preds with
  | [] => py_raise (RuntimeError "torch.cat(): expected a non-empty list of Tensors")
  | _ => w' <- py_get ;;
         sel <- py_lift (get_new_samples (al_method (w_args w')) (mjoin preds) samples) ;;
         py_ret (sel, model)
  end.

(** The end of an iteration: [pretraining_sample_pool.extend(samplek)],
    then, except in the last iteration, [train_proxy] and
    [simple_save_model(..., f'proxy_{batch}.pth')]. *)
Definition al_batch_tail (st : ALState) (batch : nat) (sm : list PathLoss * nn_module)
    : py World ALState :=
  let pool' := pool st ++ sm.1 in
  w <- py_get ;;
  if batch <? al_batches (w_args w) - 1
  then m' <- train_proxy pretext_drop_last dcl_ops myow_ops pool' sm.2 (rebuild st) ;;
       simple_save_model (weights m') (proxy_name batch) ;;;
       py_ret {| pool := pool'; proxy := m'; rebuild := false |}
  else py_ret {| pool := pool'; proxy := sm.2; rebuild := rebuild st |}.

(** One iteration of [for batch in range(0, self.args.al_batches)]. *)
Definition al_batch_step (path_loss : list PathLoss) (st : ALState) (batch : nat)
    : py World ALState :=
  let sample6400 := py_slice path_loss (batch * batch_width) ((batch + 1) * batch_width) in
  sm <- (if 0 <? batch
         then sd <- simple_load_model (proxy_name (batch - 1)) ;;
              m <- py_lift (load_state_dict (proxy st) sd) ;;
              finetune m sample6400
         else py_ret (take seed_size sample6400, proxy st)) ;;
  al_batch_tail st batch sm.

(** The scored pool: the cache, or a scoring pass when the load gives
    [None]. *)
Definition scored_pool (encoder : nn_module) (dataset : list string)
    : py World (list PathLoss) :=
  w <- py_get ;;
  cached <- load_path_loss (al_path_loss_file (w_args w)) ;;
  match cached with
  | Some l => py_ret l
  | None => make_batches encoder dataset
  end.

Definition do_active_learning (encoder : nn_module) (dataset : list string)
    : py World (list PathLoss) :=
  path_loss <- scored_pool encoder dataset ;;
  w <- py_get ;;
  st <- py_foldM (al_batch_step path_loss) (seq 0 (al_batches (w_args w)))
                 {| pool := []; proxy := encoder; rebuild := true |} ;;
  w' <- py_get ;;
  save_path_loss (pretrain_path_loss_file (w_args w')) (pool st) ;;;
  py_ret (pool st).
End ActiveLearning.

Section FinetuneFacts.
Context {BE : Backend} {DE : DatasetEnv}.
Variable pretext_drop_last : bool.

(** The features of an image in evaluation mode. *)
Definition features_eval (meth : string) (sd : state_dict) (x : image) : tensor :=
  if bool_decide (meth = ssl_value SIMCLR) then eval_single sd x else (eval_pair sd x).1.

Lemma forward_features_eval m x w :
  training m = false ->
  forward_features m x w = (inr (features_eval (method (w_args w)) (weights m) x), w).
Proof.
  intros Hm. unfold forward_features, features_eval. py_simpl.
  case_bool_decide.
  - rewrite forward_single_eval by done. simpl. by rewrite set_rng_same.
  - rewrite forward_pair_eval by done. simpl.
    destruct (eval_pair (weights m) x) as [f o]. simpl. by rewrite set_rng_same.
Qed.

Lemma predict_batch_eval m b w :
  training m = false ->
  predict_batch m b w
  = (inr (get_predictions (map (fun s => features_eval (method (w_args w)) (weights m)
                                           (read_image (path s))) b)), w).
Proof.
  intros Hm. unfold predict_batch. py_simpl.
  rewrite (py_mapM_pure _ (fun s => features_eval (method (w_args w)) (weights m)
                                      (read_image (path s)))); [done|].
  intros x _. by apply forward_features_eval.
Qed.

(** An exception leaves no result to describe. *)
Local Ltac fail_case := intros [= <- <-]; split; [done|by intros ? ? ?].

(** [finetune] changes nothing in the world (evaluation mode, no
    gradient), and a selection it returns comes from [get_new_samples]
    on a non-empty slice. *)
Lemma finetune_inv m s w r w' :
  finetune pretext_drop_last m s w = (r, w') ->
  w' = w /\ forall sel m', r = inr (sel, m') ->
    m' = eval_mode m /\ s <> [] /\
    exists preds, get_new_samples (al_method (w_args w)) preds s = inr sel.
Proof.
  unfold finetune, data_loader. py_simpl.
  destruct (al_batch_size (w_args w) =? 0); [fail_case|].
  rewrite (py_mapM_pure _ (fun b => get_predictions
             (map (fun x => features_eval (method (w_args w)) (weights (eval_mode m))
                              (read_image (path x))) b))); last first.
  { intros b _. by apply predict_batch_eval. }
  destruct (map _ (chunks _ _ s)) as [|p ps] eqn:Ep; [fail_case|].
  destruct (get_new_samples _ _ _) as [e|sel] eqn:Eg; [fail_case|].
  intros [= <- <-]. split; [done|]. intros sel' m' [= <- <-].
  split; [done|]. split; [|eauto]. intros ->. unfold chunks in Ep. done.
Qed.

Lemma simple_load_model_frame name w r w' :
  simple_load_model name w = (r, w') -> w' = w.
Proof.
  unfold simple_load_model, model_file, read_file. py_simpl.
  by destruct (files (w_fs w) !! _); intros [= _ <-].
Qed.
End FinetuneFacts.

(** ** The pool built by the loop *)
Definition batch_slice (pl : list PathLoss) (b : nat) : list PathLoss :=
  py_slice pl (b * batch_width) ((b + 1) * batch_width).

(** What iteration [b] may append: batch 0 appends the first 5120 samples
    of its slice; a later batch appends a subset of its slice, which is
    not empty; a slice without duplicates gives a selection without
    duplicates; at most 5120 samples. *)
Definition batch_selection (pl : list PathLoss) (b : nat) (s : list PathLoss) : Prop :=
  (b = 0 -> s = take seed_size (batch_slice pl 0)) /\
  (0 < b -> batch_slice pl b <> []) /\
  (forall x, x ∈ s -> x ∈ batch_slice pl b) /\
  (NoDup (batch_slice pl b) -> NoDup s) /\
  length s <= seed_size.

(** After [k] iterations the pool is the concatenation of one selection
    per iteration. *)
Definition pool_inv (pl : list PathLoss) (k : nat) (st : ALState) : Prop :=
  exists sels, length sels = k /\ pool st = mjoin sels /\
    forall b s, sels !! b = Some s -> batch_selection pl b s.

Section PoolInvariant.
Context {BE : Backend} {DE : DatasetEnv}.
Variable pretext_drop_last : bool.
Variables dcl_ops myow_ops : TrainerOps.

Lemma seed_selection pl : batch_selection pl 0 (take seed_size (batch_slice pl 0)).
Proof.
  split; [done|]. split; [lia|]. split; [|split].
  - intros x (i & Hi & _)%elem_of_take. apply list_elem_of_lookup. eauto.
  - intros Hs. eapply sublist_NoDup; [done|apply sublist_take].
  - rewrite length_take. lia.
Qed.

(** Whatever the end of an iteration does (train, save), the pool it
    returns is the old pool and the selection. *)
Lemma al_batch_tail_pool st k sm w st' w' :
  al_batch_tail pretext_drop_last dcl_ops myow_ops st k sm w = (inr st', w') ->
  pool st' = pool st ++ sm.1.
Proof.
  unfold al_batch_tail. py_simpl. destruct (k <? _); [|by intros [= <- _]].
  destruct (train_proxy _ _ _ _ _ _ w) as [[e|m'] w1]; [done|].
  destruct (simple_save_model _ _ w1) as [[e|[]] w2]; [done|]. by intros [= <- _].
Qed.

Lemma al_batch_step_pool pl st k w st' w' :
  al_batch_step pretext_drop_last dcl_ops myow_ops pl st k w = (inr st', w') ->
  exists sel, pool st' = pool st ++ sel /\ batch_selection pl k sel.
Proof.
  unfold al_batch_step. py_simpl.
  destruct (0 <? k) eqn:Hk.
  - destruct (simple_load_model (proxy_name (k - 1)) w) as [[e|sd] w1] eqn:El;
      apply simple_load_model_frame in El as ->; [done|]. simpl.
    destruct (load_state_dict (proxy st) sd) as [e|m]; [done|].
    destruct (finetune pretext_drop_last m _ w) as [[e|[sel m']] w1] eqn:Ef; [done|].
    destruct (finetune_inv _ _ _ _ _ _ Ef) as [-> Hsel].
    destruct (Hsel sel m' eq_refl) as (_ & Hne & preds & Hg).
    destruct (get_new_samples_sound _ _ _ _ Hg) as (Hsub & Hnd & Hlen).
    intros Ht. exists sel. split; [exact (al_batch_tail_pool st k (sel, m') _ _ _ Ht)|].
    apply Nat.ltb_lt in Hk. split; [lia|]. by repeat split.
  - apply Nat.ltb_ge in Hk. assert (k = 0) as -> by lia.
    intros Ht. eexists. split; [exact (al_batch_tail_pool st 0 (_, proxy st) _ _ _ Ht)|].
    apply seed_selection.
Qed.
End PoolInvariant.

Section LoopFacts.
Context {BE : Backend} {DE : DatasetEnv}.
Variable pretext_drop_last : bool.
Variables dcl_ops myow_ops : TrainerOps.

Lemma pool_inv_step pl k st w st' w' :
  pool_inv pl k st ->
  al_batch_step pretext_drop_last dcl_ops myow_ops pl st k w = (inr st', w') ->
  pool_inv pl (S k) st'.
Proof.
  intros (sels & Hlen & Hpool & Hsel) (sel & Hst' & Hb)%al_batch_step_pool.
  exists (sels ++ [sel]). split; [rewrite length_app; simpl; lia|]. split.
  - by rewrite Hst', Hpool, join_app; simpl; rewrite app_nil_r.
  - intros b s Hs. apply lookup_app_Some in Hs as [Hs|[Hge Hs]]; [eauto|].
    apply list_lookup_singleton_Some in Hs as [Hb0 <-].
    by replace b with k by lia.
Qed.

Lemma al_loop_pool pl n st0 w st' w' :
  pool st0 = [] ->
  py_foldM (al_batch_step pretext_drop_last dcl_ops myow_ops pl) (seq 0 n) st0 w = (inr st', w') ->
  pool_inv pl n st'.
Proof.
  intros H0 Hrun.
  apply (py_foldM_seq_inv (fun k st _ => pool_inv pl k st) _ (pool_inv_step pl) n 0 st0 w st' w');
    [|done].
  exists []. by rewrite H0.
Qed.

Lemma scored_pool_args enc ds w pl w1 :
  scored_pool enc ds w = (inr pl, w1) -> w_args w1 = w_args w.
Proof.
  unfold scored_pool. py_simpl. rewrite load_path_loss_eq.
  destruct (files (w_fs w) !! _) as [[l|d]|]; [by intros [= _ <-]|done|].
  apply make_batches_ok_args.
Qed.

(** A pickled list at the cache path is the scored pool, read without a
    scoring pass and without changing the world. *)
Lemma scored_pool_cached enc ds w l :
  files (w_fs w) !! model_path_of w (al_path_loss_file (w_args w)) = Some (Pickled l) ->
  scored_pool enc ds w = (inr l, w).
Proof. intros Hc. unfold scored_pool. py_simpl. by rewrite load_path_loss_eq, Hc. Qed.

(** A successful run, step by step. *)
Lemma do_active_learning_inv enc ds w res w' :
  do_active_learning pretext_drop_last dcl_ops myow_ops enc ds w = (inr res, w') ->
  exists pl w1 st w2,
    scored_pool enc ds w = (inr pl, w1) /\ w_args w1 = w_args w /\
    py_foldM (al_batch_step pretext_drop_last dcl_ops myow_ops pl) (seq 0 (al_batches (w_args w)))
      {| pool := []; proxy := enc; rebuild := true |} w1 = (inr st, w2) /\
    res = pool st /\ pool_inv pl (al_batches (w_args w)) st /\
    w' = snd (save_path_loss (pretrain_path_loss_file (w_args w2)) res w2).
Proof.
  unfold do_active_learning. py_simpl.
  destruct (scored_pool enc ds w) as [[e|pl] w1] eqn:Es; [done|].
  pose proof (scored_pool_args _ _ _ _ _ Es) as Ha. rewrite Ha.
  destruct (py_foldM _ _ _ w1) as [[e|st] w2] eqn:Ef; [done|].
  pose proof (save_path_loss_no_raise (pretrain_path_loss_file (w_args w2)) (pool st) w2) as Hno.
  destruct (save_path_loss _ _ w2) as [[e|[]] w3] eqn:Esave; [done|].
  intros [= <- <-]. exists pl, w1, st, w2. repeat split; try done.
  - eapply al_loop_pool; [|exact Ef]. done.
  - by rewrite Esave.
Qed.
End LoopFacts.

(** ** Slices of the scored pool *)

(** Two slices of a list without duplicates share no element. *)
Lemma batch_slice_disjoint pl b1 b2 x :
  NoDup pl -> x ∈ batch_slice pl b1 -> x ∈ batch_slice pl b2 -> b1 = b2.
Proof.
  intros Hnd (k1 & H1 & Hr1)%elem_of_py_slice (k2 & H2 & Hr2)%elem_of_py_slice.
  pose proof (NoDup_lookup pl k1 k2 x Hnd H1 H2) as ->.
  assert (0 < batch_width) as Hw by exact (Nat.lt_0_succ _).
  revert Hr1 Hr2 Hw. generalize batch_width. intros W Hr1 Hr2 Hw.
  destruct (Nat.lt_trichotomy b1 b2) as [Hlt|[|Hlt]]; [|done|]; exfalso.
  - assert ((b1 + 1) * W <= b2 * W) by (apply Nat.mul_le_mono_r; lia). lia.
  - assert ((b2 + 1) * W <= b1 * W) by (apply Nat.mul_le_mono_r; lia). lia.
Qed.

Lemma batch_slice_nonempty pl b : batch_slice pl b <> [] -> b * batch_width < length pl.
Proof.
  intros Hne. destruct (decide (b * batch_width < length pl)) as [|Hge]; [done|].
  exfalso. apply Hne. unfold batch_slice, py_slice. rewrite drop_ge by lia. apply take_nil.
Qed.

(** Selections of distinct slices of a list without duplicates, each
    without duplicates, concatenate to a list without duplicates. *)
Lemma selections_NoDup pl sels :
  NoDup pl -> (forall b s, sels !! b = Some s -> batch_selection pl b s) -> NoDup (mjoin sels).
Proof.
  intros Hnd. induction sels as [|s sels IH] using rev_ind; intros Hsel; [constructor|].
  rewrite join_app. simpl. rewrite app_nil_r. apply NoDup_app. split; [|split].
  - apply IH. intros b s' Hb. apply Hsel. by apply lookup_app_l_Some.
  - intros x (s' & Hx & Hs')%list_elem_of_join Hxs.
    apply list_elem_of_lookup in Hs' as [b Hb].
    pose proof (lookup_lt_Some _ _ _ Hb) as Hlt.
    destruct (Hsel b s') as (_ & _ & Hsub & _); [by apply lookup_app_l_Some|].
    destruct (Hsel (length sels) s) as (_ & _ & Hsub' & _);
      [by rewrite lookup_app_r, Nat.sub_diag by lia|].
    pose proof (batch_slice_disjoint pl _ _ x Hnd (Hsub x Hx) (Hsub' x Hxs)). lia.
  - destruct (Hsel (length sels) s) as (_ & _ & _ & Hn & _);
      [by rewrite lookup_app_r, Nat.sub_diag by lia|].
    apply Hn. unfold batch_slice. by apply NoDup_py_slice.
Qed.

(** Every sample of the pool built by the loop is a sample of the scored
    pool. *)
Lemma pool_inv_subset pl n st x : pool_inv pl n st -> x ∈ pool st -> x ∈ pl.
Proof.
  intros (sels & _ & -> & Hb) (s & Hx & Hin)%list_elem_of_join.
  apply list_elem_of_lookup in Hin as [b Hbs].
  destruct (Hb b s Hbs) as (_ & _ & Hsub & _).
  apply (py_slice_sublist _ _ _ _ (Hsub x Hx)).
Qed.

Section LoopTheorems.
Context {BE : Backend} {DE : DatasetEnv}.
Variable pretext_drop_last : bool.
Variables dcl_ops myow_ops : TrainerOps.

(** C1. Refinement of the loop by its specification: the returned pool is
    the concatenation of one selection per batch, in batch order; batch 0
    contributes the first 5120 samples of its slice (a prefix, although
    the comment on that branch says "sample k at even intervals"); every
    later batch a
    subset of at most 5120 of its own, non-empty slice
    [path_loss[b*6400 : (b+1)*6400]], without duplicates when the slice
    has none. *)
Theorem do_active_learning_refines enc ds w res w' :
  do_active_learning pretext_drop_last dcl_ops myow_ops enc ds w = (inr res, w') ->
  exists pl w1 sels, scored_pool enc ds w = (inr pl, w1) /\
    length sels = al_batches (w_args w) /\ res = mjoin sels /\
    forall b s, sels !! b = Some s -> batch_selection pl b s.
Proof.
  intros (pl & w1 & st & w2 & Hs & _ & _ & -> & (sels & Hl & Hp & Hb) & _)%do_active_learning_inv.
  by exists pl, w1, sels.
Qed.

(** C2. Every sample of the pool comes from the scored pool, and a scored
    pool without duplicates gives a pretraining pool without duplicates:
    no sample is selected twice, across batches or within one. *)
Theorem do_active_learning_distinct enc ds w res w' :
  do_active_learning pretext_drop_last dcl_ops myow_ops enc ds w = (inr res, w') ->
  exists pl w1, scored_pool enc ds w = (inr pl, w1) /\
    (forall x, x ∈ res -> x ∈ pl) /\ (NoDup pl -> NoDup res).
Proof.
  intros (pl & w1 & st & w2 & Hs & _ & _ & -> & Hinv & _)%do_active_learning_inv.
  exists pl, w1. split; [done|]. split; [intros x; by apply pool_inv_subset with (n := al_batches (w_args w))|].
  destruct Hinv as (sels & _ & -> & Hb). intros Hnd. by apply (selections_NoDup pl).
Qed.

(** C8. The pool holds at most 5120 samples per batch. *)
Theorem do_active_learning_bound enc ds w res w' :
  do_active_learning pretext_drop_last dcl_ops myow_ops enc ds w = (inr res, w') ->
  length res <= al_batches (w_args w) * seed_size.
Proof.
  intros (pl & w1 & st & w2 & Hs & _ & _ & -> & (sels & Hl & -> & Hb) & _)%do_active_learning_inv.
  rewrite <- Hl. apply length_join_le. intros i s Hi. apply (Hb i s Hi).
Qed.

(** C12. A run over [al_batches >= 2] batches needs more than
    [(al_batches - 1) * 6400] scored samples: with fewer, the last slice
    is empty, [finetune] concatenates no predictions and [torch.cat]
    raises. *)
Theorem do_active_learning_needs_samples enc ds w res w' :
  2 <= al_batches (w_args w) ->
  do_active_learning pretext_drop_last dcl_ops myow_ops enc ds w = (inr res, w') ->
  exists pl w1, scored_pool enc ds w = (inr pl, w1) /\
    (al_batches (w_args w) - 1) * batch_width < length pl.
Proof.
  intros Hn (pl & w1 & st & w2 & Hs & _ & _ & -> & (sels & Hl & -> & Hb) & _)%do_active_learning_inv.
  exists pl, w1. split; [done|].
  destruct (lookup_lt_is_Some_2 sels (al_batches (w_args w) - 1)) as [s Hs']; [lia|].
  destruct (Hb _ s Hs') as (_ & Hne & _). apply batch_slice_nonempty, Hne. lia.
Qed.
End LoopTheorems.

(** ** The checkpoint chain *)
Section Checkpoints.
Context {BE : Backend} {DE : DatasetEnv}.
Variable pretext_drop_last : bool.
Variables dcl_ops myow_ops : TrainerOps.

(** The reference iteration: a later batch selects with the proxy in
    memory instead of reloading [proxy_<batch-1>.pth]. *)
Definition al_batch_step_inmem (path_loss : list PathLoss) (st : ALState) (batch : nat)
    : py World ALState :=
  let sample6400 := py_slice path_loss (batch * batch_width) ((batch + 1) * batch_width) in
  sm <- (if 0 <? batch then finetune pretext_drop_last (proxy st) sample6400
         else py_ret (take seed_size sample6400, proxy st)) ;;
  al_batch_tail pretext_drop_last dcl_ops myow_ops st batch sm.

Definition do_active_learning_inmem (encoder : nn_module) (dataset : list string)
    : py World (list PathLoss) :=
  path_loss <- scored_pool encoder dataset ;;
  w <- py_get ;;
  st <- py_foldM (al_batch_step_inmem path_loss) (seq 0 (al_batches (w_args w)))
                 {| pool := []; proxy := encoder; rebuild := true |} ;;
  w' <- py_get ;;
  save_path_loss (pretrain_path_loss_file (w_args w')) (pool st) ;;;
  py_ret (pool st).

(** Before iteration [k > 0] (not past the last trained batch), the last
    checkpoint written holds the proxy's weights. *)
Definition ckpt_inv (k : nat) (st : ALState) (w : World) : Prop :=
  0 < k -> k <= al_batches (w_args w) - 1 ->
  files (w_fs w) !! model_path_of w (proxy_name (k - 1)) = Some (model_checkpoint (weights (proxy st))).

Lemma train_proxy_frame samples model rb w r w' :
  train_proxy pretext_drop_last dcl_ops myow_ops samples model rb w = (r, w') -> frame w' = frame w.
Proof. apply train_proxy_pres. Qed.

(** The end of an iteration keeps the loop's configuration and
    establishes the invariant for the next one. *)
Lemma al_batch_tail_ckpt st k sm w st' w' :
  al_batch_tail pretext_drop_last dcl_ops myow_ops st k sm w = (inr st', w') ->
  al_static (w_args w') = al_static (w_args w) /\ ckpt_inv (S k) st' w'.
Proof.
  unfold al_batch_tail. py_simpl. destruct (Nat.ltb_spec k (al_batches (w_args w) - 1)) as [Hk|Hk].
  - destruct (train_proxy _ _ _ _ _ _ w) as [[e|m'] w1] eqn:Et; [done|].
    apply train_proxy_frame in Et. pose proof (f_equal snd Et) as Hst. simpl in Hst.
    destruct (simple_save_model _ _ w1) as [[e|[]] w2] eqn:Es; [done|].
    apply simple_save_model_inv in Es as (Ha & Hf & _). intros [= <- <-].
    rewrite Ha. split; [exact Hst|]. intros _ _. simpl. rewrite Nat.sub_0_r, (Hf eq_refl).
    unfold model_path_of. rewrite Ha. apply lookup_insert_eq.
  - intros [= <- <-]. split; [done|]. intros _ Hle. lia.
Qed.

Lemma al_static_batches a b : al_static a = al_static b -> al_batches a = al_batches b.
Proof. unfold al_static. by intros [= _ _ ->]. Qed.

Lemma al_batch_step_inmem_inv pl st k w st' w' :
  al_batch_step_inmem pl st k w = (inr st', w') ->
  al_static (w_args w') = al_static (w_args w) /\ ckpt_inv (S k) st' w'.
Proof.
  unfold al_batch_step_inmem, py_bind at 1.
  destruct (if 0 <? k then _ else _) as [[e|sm] w1] eqn:Esm; [done|].
  assert (w1 = w) as ->.
  { destruct (0 <? k); [|by injection Esm as _ <-].
    by apply finetune_inv in Esm as [-> _]. }
  apply al_batch_tail_ckpt.
Qed.

(** Within a run, reloading [proxy_<k-1>.pth] gives back the proxy in
    memory. *)
Lemma al_batch_step_inmem_eq pl st k w :
  k < al_batches (w_args w) -> ckpt_inv k st w ->
  al_batch_step pretext_drop_last dcl_ops myow_ops pl st k w = al_batch_step_inmem pl st k w.
Proof.
  intros Hk Hinv. unfold al_batch_step, al_batch_step_inmem.
  destruct (Nat.ltb_spec 0 k) as [Hpos|Hz]; [|reflexivity].
  apply py_bind_eq_l. unfold py_bind at 1.
  rewrite (simple_load_model_checkpoint (weights (proxy st))) by (apply Hinv; lia).
  simpl. by rewrite load_state_dict_self.
Qed.

Lemma al_loop_inmem_eq pl m :
  forall k st w, k + m <= al_batches (w_args w) -> ckpt_inv k st w ->
  py_foldM (al_batch_step pretext_drop_last dcl_ops myow_ops pl) (seq k m) st w
  = py_foldM (al_batch_step_inmem pl) (seq k m) st w.
Proof.
  induction m as [|m IH]; intros k st w Hkm Hinv; [done|]. cbn [seq py_foldM].
  rewrite (py_bind_eq_l _ (al_batch_step_inmem pl st k)) by (apply al_batch_step_inmem_eq; [lia|done]).
  unfold py_bind. destruct (al_batch_step_inmem pl st k w) as [[e|st'] w'] eqn:E; [done|].
  apply al_batch_step_inmem_inv in E as [Hs Hinv']. apply al_static_batches in Hs.
  apply IH; [lia|done].
Qed.
End Checkpoints.

Section CheckpointTheorems.
Context {BE : Backend} {DE : DatasetEnv}.
Variable pretext_drop_last : bool.
Variables dcl_ops myow_ops : TrainerOps.

(** C4. Within one run, the reload of [proxy_<batch-1>.pth] at every
    later batch is the identity: it reads the weights of the proxy saved
    at the end of the previous iteration, which is the proxy in memory.
    The loop is equivalent, result and final state, to one that keeps
    the proxy in memory; the checkpoints are only ever read back in the
    run that wrote them. *)
Theorem do_active_learning_reload_noop enc ds w :
  do_active_learning pretext_drop_last dcl_ops myow_ops enc ds w
  = do_active_learning_inmem pretext_drop_last dcl_ops myow_ops enc ds w.
Proof.
  unfold do_active_learning, do_active_learning_inmem. apply py_bind_ext. intros pl w1.
  rewrite !py_bind_get. apply py_bind_eq_l. apply al_loop_inmem_eq; [lia|].
  intros H0. lia.
Qed.

(** C13. A scored pool found in [args.al_path_loss_file] is used as it is:
    no scoring pass runs, whatever the dataset. *)
Theorem do_active_learning_uses_cache enc ds ds' w l :
  files (w_fs w) !! model_path_of w (al_path_loss_file (w_args w)) = Some (Pickled l) ->
  scored_pool enc ds w = (inr l, w) /\
  do_active_learning pretext_drop_last dcl_ops myow_ops enc ds w
  = do_active_learning pretext_drop_last dcl_ops myow_ops enc ds' w.
Proof.
  intros Hc. assert (forall d, scored_pool enc d w = (inr l, w)) as Hs
    by (intros d; by apply scored_pool_cached).
  split; [apply Hs|]. unfold do_active_learning. apply py_bind_eq_l. by rewrite !Hs.
Qed.

(** C14. Only an [IOError] of the cache load means "no cache": a cache
    file that is not a pickle (a [torch.save] archive) makes
    [pickle.load] raise [UnpicklingError], which ends the run. *)
Theorem do_active_learning_cache_unpickling enc ds w d :
  files (w_fs w) !! model_path_of w (al_path_loss_file (w_args w)) = Some (TorchSaved d) ->
  do_active_learning pretext_drop_last dcl_ops myow_ops enc ds w = (inl UnpicklingError, w).
Proof.
  intros Hc. unfold do_active_learning, scored_pool. py_simpl.
  by rewrite load_path_loss_eq, Hc.
Qed.
End CheckpointTheorems.

(** ** Concrete runs *)
#[local] Existing Instance test_env.

(** A cached scored pool of 6401 samples: two batches, the second slice
    holding one sample. *)
Definition test_scores : list PathLoss :=
  map (fun i => mk_PathLoss "img.png" (inject_Z (Z.of_nat i))) (seq 0 6401).

Definition al_world : @World test_backend := {|
  w_args := test_args;
  w_fs := {| files := {[ "/models/al_path_loss.pkl" := Pickled test_scores;
                         "/models/simclr_1_checkpoint_100.tar" := test_checkpoint ]};
             unwritable := ∅ |};
  w_rng := (0 : @rng test_backend) |}.

(** The cache path holds a [torch.save] archive instead of a pickle. *)
Definition bad_cache_world : @World test_backend := {|
  w_args := test_args;
  w_fs := {| files := {[ "/models/al_path_loss.pkl" := TorchSaved ∅ ]}; unwritable := ∅ |};
  w_rng := (0 : @rng test_backend) |}.

Definition al_run := @do_active_learning test_backend test_env false (simclr_ops false) (simclr_ops false)
  test_encoder [] al_world.

(** The run succeeds: only the outcome's tag is evaluated. *)
Lemma al_run_ok : exists res w', al_run = (inr res, w').
Proof.
  assert (Hok : match al_run with (inr _, _) => true | _ => false end = true)
    by (vm_compute; reflexivity).
  destruct al_run as [[e|res] w']; [discriminate|eauto].
Qed.

Lemma do_active_learning_refines_witness :
  exists res w', al_run = (inr res, w') /\
  exists pl w1 sels, scored_pool test_encoder [] al_world = (inr pl, w1) /\
    length sels = al_batches (w_args al_world) /\ res = mjoin sels /\
    forall b s, sels !! b = Some s -> batch_selection pl b s.
Proof.
  destruct al_run_ok as (res & w' & E). exists res, w'. split; [done|]. exact (do_active_learning_refines _ _ _ _ _ _ _ _ E).
Defined.

Lemma do_active_learning_distinct_witness :
  exists res w', al_run = (inr res, w') /\
  exists pl w1, scored_pool test_encoder [] al_world = (inr pl, w1) /\
    (forall x, x ∈ res -> x ∈ pl) /\ (NoDup pl -> NoDup res).
Proof.
  destruct al_run_ok as (res & w' & E). exists res, w'. split; [done|]. exact (do_active_learning_distinct _ _ _ _ _ _ _ _ E).
Defined.

Lemma do_active_learning_bound_witness :
  exists res w', al_run = (inr res, w') /\ length res <= al_batches (w_args al_world) * seed_size.
Proof.
  destruct al_run_ok as (res & w' & E). exists res, w'. split; [done|]. exact (do_active_learning_bound _ _ _ _ _ _ _ _ E).
Defined.

Lemma do_active_learning_needs_samples_witness :
  exists res w', al_run = (inr res, w') /\
  exists pl w1, scored_pool test_encoder [] al_world = (inr pl, w1) /\
    (al_batches (w_args al_world) - 1) * batch_width < length pl.
Proof.
  destruct al_run_ok as (res & w' & E). exists res, w'. split; [done|].
  refine (do_active_learning_needs_samples _ _ _ _ _ _ _ _ _ E). simpl. lia.
Defined.

Lemma do_active_learning_uses_cache_witness :
  scored_pool test_encoder [] al_world = (inr test_scores, al_world) /\
  al_run = @do_active_learning test_backend test_env false (simclr_ops false) (simclr_ops false)
             test_encoder ["x.png"] al_world.
Proof.
  apply do_active_learning_uses_cache. vm_compute. reflexivity.
Defined.

Lemma do_active_learning_cache_unpickling_witness :
  @do_active_learning test_backend test_env false (simclr_ops false) (simclr_ops false)
    test_encoder [] bad_cache_world = (inl UnpicklingError, bad_cache_world).
Proof.
  apply (do_active_learning_cache_unpickling _ _ _ _ _ _ (∅ : gmap string torch_val)). vm_compute. reflexivity.
Defined.
