(* ===== verification/Pretrainer.v ===== *)
(** * Pretraining before active learning

    The loaders of the target dataset ([src/datautils/target_dataset.py])
    are modelled in [TargetDataset]; the theorems on them are here.

    [src/models/trainers/base_pretrainer.py] and
    [src/models/trainers/selfsup_pretrainer.py] run the pretraining:
    - [first_pretrain] builds the loader of [args.base_dataset];
    - [base_pretrain] builds a trainer for [args.method] and runs the
      epochs [range(args.start_epoch, epochs)], stepping the scheduler;
    - [save_state] writes a checkpoint every 20 epochs and once at the
      end, named by [args.current_epoch], which each epoch increments;
    - [second_pretrain] unpacks the [None] returned by
      [BasePretrainer.second_pretrain].

    A trainer is reached through the record [PretrainOps].
    [simclr_pretrain_ops] is [SimCLRTrainer], whose [train_epoch] takes
    no [epoch] argument; the DCL, SwAV and MYOW trainers are outside
    [src/] and are section variables.  [base_pretrain] saves [model] and
    [optimizer], the objects it captured before the loop.  Training
    updates these objects in place, so the checkpoint holds the trainer's
    current state.

    Outside [src/], and taken as parameters:
    - the values of [DatasetType] and [get_params] (image and batch
      size), as in [TargetDataset];
    - the CIFAR-10 loader;
    - [resnet_backbone] (the encoder is an argument).
    The transform classes are constructors of [Transform]. *)

From S2P Require Import Prelude PathLoss Config Torch Store Trainer TargetDataset.


(** [SelfSupPretrainer(args, writer)]: [self.args] is the shared [args]
    of the world (the constructor does not call [BasePretrainer.__init__],
    which would store the same reference); the object holds the writer it
    passes to the trainers. *)
Record SelfSupPretrainer (Writer : Type) : Type := { sp_writer : Writer }.

Definition selfsup_pretrainer_init {Writer} (writer : Writer) : SelfSupPretrainer Writer :=
  {| sp_writer := writer |}.

Section Pretrainer.
Context {BE : Backend}.
Variable dataset_value : DatasetType -> string.
Variables params_image_size params_batch_size : Args -> TrainingType -> nat.
(** [cifar10.CIFAR10(args, training_type=...).get_loader()] *)
Variable cifar10_loader : Args -> exn + Loader.

(** A trainer as [base_pretrain] uses it. *)
Record PretrainOps : Type := {
  po_state : Type;
  (** the constructor, from the encoder, the loader, [pretrain_level] and
      [training_type] *)
  po_init : nn_module -> Loader -> string -> TrainingType -> py World po_state;
  (** [trainer.train_epoch(epoch)] *)
  po_train_epoch : po_state -> nat -> py World (po_state * Q);
  (** [if trainer.scheduler: trainer.scheduler.step()] *)
  po_scheduler_step : po_state -> po_state;
  (** [model.state_dict()] and [optimizer.state_dict()] *)
  po_model : po_state -> state_dict;
  po_optimizer : po_state -> state_dict
}.

Definition train_epoch_arity : string :=
  "train_epoch() takes 1 positional argument but 2 were given".

(** [SimCLRTrainer] in [base_pretrain] ([rebuild_al_model=False]).  Its
    [train_epoch(self)] is called with an epoch and raises before it
    reads the loader, so the trainer is built over no samples. *)
Definition simclr_pretrain_ops : PretrainOps := {|
  po_state := SimCLRTrainer;
  po_init encoder _ level tt := simclr_init tt level encoder [] false;
  po_train_epoch _ _ := py_raise (TypeError train_epoch_arity);
  po_scheduler_step := simclr_scheduler_step;
  po_model t := weights (st_model t);
  po_optimizer t := optimizer_state (st_optimizer t)
|}.

(** The DCL, SwAV and MYOW trainers (outside [src/]). *)
Variables dcl_pops swav_pops myow_pops : PretrainOps.

Definition pretrain_level (tt : TrainingType) : string :=
  if bool_decide (tt = BASE_PRETRAIN) then "1" else "2".

(** The epochs after which the loop saves a checkpoint. *)
Definition save_epoch (epoch : nat) : bool := (0 <? epoch) && (epoch mod 20 =? 0).

(** One iteration of [for epoch in range(self.args.start_epoch, epochs)]. *)
Definition pretrain_epoch (ops : PretrainOps) (level optimizer_type : string)
    (t : po_state ops) (epoch : nat) : py World (po_state ops) :=
  x <- po_train_epoch ops t epoch ;;
  let t1 := po_scheduler_step ops x.1 in
  (if save_epoch epoch
   then save_state (po_model ops t1) (po_optimizer ops t1) level optimizer_type
   else py_ret tt) ;;;
  w <- py_get ;;
  py_put (set_args w (set_current_epoch (w_args w) (S (current_epoch (w_args w))))) ;;;
  py_ret t1.

(** [base_pretrain] once the trainer is chosen. *)
Definition run_pretrain (ops : PretrainOps) (encoder : nn_module) (loader : Loader)
    (epochs : nat) (tt : TrainingType) (optimizer_type : string) : py World unit :=
  let level := pretrain_level tt in
  t <- po_init ops encoder loader level tt ;;
  w <- py_get ;;
  let s := start_epoch (w_args w) in
  t' <- py_foldM (pretrain_epoch ops level optimizer_type) (seq s (epochs - s)) t ;;
  save_state (po_model ops t') (po_optimizer ops t') level optimizer_type.

(** [SelfSupPretrainer.base_pretrain]: an unknown method evaluates
    [ValueError] without raising it and fails on [trainer.model]. *)
Definition base_pretrain (encoder : nn_module) (loader : Loader) (epochs : nat)
    (tt : TrainingType) (optimizer_type : string) : py World unit :=
  w <- py_get ;;
  let m := method (w_args w) in
  if bool_decide (m = ssl_value SIMCLR)
  then run_pretrain simclr_pretrain_ops encoder loader epochs tt optimizer_type
  else if bool_decide (m = ssl_value DCL)
  then run_pretrain dcl_pops encoder loader epochs tt optimizer_type
  else if bool_decide (m = ssl_value SWAV)
  then run_pretrain swav_pops encoder loader epochs tt optimizer_type
  else if bool_decide (m = ssl_value MYOW)
  then run_pretrain myow_pops encoder loader epochs tt optimizer_type
  else py_raise (UnboundLocalError "trainer").

(** [BasePretrainer.first_pretrain]: [imagenet.ImageNet.__init__] has no
    [training_type] parameter. *)
Definition base_first_pretrain (encoder : nn_module) : py World (nn_module * Loader) :=
  w <- py_get ;;
  let a := w_args w in
  if bool_decide (base_dataset a = dataset_value IMAGENET)
  then py_raise (TypeError "__init__() got an unexpected keyword argument 'training_type'")
  else if bool_decide (base_dataset a = dataset_value CIFAR10)
  then l <- py_lift (cifar10_loader a) ;; py_ret (encoder, l)
  else l <- py_lift (target_loader dataset_value params_image_size params_batch_size a
                                   BASE_PRETRAIN) ;;
       py_ret (encoder, l).

(** [SelfSupPretrainer.first_pretrain] *)
Definition first_pretrain (encoder : nn_module) : py World unit :=
  el <- base_first_pretrain encoder ;;
  w <- py_get ;;
  base_pretrain el.1 el.2 (base_epochs (w_args w)) BASE_PRETRAIN (base_optimizer (w_args w)).

(** [BasePretrainer.second_pretrain]: its body is the expression [None]. *)
Definition base_second_pretrain : py World (option (nn_module * Loader)) := py_ret None.

(** [SelfSupPretrainer.second_pretrain]: [encoder, loader = None]. *)
Definition second_pretrain : py World unit :=
  r <- base_second_pretrain ;;
  match r with
  | None => py_raise (TypeError "cannot unpack non-iterable NoneType object")
  | Some (encoder, loader) =>
      w <- py_get ;;
      base_pretrain encoder loader (target_epochs (w_args w)) TARGET_PRETRAIN
                    (target_optimizer (w_args w))
  end.
End Pretrainer.

Section PretrainFacts.
Context {BE : Backend}.

(** What a trainer leaves alone for the checkpoints of [base_pretrain]:
    the file system, and the fields of [args] the names are built from. *)
Definition pretrain_frame (w : World) :=
  (w_fs w, method (w_args w), model_path (w_args w), current_epoch (w_args w),
   start_epoch (w_args w)).

Lemma checkpoint_name_args a a' level e :
  method a = method a' -> model_path a = model_path a' ->
  checkpoint_name a level e = checkpoint_name a' level e.
Proof. intros Hm Hp. unfold checkpoint_name. by rewrite Hm, Hp. Qed.

(** [SimCLRTrainer.__init__] only reads the world. *)
Lemma simclr_init_world tt level e s rb w r w' :
  simclr_init tt level e s rb w = (r, w') -> w' = w.
Proof.
  unfold simclr_init. py_simpl.
  destruct (bool_decide (tt = ACTIVE_LEARNING) && negb rb); [by intros [= _ <-]|].
  destruct (_ || _); [|by intros [= _ <-]].
  destruct (load_saved_state true level w) as [[e'|st] w1] eqn:E;
    apply load_saved_state_frame in E as ->; [by intros [= _ <-]|].
  destruct (checkpoint_model st) as [e'|sd]; [by intros [= _ <-]|].
  destruct (load_state_dict e sd); by intros [= _ <-].
Qed.

Section Epochs.
Variable ops : PretrainOps.
Variables (level optimizer_type : string).
Hypothesis epoch_ok : forall t e w, exists t' l w',
  po_train_epoch ops t e w = (inr (t', l), w') /\ pretrain_frame w' = pretrain_frame w.

(** One epoch with every path writable: it succeeds, saves when
    [save_epoch] holds, and increments [current_epoch]. *)
Lemma pretrain_epoch_ok t e w :
  unwritable (w_fs w) = ∅ ->
  exists t1 w1, pretrain_epoch ops level optimizer_type t e w = (inr t1, w1) /\
    method (w_args w1) = method (w_args w) /\ model_path (w_args w1) = model_path (w_args w) /\
    start_epoch (w_args w1) = start_epoch (w_args w) /\ unwritable (w_fs w1) = ∅ /\
    current_epoch (w_args w1) = S (current_epoch (w_args w)) /\
    dom (files (w_fs w1)) = dom (files (w_fs w)) ∪
      (if save_epoch e then {[checkpoint_name (w_args w) level (current_epoch (w_args w))]}
       else ∅).
Proof.
  intros Hun. destruct (epoch_ok t e w) as (t' & l & w2 & E & Hf).
  unfold pretrain_frame in Hf. injection Hf as Hfs Hm Hp Hc Hs.
  unfold pretrain_epoch. unfold py_bind at 1. rewrite E. simpl.
  destruct (save_epoch e); py_simpl.
  - rewrite save_state_spec, Hfs, Hun, decide_False by apply not_elem_of_empty.
    eexists _, _. split; [reflexivity|]. simpl. rewrite !Hc.
    rewrite (checkpoint_name_args (w_args w2) (w_args w)) by done.
    repeat split; try done. rewrite dom_insert_L. set_solver.
  - eexists _, _. split; [reflexivity|]. simpl. rewrite Hfs, Hc. repeat split; try done.
    set_solver.
Qed.

(** The epochs of [range(s, s + n)] after which a checkpoint is saved. *)
Definition saved_epochs (s n : nat) : list nat := filter (fun e => save_epoch e = true) (seq s n).

(** The loop [range(s, s + n)]: it succeeds, and it adds to the file
    system exactly the checkpoints of the saving epochs, epoch [e] under
    the name of [current_epoch + (e - s)]. *)
Lemma pretrain_loop_ok t w s n :
  unwritable (w_fs w) = ∅ ->
  exists t' w', py_foldM (pretrain_epoch ops level optimizer_type) (seq s n) t w = (inr t', w') /\
    method (w_args w') = method (w_args w) /\ model_path (w_args w') = model_path (w_args w) /\
    start_epoch (w_args w') = start_epoch (w_args w) /\ unwritable (w_fs w') = ∅ /\
    current_epoch (w_args w') = current_epoch (w_args w) + n /\
    dom (files (w_fs w')) = dom (files (w_fs w)) ∪
      list_to_set (map (fun e => checkpoint_name (w_args w) level (current_epoch (w_args w) + (e - s)))
                       (saved_epochs s n)).
Proof.
  intros Hun.
  set (ck := fun e => checkpoint_name (w_args w) level (current_epoch (w_args w) + (e - s))).
  set (P := fun k (_ : po_state ops) (w' : World) =>
    s <= k /\ method (w_args w') = method (w_args w) /\ model_path (w_args w') = model_path (w_args w) /\
    start_epoch (w_args w') = start_epoch (w_args w) /\ unwritable (w_fs w') = ∅ /\
    current_epoch (w_args w') = current_epoch (w_args w) + (k - s) /\
    dom (files (w_fs w')) = dom (files (w_fs w)) ∪ list_to_set (map ck (saved_epochs s (k - s)))).
  destruct (py_foldM_seq_total P (pretrain_epoch ops level optimizer_type)) with (m := n) (k := s) (a := t) (s := w)
    as (t' & w' & E & Hle & Hm & Hp & Hs & Hu & Hc & Hd).
  - intros k a w1 (Hk & Hm & Hp & Hs & Hu & Hc & Hd).
    destruct (pretrain_epoch_ok a k w1 Hu) as (t1 & w2 & E & Hm' & Hp' & Hs' & Hu' & Hc' & Hd').
    exists t1, w2. split; [done|]. unfold P.
    rewrite Hm', Hp', Hs', Hc', Hd', Hd.
    rewrite (checkpoint_name_args (w_args w1) (w_args w)) by done. rewrite Hc.
    split; [lia|]. do 4 (split; [done|]). split; [lia|].
    replace (S k - s) with (S (k - s)) by lia.
    unfold saved_epochs. rewrite seq_S, filter_app, map_app, list_to_set_app_L.
    replace (s + (k - s)) with k by lia.
    destruct (save_epoch k) eqn:Ek.
    + rewrite filter_cons_True by done. simpl. unfold ck. set_solver.
    + rewrite filter_cons_False by (rewrite Ek; discriminate). simpl. set_solver.
  - unfold P. rewrite Nat.sub_diag. simpl. split; [lia|]. do 4 (split; [done|]).
    split; [lia|]. set_solver.
  - exists t', w'. split; [done|]. replace (s + n - s) with n in Hc, Hd by lia. by repeat split.
Qed.
End Epochs.
End PretrainFacts.

Section PretrainTheorems.
Context {BE : Backend}.
Variable dataset_value : DatasetType -> string.
Variables params_image_size params_batch_size : Args -> TrainingType -> nat.
Variable cifar10_loader : Args -> exn + Loader.
Variables dcl_pops swav_pops myow_pops : PretrainOps.

(** The checkpoint written after epoch [e] of a run started with [args]
    equal to [a]. *)
Definition epoch_checkpoint (a : Args) (level : string) (e : nat) : string :=
  checkpoint_name a level (current_epoch a + (e - start_epoch a)).

(** The last step of a successful [run_pretrain] is [save_state]: it
    leaves [args.resume] naming the checkpoint of the final
    [current_epoch], which holds the trainer's final state. *)
Lemma run_pretrain_last ops enc ld epochs ty ot w w' :
  run_pretrain ops enc ld epochs ty ot w = (inr tt, w') ->
  let out := checkpoint_name (w_args w') (pretrain_level ty) (current_epoch (w_args w')) in
  resume (w_args w') = Some out /\
  exists t, files (w_fs w') !! out = Some (state_checkpoint (po_model ops t) (po_optimizer ops t) ot).
Proof.
  unfold run_pretrain. py_simpl.
  destruct (po_init _ _ _ _ _ w) as [[e|t0] w0]; [done|].
  destruct (py_foldM _ _ _ _) as [[e|t'] w1]; [done|].
  rewrite save_state_spec. case_decide; [done|]. intros [= <-]. simpl.
  split; [done|]. exists t'. by rewrite lookup_insert_eq.
Qed.

(** C23. The checkpoint schedule of [base_pretrain], for a trainer whose
    constructor and epochs succeed and leave the file system and the
    naming fields of [args] alone, with every path writable: the run
    succeeds; it writes exactly one checkpoint for each epoch [e > 0] of
    [range(start_epoch, epochs)] with [e % 20 == 0], plus a final one;
    the names are built from [current_epoch], which ends
    [epochs - start_epoch] higher; the final checkpoint holds the
    trainer's last state, and [args.resume] names it. *)
Theorem run_pretrain_checkpoints ops enc ld epochs ty ot w t0 w0 :
  po_init ops enc ld (pretrain_level ty) ty w = (inr t0, w0) ->
  pretrain_frame w0 = pretrain_frame w ->
  (forall t e w1, exists t' l w2,
     po_train_epoch ops t e w1 = (inr (t', l), w2) /\ pretrain_frame w2 = pretrain_frame w1) ->
  unwritable (w_fs w) = ∅ ->
  exists t' w', run_pretrain ops enc ld epochs ty ot w = (inr tt, w') /\
    current_epoch (w_args w') = current_epoch (w_args w) + (epochs - start_epoch (w_args w)) /\
    resume (w_args w') = Some (epoch_checkpoint (w_args w) (pretrain_level ty) epochs) /\
    files (w_fs w') !! epoch_checkpoint (w_args w) (pretrain_level ty) epochs
      = Some (state_checkpoint (po_model ops t') (po_optimizer ops t') ot) /\
    dom (files (w_fs w')) = dom (files (w_fs w)) ∪
      list_to_set (map (epoch_checkpoint (w_args w) (pretrain_level ty))
                       (saved_epochs (start_epoch (w_args w)) (epochs - start_epoch (w_args w))))
      ∪ {[epoch_checkpoint (w_args w) (pretrain_level ty) epochs]}.
Proof.
  intros Hinit Hfr Hep Hun. unfold pretrain_frame in Hfr. injection Hfr as Hfs Hm Hp Hc Hs.
  unfold run_pretrain. py_simpl. rewrite Hinit.
  destruct (pretrain_loop_ok ops (pretrain_level ty) ot Hep t0 w0 (start_epoch (w_args w0))
              (epochs - start_epoch (w_args w0))) as (t' & w' & E & Hm' & Hp' & Hs' & Hu' & Hc' & Hd');
    [by rewrite Hfs|].
  rewrite E, save_state_spec, Hu', decide_False by apply not_elem_of_empty.
  assert (Hname : checkpoint_name (w_args w') (pretrain_level ty) (current_epoch (w_args w'))
                  = epoch_checkpoint (w_args w) (pretrain_level ty) epochs).
  { unfold epoch_checkpoint. rewrite Hc', Hc, Hs. apply checkpoint_name_args; congruence. }
  eexists t', _. split; [reflexivity|]. simpl. rewrite Hname.
  split; [by rewrite Hc', Hc, Hs|]. split; [done|]. split; [by rewrite lookup_insert_eq|].
  rewrite dom_insert_L, Hd', Hfs, Hs.
  erewrite (map_ext _ (epoch_checkpoint (w_args w) (pretrain_level ty)));
    [set_solver|]. intros e. unfold epoch_checkpoint. rewrite Hc. by apply checkpoint_name_args.
Qed.

(** C24. With [args.method == "simclr"], [base_pretrain] never completes
    an epoch: [SimCLRTrainer.train_epoch] takes no [epoch] argument, so
    as soon as [range(start_epoch, epochs)] is not empty the run raises
    (a [TypeError], unless the constructor already failed loading a
    checkpoint), before any checkpoint is written and with the world
    unchanged. *)
Theorem base_pretrain_simclr_type_error enc ld epochs ty ot w :
  method (w_args w) = ssl_value SIMCLR -> start_epoch (w_args w) < epochs ->
  exists e, base_pretrain dcl_pops swav_pops myow_pops enc ld epochs ty ot w = (inl e, w) /\
    (ty = BASE_PRETRAIN -> epoch_num (w_args w) = base_epochs (w_args w) ->
     e = TypeError train_epoch_arity).
Proof.
  intros Hm Hlt. unfold base_pretrain. py_simpl. rewrite Hm, bool_decide_eq_true_2 by done.
  unfold run_pretrain. py_simpl. cbn [po_init simclr_pretrain_ops].
  destruct (simclr_init ty (pretrain_level ty) enc [] false w) as [[e|t0] w0] eqn:E;
    pose proof (simclr_init_world _ _ _ _ _ _ _ _ E) as ->.
  - exists e. split; [done|]. intros -> Heq. unfold simclr_init in E. py_simpl.
    rewrite Heq, Nat.eqb_refl in E. discriminate.
  - destruct (epochs - start_epoch (w_args w)) as [|n] eqn:En; [lia|].
    cbn [seq py_foldM]. unfold pretrain_epoch. py_simpl. cbn [po_train_epoch simclr_pretrain_ops].
    by eexists.
Qed.

(** C25. After a successful first pretraining, the level-1 state that
    [make_batches] loads ([load_saved_state] with [recent=True]) is the
    last checkpoint written, named by the final [current_epoch] through
    [args.resume], whatever [args.epoch_num] says, and its ["model"]
    entry is the saved model. *)
Theorem base_pretrain_resume enc ld epochs ot w w' :
  base_pretrain dcl_pops swav_pops myow_pops enc ld epochs BASE_PRETRAIN ot w = (inr tt, w') ->
  let out := checkpoint_name (w_args w') "1" (current_epoch (w_args w')) in
  load_saved_state true "1" w' = read_file out w' /\
  exists sd opt, read_file out w' = (inr (state_checkpoint sd opt ot), w') /\
                 checkpoint_model (state_checkpoint sd opt ot) = inr sd.
Proof.
  intros H.
  assert (exists ops, run_pretrain ops enc ld epochs BASE_PRETRAIN ot w = (inr tt, w')) as [ops Hr].
  { unfold base_pretrain in H. py_simpl.
    repeat match type of H with
           | context [bool_decide ?P] => destruct (bool_decide P); [by eauto|]
           end.
    discriminate. }
  apply run_pretrain_last in Hr as [Hres [t Ht]].
  change (pretrain_level BASE_PRETRAIN) with "1" in Hres, Ht. cbv zeta. split.
  - unfold load_saved_state. py_simpl. rewrite Hres. simpl.
    rewrite bool_decide_eq_false_2 by apply checkpoint_name_nonempty. done.
  - exists (po_model ops t), (po_optimizer ops t). split; [|apply checkpoint_model_state].
    unfold read_file. by rewrite Ht.
Qed.

(** C26. The error paths of the pretraining entry points:
    [second_pretrain] always raises, since [BasePretrainer.second_pretrain]
    returns [None]; [first_pretrain] on ImageNet raises, since
    [ImageNet.__init__] has no [training_type] parameter; and
    [first_pretrain] on a target dataset that [get_target_pretrain_ds]
    does not know fails on [None.get_loader]. *)
Theorem pretrain_entry_errors enc w :
  second_pretrain dcl_pops swav_pops myow_pops w
    = (inl (TypeError "cannot unpack non-iterable NoneType object"), w) /\
  (base_dataset (w_args w) = dataset_value IMAGENET ->
   first_pretrain dataset_value params_image_size params_batch_size cifar10_loader
                  dcl_pops swav_pops myow_pops enc w
   = (inl (TypeError "__init__() got an unexpected keyword argument 'training_type'"), w)) /\
  (base_dataset (w_args w) <> dataset_value IMAGENET ->
   base_dataset (w_args w) <> dataset_value CIFAR10 ->
   get_target_pretrain_ds dataset_value params_image_size params_batch_size (w_args w)
                          BASE_PRETRAIN true None = None ->
   first_pretrain dataset_value params_image_size params_batch_size cifar10_loader
                  dcl_pops swav_pops myow_pops enc w
   = (inl (AttributeError "'NoneType' object has no attribute 'get_loader'"), w)).
Proof.
  split; [done|]. split.
  - intros Hi. unfold first_pretrain, base_first_pretrain. py_simpl.
    by rewrite bool_decide_eq_true_2.
  - intros Hi Hc Hn. unfold first_pretrain, base_first_pretrain, target_loader. py_simpl.
    rewrite !bool_decide_eq_false_2 by done. by rewrite Hn.
Qed.

(** C27. The loader of [make_batches] ([training_type=ACTIVE_LEARNING]),
    for a known target dataset and a method other than SwAV, is a
    [DataLoader] over a [MakeBatchDataset] with [shuffle=True] and
    [drop_last=True], batched by [get_params]. *)
Theorem target_loader_active_learning a :
  method a <> ssl_value SWAV ->
  is_Some (get_target_pretrain_ds dataset_value params_image_size params_batch_size a
                                  ACTIVE_LEARNING true None) ->
  exists dir with_train,
    target_loader dataset_value params_image_size params_batch_size a ACTIVE_LEARNING
    = inr (DataLoader (MakeBatchDataset dir with_train true
                         (Transforms (params_image_size a ACTIVE_LEARNING)))
                      (params_batch_size a ACTIVE_LEARNING) true true).
Proof.
  intros Hm [td Htd]. unfold target_loader. rewrite Htd.
  unfold get_target_pretrain_ds in Htd.
  repeat match type of Htd with
         | context [bool_decide ?P] =>
             destruct (bool_decide P);
             [injection Htd as <-; unfold get_loader, loader_transforms, get_dataset; simpl;
              rewrite bool_decide_eq_false_2 by exact Hm; eauto|]
         end.
  discriminate.
Qed.
End PretrainTheorems.

(** ** Concrete runs *)
Definition test_cifar10 (a : Args) : exn + Loader :=
  inr (DataLoader (ImageFolder "/data/cifar10" ComposeToTensor) 32 true true).
Definition test_loader : Loader := DataLoader (ImageFolder "/data/base" ComposeToTensor) 32 true true.

(** A trainer whose state counts the epochs it ran. *)
Definition counting_pops : @PretrainOps test_backend := {|
  po_state := nat;
  po_init _ _ _ _ := py_ret 0;
  po_train_epoch t _ := py_ret (S t, 0%Q);
  po_scheduler_step t := t;
  po_model t := {[ "epochs" := [inject_Z (Z.of_nat t)] ]};
  po_optimizer _ := ∅
|}.

Definition with_args (w : @World test_backend) (m base target : string) : @World test_backend :=
  set_args w {| method := m; al_method := al_method (w_args w); al_batches := al_batches (w_args w);
    al_epochs := al_epochs (w_args w); al_batch_size := al_batch_size (w_args w);
    model_path := model_path (w_args w); al_path_loss_file := al_path_loss_file (w_args w);
    pretrain_path_loss_file := pretrain_path_loss_file (w_args w); resume := resume (w_args w);
    epoch_num := epoch_num (w_args w); current_epoch := current_epoch (w_args w);
    global_step := global_step (w_args w); base_epochs := base_epochs (w_args w);
    start_epoch := start_epoch (w_args w); target_epochs := target_epochs (w_args w);
    base_optimizer := base_optimizer (w_args w); target_optimizer := target_optimizer (w_args w);
    base_dataset := base; target_dataset := target; dataset_dir := dataset_dir (w_args w) |}.

Definition dcl_world := with_args test_world "dcl" "cifar10" "ucmerced".
Definition unknown_dataset_world := with_args test_world "dcl" "stl10" "stl10".

(** 45 epochs from epoch 0: checkpoints after epochs 20 and 40, and at 45. *)
Lemma run_pretrain_checkpoints_witness :
  exists t' w', run_pretrain counting_pops test_encoder test_loader 45 BASE_PRETRAIN "Adam" test_world
                = (inr tt, w') /\
    current_epoch (w_args w') = 45 /\
    resume (w_args w') = Some (epoch_checkpoint (w_args test_world) "1" 45) /\
    files (w_fs w') !! epoch_checkpoint (w_args test_world) "1" 45
      = Some (state_checkpoint (po_model counting_pops t') (po_optimizer counting_pops t') "Adam") /\
    dom (files (w_fs w')) = dom (files (w_fs test_world)) ∪
      list_to_set (map (epoch_checkpoint (w_args test_world) "1") (saved_epochs 0 45))
      ∪ {[epoch_checkpoint (w_args test_world) "1" 45]}.
Proof.
  apply (run_pretrain_checkpoints counting_pops test_encoder test_loader 45 BASE_PRETRAIN "Adam"
           test_world 0 test_world); try reflexivity.
  intros t e w1. by do 3 eexists.
Defined.

Lemma base_pretrain_simclr_type_error_witness :
  method (w_args test_world) = ssl_value SIMCLR /\ start_epoch (w_args test_world) < 10 /\
  base_pretrain counting_pops counting_pops counting_pops test_encoder test_loader 10 BASE_PRETRAIN
    "Adam" test_world = (inl (TypeError train_epoch_arity), test_world).
Proof.
  split; [reflexivity|]. split; [simpl; lia|].
  destruct (base_pretrain_simclr_type_error counting_pops counting_pops counting_pops test_encoder
              test_loader 10 BASE_PRETRAIN "Adam" test_world) as (e & E & He);
    [reflexivity|simpl; lia|].
  rewrite E. by rewrite He.
Defined.

Lemma base_pretrain_resume_witness :
  exists w', base_pretrain counting_pops counting_pops counting_pops test_encoder test_loader 45
               BASE_PRETRAIN "Adam" dcl_world = (inr tt, w') /\
  load_saved_state true "1" w' = read_file (checkpoint_name (w_args w') "1" (current_epoch (w_args w'))) w' /\
  exists sd opt, read_file (checkpoint_name (w_args w') "1" (current_epoch (w_args w'))) w'
                 = (inr (state_checkpoint sd opt "Adam"), w') /\
                 checkpoint_model (state_checkpoint sd opt "Adam") = inr sd.
Proof.
  destruct (base_pretrain counting_pops counting_pops counting_pops test_encoder test_loader 45
              BASE_PRETRAIN "Adam" dcl_world) as [[e|[]] w'] eqn:E; [vm_compute in E; discriminate|].
  exists w'. split; [done|]. exact (base_pretrain_resume _ _ _ _ _ _ _ _ _ E).
Defined.

Lemma pretrain_entry_errors_witness :
  second_pretrain counting_pops counting_pops counting_pops test_world
    = (inl (TypeError "cannot unpack non-iterable NoneType object"), test_world) /\
  first_pretrain test_dataset_value test_image_size test_batch_size test_cifar10
    counting_pops counting_pops counting_pops test_encoder test_world
    = (inl (TypeError "__init__() got an unexpected keyword argument 'training_type'"), test_world) /\
  first_pretrain test_dataset_value test_image_size test_batch_size test_cifar10
    counting_pops counting_pops counting_pops test_encoder unknown_dataset_world
    = (inl (AttributeError "'NoneType' object has no attribute 'get_loader'"), unknown_dataset_world).
Proof.
  destruct (pretrain_entry_errors test_dataset_value test_image_size test_batch_size test_cifar10
              counting_pops counting_pops counting_pops test_encoder test_world) as (H1 & H2 & _).
  destruct (pretrain_entry_errors test_dataset_value test_image_size test_batch_size test_cifar10
              counting_pops counting_pops counting_pops test_encoder unknown_dataset_world)
    as (_ & _ & H3).
  split; [exact H1|]. split; [by apply H2|].
  apply H3; [discriminate|discriminate|vm_compute; reflexivity].
Defined.

Lemma target_loader_active_learning_witness :
  exists dir with_train,
    target_loader test_dataset_value test_image_size test_batch_size test_args ACTIVE_LEARNING
    = inr (DataLoader (MakeBatchDataset dir with_train true (Transforms 224)) 32 true true).
Proof.
  apply (target_loader_active_learning test_dataset_value test_image_size test_batch_size test_args).
  - discriminate.
  - vm_compute. by eexists.
Defined.
