(* ===== verification/ImageNet.v ===== *)
(** * The ImageNet loader ([src/datautils/imagenet.py])

    [ImageNet(args, isAL=False)] records the directory
    [args.dataset_dir + "/imagenet"], the method, and the image and batch
    sizes of active learning ([args.al_image_size], [args.al_batch_size])
    or of pretraining ([args.image_size], [args.batch_size]).
    [get_loader] picks the transforms of SimCLR or MoCo; for SwAV and any
    other method its branch only evaluates the class
    [NotImplementedError] without raising it, so [transforms] is never
    assigned and [ImageFolder(..., transform=transforms)] raises
    [UnboundLocalError].  The loader is a [DataLoader] with
    [drop_last=True] and no shuffling.

    [utils.method_enum.Method] and the [args] fields that [Args] does not
    hold are outside [src/]: the enum's values and those fields are
    section variables. *)

From S2P Require Import Prelude Config Torch TargetDataset Pretrainer.

(** [utils.method_enum.Method]: the members [get_loader] compares with. *)
Module Method.
Inductive t : Type := SIMCLR | MOCO | SWAV.
End Method.

Record ImageNet : Type := {
  in_dir : string;
  in_method : string;
  in_image_size : nat;
  in_batch_size : nat
}.

Section ImageNetLoader.
Variable method_value : Method.t -> string.
Variables args_image_size args_al_image_size args_batch_size : Args -> nat.

(** [ImageNet.__init__] *)
Definition imagenet_init (a : Args) (isAL : bool) : ImageNet :=
  {| in_dir := dataset_dir a +:+ "/imagenet"; in_method := method a;
     in_image_size := if isAL then args_al_image_size a else args_image_size a;
     in_batch_size := if isAL then al_batch_size a else args_batch_size a |}.

(** The value of [transforms] after the [if] chain of [get_loader], or
    [None] when no branch assigns it. *)
Definition imagenet_transforms (self : ImageNet) : option Transform :=
  if bool_decide (in_method self = method_value Method.SIMCLR)
  then Some (TransformsSimCLR (in_image_size self))
  else if bool_decide (in_method self = method_value Method.MOCO)
  then Some (TransformsMoCo (in_image_size self))
  else None.

(** [ImageNet.get_loader] *)
Definition imagenet_get_loader (self : ImageNet) : exn + Loader :=
  match imagenet_transforms self with
  | Some tr => inr (DataLoader (ImageFolder (in_dir self) tr) (in_batch_size self) true false)
  | None => inl (UnboundLocalError "transforms")
  end.

(** The loader of every method: SimCLR and MoCo get their transforms
    and the batch size of the phase chosen by [isAL]; every other method,
    SwAV included, raises [UnboundLocalError] instead of the
    [NotImplementedError] its branch names. *)
Theorem imagenet_get_loader_spec (a : Args) (isAL : bool) :
  let bs := if isAL then al_batch_size a else args_batch_size a in
  let size := if isAL then args_al_image_size a else args_image_size a in
  let dir := dataset_dir a +:+ "/imagenet" in
  imagenet_get_loader (imagenet_init a isAL) =
    if bool_decide (method a = method_value Method.SIMCLR)
    then inr (DataLoader (ImageFolder dir (TransformsSimCLR size)) bs true false)
    else if bool_decide (method a = method_value Method.MOCO)
    then inr (DataLoader (ImageFolder dir (TransformsMoCo size)) bs true false)
    else inl (UnboundLocalError "transforms").
Proof.
  unfold imagenet_get_loader, imagenet_transforms, imagenet_init. simpl.
  by repeat case_bool_decide.
Qed.
End ImageNetLoader.
