(* ===== verification/Persistence.v ===== *)
(** * What a run leaves on disk

    The orchestrator's persistence contract (spec section 4.5 and the
    external interfaces of section 6):
    - the scored pool is saved under [args.al_path_loss_file], and a
      later run reads it instead of rescoring;
    - the proxy of every batch but the last is saved as
      [proxy_<batch>.pth] (the checkpoint theorems of [ActiveLearning]
      relate it to the proxy the next batch uses);
    - the pretraining pool is saved under
      [args.pretrain_path_loss_file].

    The shared invariant is [fs_le] (from [Store]).  Every successful
    step of the scorer and of the loop only adds or replaces files, keeps
    the unwritable paths as they are, and keeps the loop's configuration
    [al_static]; [grows] is this invariant. *)

From S2P Require Import Prelude Sorting PathLoss Config Torch TargetDataset Store Selector Scorer Trainer ActiveLearning.

Section Growth.
Context {BE : Backend} {DE : DatasetEnv}.
Variable pretext_drop_last : bool.
Variables dcl_ops myow_ops : TrainerOps.

(** A run step that succeeds grows the file system and keeps [al_static]. *)
Definition grows (w w' : World) : Prop :=
  fs_le w w' /\ al_static (w_args w') = al_static (w_args w).

Lemma grows_refl w : grows w w.
Proof. split; [apply fs_le_refl|done]. Qed.

Lemma grows_trans w1 w2 w3 : grows w1 w2 -> grows w2 w3 -> grows w1 w3.
Proof. intros [H1 H2] [H3 H4]. split; [by eapply fs_le_trans|congruence]. Qed.

(** The fields of [args] the persistence contract reads. *)
Lemma grows_static w w' :
  grows w w' ->
  model_path (w_args w') = model_path (w_args w) /\
  al_path_loss_file (w_args w') = al_path_loss_file (w_args w) /\
  pretrain_path_loss_file (w_args w') = pretrain_path_loss_file (w_args w) /\
  al_batches (w_args w') = al_batches (w_args w).
Proof. intros [_ Hs]. unfold al_static in Hs. by injection Hs as _ _ -> _ _ -> -> ->. Qed.

Lemma model_path_of_grows w w' name :
  grows w w' -> model_path_of w' name = model_path_of w name.
Proof. intros (Hp & _)%grows_static. unfold model_path_of. by rewrite Hp. Qed.

Lemma writable_grows w w' p : grows w w' -> writable w p -> writable w' p.
Proof. intros [[_ Hu] _]. unfold writable. by rewrite Hu. Qed.

Lemma al_batch_tail_grows st k sm w st' w' :
  al_batch_tail pretext_drop_last dcl_ops myow_ops st k sm w = (inr st', w') -> grows w w'.
Proof.
  intros Ht. pose proof Ht as [Hs _]%al_batch_tail_ckpt. split; [|done].
  revert Ht. unfold al_batch_tail. py_simpl. destruct (k <? _); [|intros [= _ <-]; apply fs_le_refl].
  destruct (train_proxy _ _ _ _ _ _ w) as [[e|m'] w1] eqn:Et; [done|].
  apply train_proxy_frame in Et. apply (f_equal fst) in Et. simpl in Et.
  destruct (simple_save_model _ _ w1) as [[e|[]] w2] eqn:Es; [done|]. intros [= _ <-].
  apply simple_save_model_le in Es. destruct Es as [Hd Hu].
  split; [by rewrite <- Et|by rewrite Hu, Et].
Qed.

(** A successful iteration is its tail run on the world it started in:
    the reload and [finetune] only read. *)
Lemma al_batch_step_tail pl st k w st' w' :
  al_batch_step pretext_drop_last dcl_ops myow_ops pl st k w = (inr st', w') ->
  exists sm, al_batch_tail pretext_drop_last dcl_ops myow_ops st k sm w = (inr st', w').
Proof.
  unfold al_batch_step. py_simpl. destruct (0 <? k); [|eauto].
  destruct (simple_load_model _ w) as [[e|sd] w1] eqn:El;
    apply simple_load_model_frame in El as ->; [done|].
  destruct (load_state_dict _ sd) as [e|m]; [done|].
  destruct (finetune pretext_drop_last m _ w) as [[e|sm] w1] eqn:Ef; [done|].
  apply finetune_inv in Ef as [-> _]. eauto.
Qed.

Lemma al_batch_step_grows pl st k w st' w' :
  al_batch_step pretext_drop_last dcl_ops myow_ops pl st k w = (inr st', w') -> grows w w'.
Proof. intros [sm Ht]%al_batch_step_tail. by eapply al_batch_tail_grows. Qed.

Lemma al_loop_grows pl n st w st' w' :
  py_foldM (al_batch_step pretext_drop_last dcl_ops myow_ops pl) (seq 0 n) st w = (inr st', w') ->
  grows w w'.
Proof.
  apply (py_foldM_seq_inv (fun _ _ w1 => grows w w1)); [|apply grows_refl].
  intros k a s a' s' Hg Hs. eapply grows_trans; [done|]. by eapply al_batch_step_grows.
Qed.

(** [make_batches] on success: the cache holds the result when its path is
    writable, and the world has grown. *)
Lemma make_batches_grows enc ds w res w' :
  make_batches enc ds w = (inr res, w') ->
  grows w w' /\
  (writable w (model_path_of w (al_path_loss_file (w_args w))) ->
   files (w_fs w') !! model_path_of w (al_path_loss_file (w_args w)) = Some (Pickled res)).
Proof.
  intros Hm. pose proof (make_batches_ok_args _ _ _ _ _ Hm) as Ha.
  apply make_batches_inv in Hm as (sd & model & r & order & _ & _ & _ & Hw').
  cbv zeta in Hw'. rewrite save_path_loss_fs in Hw'.
  set (p := model_path_of w (al_path_loss_file (w_args w))).
  assert (Hfs : w_fs w' = if decide (writable w p)
                          then {| files := <[p := Pickled res]> (files (w_fs w));
                                  unwritable := unwritable (w_fs w) |}
                          else w_fs w).
  { rewrite Hw'. unfold writable, p, model_path_of. simpl. repeat case_decide; try done; exfalso; auto. }
  split; [split; [split|]|].
  - rewrite Hfs. case_decide; simpl; [rewrite dom_insert_L|]; set_solver.
  - rewrite Hfs. by case_decide.
  - by rewrite Ha.
  - intros Hw. rewrite Hfs, decide_True by done. apply lookup_insert_eq.
Qed.

Lemma scored_pool_grows enc ds w pl w1 :
  scored_pool enc ds w = (inr pl, w1) -> grows w w1.
Proof.
  unfold scored_pool. py_simpl. rewrite load_path_loss_eq.
  destruct (files (w_fs w) !! _) as [[l|d]|]; [intros [= _ <-]; apply grows_refl|done|].
  intros Hm. by apply make_batches_grows in Hm as [? _].
Qed.
End Growth.

Section Run.
Context {BE : Backend} {DE : DatasetEnv}.
Variable pretext_drop_last : bool.
Variables dcl_ops myow_ops : TrainerOps.

(** A successful run only adds or replaces files and keeps [al_static]. *)
Lemma do_active_learning_grows enc ds w res w' :
  do_active_learning pretext_drop_last dcl_ops myow_ops enc ds w = (inr res, w') -> grows w w'.
Proof.
  intros (pl & w1 & st & w2 & Hs & _ & Hf & -> & _ & ->)%do_active_learning_inv.
  eapply grows_trans; [eapply grows_trans; [exact (scored_pool_grows _ _ _ _ _ Hs)
                                          |exact (al_loop_grows _ _ _ _ _ _ _ _ _ Hf)]|].
  split; [apply save_path_loss_le|]. by rewrite save_path_loss_args.
Qed.

(** C28. The pretraining pool returned by a successful run is what
    [args.pretrain_path_loss_file] holds afterwards, when that path is
    writable: [load_path_loss] gives it back.  The run only adds or
    replaces files and keeps its configuration ([grows]), so every file
    that was there before is still there. *)
Theorem do_active_learning_persists enc ds w res w' :
  writable w (model_path_of w (pretrain_path_loss_file (w_args w))) ->
  do_active_learning pretext_drop_last dcl_ops myow_ops enc ds w = (inr res, w') ->
  grows w w' /\ load_path_loss (pretrain_path_loss_file (w_args w)) w' = (inr (Some res), w').
Proof.
  intros Hw Hrun. split; [exact (do_active_learning_grows _ _ _ _ _ Hrun)|].
  revert Hrun. intros (pl & w1 & st & w2 & Hs & _ & Hf & -> & _ & ->)%do_active_learning_inv.
  pose proof (grows_trans _ _ _ (scored_pool_grows _ _ _ _ _ Hs)
                (al_loop_grows _ _ _ _ _ _ _ _ _ Hf)) as Hg.
  destruct (grows_static _ _ Hg) as (_ & _ & Hp & _).
  rewrite Hp.
  assert (Hw2 : writable w2 (model_path_of w2 (pretrain_path_loss_file (w_args w))))
    by (rewrite (model_path_of_grows _ _ _ Hg); by eapply writable_grows).
  rewrite save_path_loss_fs, decide_True by exact Hw2. rewrite load_path_loss_eq.
  change (model_path_of (set_fs w2 ?fs) ?n) with (model_path_of w2 n).
  simpl. by rewrite lookup_insert_eq.
Qed.

End Run.

Section Cache.
Context {BE : Backend} {DE : DatasetEnv}.

(** C29. The scorer's cache round trip: after [make_batches] succeeds
    with a writable cache path, the orchestrator's next load of the
    scored pool returns the same list without a scoring pass, whatever
    dataset it is given; and the scoring pass only adds or replaces
    files ([grows]). *)
Theorem make_batches_then_cached enc ds ds' w res w' :
  writable w (model_path_of w (al_path_loss_file (w_args w))) ->
  make_batches enc ds w = (inr res, w') ->
  grows w w' /\ scored_pool enc ds' w' = (inr res, w').
Proof.
  intros Hw Hm. apply make_batches_grows in Hm as [Hg Hc]. split; [done|].
  apply scored_pool_cached. destruct (grows_static _ _ Hg) as (_ & -> & _ & _).
  rewrite (model_path_of_grows _ _ _ Hg). by apply Hc.
Qed.
End Cache.

(** ** Concrete runs *)
#[local] Existing Instance test_env.

Lemma do_active_learning_persists_witness :
  exists res w', al_run = (inr res, w') /\ grows al_world w' /\
    load_path_loss (pretrain_path_loss_file (w_args al_world)) w' = (inr (Some res), w').
Proof.
  destruct al_run_ok as (res & w' & E). exists res, w'. split; [done|].
  apply (do_active_learning_persists false (simclr_ops false) (simclr_ops false) test_encoder []);
    [apply not_elem_of_empty|exact E].
Defined.

Lemma make_batches_then_cached_witness :
  exists res w', make_batches test_encoder test_dataset test_world = (inr res, w') /\
    grows test_world w' /\ scored_pool test_encoder ["other.png"] w' = (inr res, w').
Proof.
  destruct (make_batches test_encoder test_dataset test_world) as [[e|res] w'] eqn:E;
    [vm_compute in E; discriminate|].
  exists res, w'. split; [done|].
  apply (make_batches_then_cached _ _ _ _ _ _ (not_elem_of_empty _) E).
Defined.
